(** * system-info-mcp-server: monitor discovery, process listing and tool dispatch

    A shallow embedding of [src/index.js].  JavaScript values are modelled
    by an inductive type, strings by their sequences of UTF-16 code units,
    exceptions by an error monad, and the mutable locals of the detection
    strategies ([monitors], [monitorId]) by a state-and-error monad, so that
    records pushed before an exception survive the [catch], as they do in
    the source. *)

From Stdlib Require Import Strings.String Strings.Ascii DecimalString.
From Stdlib Require Import List Bool Arith ZArith NArith QArith Qround Lia Lqa.
From Stdlib Require Import Sorting.Sorted Sorting.Permutation.
Import ListNotations.

Set Warnings "-register-all".
Close Scope Q_scope.
Open Scope string_scope.
Open Scope list_scope.

(* ================================================================== *)
(** ** JavaScript strings *)
(* ================================================================== *)

Module JsString.

(** A JavaScript string is a sequence of 16-bit code units. *)
Definition jsstring := list N.

(** Literals of the source are ASCII; [u "text"] is the code-unit string. *)
Definition u (s : string) : jsstring :=
  map N_of_ascii (list_ascii_of_string s).

Fixpoint eqb (a b : jsstring) : bool :=
  match a, b with
  | [], [] => true
  | x :: a', y :: b' => N.eqb x y && eqb a' b'
  | _, _ => false
  end.

(** [\s] of a regular expression and the characters removed by [trim()]:
    ECMAScript WhiteSpace and LineTerminator. *)
Definition is_space (c : N) : bool :=
  ((9 <=? c) && (c <=? 13) || (c =? 32) || (c =? 160) || (c =? 5760)
   || ((8192 <=? c) && (c <=? 8202)) || (c =? 8232) || (c =? 8233)
   || (c =? 8239) || (c =? 8287) || (c =? 12288) || (c =? 65279))%N.

(** [\d] of a regular expression without the unicode-sets flag: [0-9]. *)
Definition is_digit (c : N) : bool := ((48 <=? c) && (c <=? 57))%N.

Fixpoint starts_with (p s : jsstring) : bool :=
  match p, s with
  | [], _ => true
  | x :: p', y :: s' => N.eqb x y && starts_with p' s'
  | _ :: _, [] => false
  end.

(** [s.includes(sub)] *)
Fixpoint includes (s sub : jsstring) : bool :=
  starts_with sub s ||
  match s with
  | [] => false
  | _ :: s' => includes s' sub
  end.

(** Longest prefix whose characters satisfy [p], and the rest. *)
Fixpoint span (p : N -> bool) (s : jsstring) : jsstring * jsstring :=
  match s with
  | [] => ([], [])
  | c :: s' =>
      if p c then let (a, b) := span p s' in (c :: a, b) else ([], s)
  end.

Fixpoint drop_while (p : N -> bool) (s : jsstring) : jsstring :=
  match s with
  | [] => []
  | c :: s' => if p c then drop_while p s' else s
  end.

(** [s.trim()] *)
Definition trim (s : jsstring) : jsstring :=
  rev (drop_while is_space (rev (drop_while is_space s))).

(** [s.split(sep)] for a string separator.  [skip] counts the characters
    of a separator occurrence that are still to be passed over; [cur] is
    the current piece, reversed. *)
Fixpoint split_scan (sep s : jsstring) (skip : nat) (cur : jsstring)
  : list jsstring :=
  match s with
  | [] => [rev cur]
  | c :: s' =>
      match skip with
      | S k => split_scan sep s' k cur
      | O =>
          if starts_with sep s
          then rev cur :: split_scan sep s' (List.length sep - 1) []
          else split_scan sep s' 0 (c :: cur)
      end
  end.

Definition split (s sep : jsstring) : list jsstring :=
  match sep with
  | [] => map (fun c => [c]) s
  | _ :: _ => split_scan sep s 0 []
  end.

(** [s.split(/\s+/)]: the pieces between maximal runs of white space; a
    leading or trailing run leaves an empty first or last piece.
    [in_sep] tells that the previous character was white space. *)
Fixpoint split_ws_scan (s : jsstring) (in_sep : bool) (cur : jsstring)
  : list jsstring :=
  match s with
  | [] => [rev cur]
  | c :: s' =>
      if is_space c
      then if in_sep then split_ws_scan s' true cur
           else rev cur :: split_ws_scan s' true []
      else split_ws_scan s' false (c :: cur)
  end.

Definition split_ws (s : jsstring) : list jsstring :=
  split_ws_scan s false [].

(** One attempt of [/(\d+)x(\d+)/] at the start of [s].  [\d+] is greedy
    and a shorter run of digits is followed by a digit, never by [x], so
    backtracking finds nothing more: both groups are maximal runs. *)
Definition match_resolution_here (s : jsstring)
  : option (jsstring * jsstring) :=
  let (w, r) := span is_digit s in
  match w, r with
  | _ :: _, c :: r' =>
      if N.eqb c 120 then
        let (h, _) := span is_digit r' in
        match h with
        | _ :: _ => Some (w, h)
        | [] => None
        end
      else None
  | _, _ => None
  end.

(** [s.match(/(\d+)x(\d+)/)]: the leftmost position with a match; the
    result holds the two capture groups. *)
Fixpoint match_resolution (s : jsstring) : option (jsstring * jsstring) :=
  match match_resolution_here s with
  | Some g => Some g
  | None =>
      match s with
      | [] => None
      | _ :: s' => match_resolution s'
      end
  end.

(** Decimal text of a non-negative integer, as a template literal
    prints it. *)
Definition of_nat (n : nat) : jsstring :=
  u (NilZero.string_of_uint (Nat.to_uint n)).

(** Iteration of a string by [for ... of]: code points, a surrogate pair
    counting as one. *)
Definition is_high_surrogate (c : N) : bool :=
  ((55296 <=? c) && (c <=? 56319))%N.
Definition is_low_surrogate (c : N) : bool :=
  ((56320 <=? c) && (c <=? 57343))%N.

Fixpoint code_points (s : jsstring) : list jsstring :=
  match s with
  | [] => []
  | c :: s' =>
      match s' with
      | d :: s'' =>
          if is_high_surrogate c && is_low_surrogate d
          then [c; d] :: code_points s''
          else [c] :: code_points s'
      | [] => [[c]]
      end
  end.

End JsString.
Import JsString.

(* ================================================================== *)
(** ** JavaScript values, exceptions and mutable locals *)
(* ================================================================== *)

(** Values as [JSON.parse] builds them and as the handlers return them.
    Numbers are the finite ones, taken as rationals; an object keeps its
    properties in insertion order. *)
Inductive value : Type :=
| VUndef
| VNull
| VBool (b : bool)
| VNum (q : Q)
| VStr (s : jsstring)
| VArr (l : list value)
| VObj (o : list (jsstring * value)).

(** The outcome of an expression or of an awaited promise: a value, or
    an [Error] thrown with its [message]. *)
Inductive result (A : Type) : Type :=
| Ok (a : A)
| Throw (message : jsstring).
Arguments Ok {A} a.
Arguments Throw {A} message.

Module Js.

Definition num_of_nat (n : nat) : value := VNum (inject_Z (Z.of_nat n)).

(** ToBoolean *)
Definition truthy (v : value) : bool :=
  match v with
  | VUndef | VNull => false
  | VBool b => b
  | VNum q => negb (Qeq_bool q 0)
  | VStr s => match s with [] => false | _ :: _ => true end
  | VArr _ | VObj _ => true
  end.

(** [a || b] *)
Definition or (a b : value) : value := if truthy a then a else b.

Fixpoint lookup (k : jsstring) (o : list (jsstring * value)) : value :=
  match o with
  | [] => VUndef
  | (k', v) :: o' => if JsString.eqb k k' then v else lookup k o'
  end.

(** [v.k] for a property name [k] that no prototype defines (all the
    names read from parsed output are such): a [TypeError] on [null] and
    [undefined], the own property of an object, [undefined] otherwise. *)
Definition get (v : value) (k : jsstring) : result value :=
  match v with
  | VUndef | VNull => Throw (u "Cannot read properties of null or undefined")
  | VObj o => Ok (lookup k o)
  | VBool _ | VNum _ | VStr _ | VArr _ => Ok VUndef
  end.

(** The property of a record the code has built itself. *)
Definition field (k : string) (v : value) : value :=
  match v with
  | VObj o => lookup (u k) o
  | _ => VUndef
  end.

(** The values a [for (const x of v)] loop runs over. *)
Definition iterate (v : value) : result (list value) :=
  match v with
  | VArr l => Ok l
  | VStr s => Ok (map VStr (code_points s))
  | VUndef | VNull | VBool _ | VNum _ | VObj _ =>
      Throw (u "value is not iterable")
  end.

(** [v.includes(arg)] with a string argument: [String.prototype.includes]
    on a string, [Array.prototype.includes] (an element equal to the
    string) on an array, a [TypeError] on anything else, which has no
    such method. *)
Definition call_includes (v : value) (arg : jsstring) : result bool :=
  match v with
  | VStr s => Ok (includes s arg)
  | VArr l =>
      Ok (existsb (fun e => match e with
                            | VStr t => JsString.eqb t arg
                            | _ => false
                            end) l)
  | VUndef | VNull | VBool _ | VNum _ | VObj _ =>
      Throw (u "includes is not a function")
  end.

(** [v.split(sep)]: only strings have the method. *)
Definition call_split (v : value) (sep : jsstring) : result (list jsstring) :=
  match v with
  | VStr s => Ok (split s sep)
  | _ => Throw (u "split is not a function")
  end.

(** ToIntegerOrInfinity of a finite number: truncation towards zero. *)
Definition to_integer (q : Q) : Z :=
  if Qle_bool 0 q then Qfloor q else Qceiling q.

(** [l.slice(start, end)] *)
Definition slice {A : Type} (l : list A) (start stop : Z) : list A :=
  let len := Z.of_nat (List.length l) in
  let k := if (start <? 0)%Z then Z.max (len + start) 0 else Z.min start len in
  let final := if (stop <? 0)%Z then Z.max (len + stop) 0 else Z.min stop len in
  firstn (Z.to_nat (Z.max (final - k) 0)) (skipn (Z.to_nat k) l).

(** [l.map((x, index) => f x index)], the index starting at [i]. *)
Fixpoint mapi_from {A B : Type} (f : A -> nat -> B) (i : nat) (l : list A)
  : list B :=
  match l with
  | [] => []
  | x :: l' => f x i :: mapi_from f (S i) l'
  end.

Definition mapi {A B : Type} (f : A -> nat -> B) (l : list A) : list B :=
  mapi_from f 0 l.

(** [l.sort(cmp)].  For a consistent comparator the result is the one
    stable sorted arrangement, whatever the engine's algorithm; it is
    computed here by insertion, an element going before the first later
    one it does not have to follow. *)
Fixpoint sort_insert {A : Type} (cmp : A -> A -> Q) (x : A) (l : list A)
  : list A :=
  match l with
  | [] => [x]
  | y :: l' =>
      if Qle_bool (cmp x y) 0 then x :: l else y :: sort_insert cmp x l'
  end.

Fixpoint sort {A : Type} (cmp : A -> A -> Q) (l : list A) : list A :=
  match l with
  | [] => []
  | x :: l' => sort_insert cmp x (sort cmp l')
  end.

End Js.

(** Error monad for code that may throw. *)
Definition bind {A B : Type} (m : result A) (f : A -> result B) : result B :=
  match m with
  | Ok a => f a
  | Throw e => Throw e
  end.

(** [try { m } catch (error) { h error.message }] *)
Definition try_catch {A : Type} (m : result A) (h : jsstring -> result A)
  : result A :=
  match m with
  | Ok a => Ok a
  | Throw e => h e
  end.

Declare Scope js_scope.
Delimit Scope js_scope with js.
Notation "'let*' x ':=' m 'in' k" := (bind m (fun x => k))
  (at level 10, x name, m at level 100, k at level 200) : js_scope.

(** Code that may throw while it updates locals declared outside its
    [try]: the locals keep the updates made before the exception. *)
Module Eff.
Section WithState.
Context {S : Type}.

Definition M (A : Type) : Type := S -> result A * S.

Definition ret {A} (a : A) : M A := fun s => (Ok a, s).

Definition bind {A B} (m : M A) (f : A -> M B) : M B :=
  fun s =>
    match m s with
    | (Ok a, s') => f a s'
    | (Throw e, s') => (Throw e, s')
    end.

Definition lift {A} (r : result A) : M A := fun s => (r, s).

Definition get : M S := fun s => (Ok s, s).

Definition put (s' : S) : M unit := fun _ => (Ok tt, s').

(** [try { m } catch (error) { }]: the exception is dropped, the state
    reached is kept. *)
Definition try_ignore (m : M unit) : M unit :=
  fun s =>
    match m s with
    | (Ok tt, s') => (Ok tt, s')
    | (Throw _, s') => (Ok tt, s')
    end.

(** [for (const x of l) { f x }] *)
Fixpoint for_of {A} (f : A -> M unit) (l : list A) : M unit :=
  match l with
  | [] => ret tt
  | x :: l' => bind (f x) (fun _ => for_of f l')
  end.

(** [l.forEach((x, index) => f x index)], the index starting at [i]. *)
Fixpoint for_each_from {A} (f : A -> nat -> M unit) (i : nat) (l : list A)
  : M unit :=
  match l with
  | [] => ret tt
  | x :: l' => bind (f x i) (fun _ => for_each_from f (Datatypes.S i) l')
  end.

(** What the code returns, run from the initial locals [s]. *)
Definition eval {A} (m : M A) (s : S) : result A := fst (m s).
End WithState.
Arguments M : clear implicits.
End Eff.

Declare Scope eff_scope.
Delimit Scope eff_scope with eff.
Notation "'do*' x '<-' m ';' k" := (Eff.bind m (fun x => k))
  (at level 10, x name, m at level 100, k at level 200) : eff_scope.

(* ================================================================== *)
(** ** The runtime library and the host *)
(* ================================================================== *)

(** Library functions of the JavaScript runtime that the server calls. *)
Class Runtime : Type := {
  (** [JSON.parse(text)], throwing a [SyntaxError] on malformed text *)
  JSON_parse : jsstring -> result value;
  (** [JSON.stringify(v, null, 2)] of a handler's result *)
  JSON_stringify : value -> jsstring;
  (** [a.localeCompare(b)]: negative, zero or positive *)
  localeCompare : jsstring -> jsstring -> Z;
  (** [x.toFixed(digits)] *)
  toFixed : Q -> nat -> jsstring
}.

(** How a child process started by [exec] ends. *)
Inductive exec_outcome : Type :=
| Exited (code : Z) (stdout : jsstring)
| TimedOut
| SpawnFailed.

(** One entry of [si.graphics().displays]; a property that is absent
    is [VUndef]. *)
Module Display.
Record t : Type := {
  model : value;
  vendor : value;
  resolutionX : value;
  resolutionY : value;
  main : value;
  builtin : value
}.
End Display.

(** What [si.graphics()] resolves to. *)
Module Graphics.
Record t : Type := { displays : option (list Display.t) }.
End Graphics.

(** One entry of [si.processes().list]. *)
Module Process.
Record t : Type := {
  pid : value;
  name : jsstring;
  cpu : Q;
  memRss : Q;
  memVss : Q;
  state : value;
  started : value;
  user : value
}.
End Process.

(** What [si.processes()] resolves to. *)
Module Processes.
Record t : Type := {
  all : value;
  running : value;
  sleeping : value;
  blocked : value;
  list : Datatypes.list Process.t
}.
End Processes.

(** [request.params.arguments], with the two properties a handler reads. *)
Module Args.
Record t : Type := {
  limit : option Q;
  sort_by : value
}.
End Args.

(** [request.params] of a tool call. *)
Module Params.
Record t : Type := {
  name : jsstring;
  arguments : option Args.t
}.
End Params.

(** The host as one call observes it: the [os] module, the metrics
    provider [si], the child processes, and the outcome of the handlers
    that only reformat provider data. *)
Record Host : Type := {
  os_platform : jsstring;
  os_totalmem : Q;
  (** the command line and the [timeout] option, in milliseconds *)
  child_process_exec : jsstring -> Z -> exec_outcome;
  si_graphics : result (option Graphics.t);
  si_processes : result Processes.t;
  getCpuInfo : result value;
  getMemoryInfo : result value;
  getDiskUsage : result value;
  getSystemInfo : result value;
  getNetworkInfo : result value;
  getQuickStats : result value
}.

(** [promisify(exec)]: resolves with the output when the command exits
    with code 0, rejects otherwise. *)
Definition execAsync (h : Host) (cmd : jsstring) (timeout : Z)
  : result jsstring :=
  match child_process_exec h cmd timeout with
  | Exited 0 stdout => Ok stdout
  | Exited _ _ => Throw (u "Command failed")
  | TimedOut => Throw (u "Command failed: timed out")
  | SpawnFailed => Throw (u "spawn failed")
  end.

(* ================================================================== *)
(** ** Monitor discovery *)
(* ================================================================== *)

Definition unknown : value := VStr (u "Unknown").

(** An object literal [{ k1: v1, ... }]. *)
Definition obj (props : list (string * value)) : value :=
  VObj (map (fun kv => (u (fst kv), snd kv)) props).

(** The locals shared by a strategy's loop and its [return]. *)
Record locals : Type := {
  monitors : list value;
  monitorId : nat
}.

Definition locals0 : locals := {| monitors := []; monitorId := 1 |}.

Local Open Scope js_scope.
Local Open Scope eff_scope.

(** [monitors.push(r)] *)
Definition push (r : value) : Eff.M locals unit :=
  do* s <- Eff.get;
  Eff.put {| monitors := monitors s ++ [r]; monitorId := monitorId s |}.

(** [monitorId++], giving the value before the increment. *)
Definition post_increment : Eff.M locals nat :=
  do* s <- Eff.get;
  do* _ <- Eff.put {| monitors := monitors s; monitorId := S (monitorId s) |};
  Eff.ret (monitorId s).

(** [try { body } catch (error) { } return monitors;] *)
Definition returning_monitors (body : Eff.M locals unit)
  : result (list value) :=
  Eff.eval (do* _ <- Eff.try_ignore body;
            do* s <- Eff.get;
            Eff.ret (monitors s)) locals0.

Section Server.
Context {RT : Runtime}.

(** *** Windows *)

Definition windows_cmd : jsstring :=
  u "powershell " ++ [34%N] ++
  u "Get-CimInstance -Namespace root/wmi -ClassName WmiMonitorBasicDisplayParams | ForEach-Object { $_ | Select-Object InstanceName, MaxHorizontalImageSize, MaxVerticalImageSize } | ConvertTo-Json"
  ++ [34%N].

(** The callback of [data.forEach]. *)
Definition windows_monitor (monitor : value) (index : nat)
  : Eff.M locals unit :=
  do* instance <- Eff.lift (Js.get monitor (u "InstanceName"));
  do* horizontal <- Eff.lift (Js.get monitor (u "MaxHorizontalImageSize"));
  do* vertical <- Eff.lift (Js.get monitor (u "MaxVerticalImageSize"));
  push (obj [("id", Js.num_of_nat (index + 1));
             ("name", VStr (u "Monitor " ++ of_nat (index + 1)));
             ("width", unknown);
             ("height", unknown);
             ("instance", Js.or instance unknown);
             ("physical_width_cm", horizontal);
             ("physical_height_cm", vertical);
             ("detection_method", VStr (u "wmi"))]).

(** The statements of the [try] block of [_getWindowsMonitors]. *)
Definition windows_try (h : Host) : Eff.M locals unit :=
  do* stdout <- Eff.lift (execAsync h windows_cmd 10000);
  if Js.truthy (VStr (trim stdout)) then
    do* parsed <- Eff.lift (JSON_parse stdout);
    let data := match parsed with
                | VArr l => l
                | _ => [parsed]
                end in
    Eff.for_each_from windows_monitor 0 data
  else Eff.ret tt.

Definition _getWindowsMonitors (h : Host) : result (list value) :=
  returning_monitors (windows_try h).

(** *** macOS *)

(** The [if (resolution.includes(' x ')) { try { ... } catch (e) { } }]
    block; its locals are [width] and [height]. *)
Definition macos_resolution (resolution : value)
  : Eff.M (value * value) unit :=
  do* found <- Eff.lift (Js.call_includes resolution (u " x "));
  if found : bool then
    Eff.try_ignore
      (do* parts <- Eff.lift (Js.call_split resolution (u " x "));
       do* left <- Eff.lift (match nth_error parts 0 with
                             | Some p => Ok p
                             | None => Throw (u "Cannot read properties of undefined")
                             end);
       do* wh <- Eff.get;
       do* _ <- Eff.put (VStr (trim left), snd wh);
       do* right <- Eff.lift (match nth_error parts 1 with
                              | Some p => Ok p
                              | None => Throw (u "Cannot read properties of undefined")
                              end);
       do* wh' <- Eff.get;
       Eff.put (fst wh', match split right (u " ") with
                         | t :: _ => VStr t
                         | [] => VUndef
                         end))
  else Eff.ret tt.

(** The body of the inner [for (const monitor of displayInfo)]. *)
Definition macos_monitor (monitor : value) : Eff.M locals unit :=
  do* res <- Eff.lift (Js.get monitor (u "_spdisplays_resolution"));
  let resolution := Js.or res (VStr []) in
  match macos_resolution resolution (unknown, unknown) with
  | (Throw e, _) => Eff.lift (Throw e)
  | (Ok _, (width, height)) =>
      do* id <- post_increment;
      do* n1 <- Eff.lift (Js.get monitor (u "_name"));
      do* s <- Eff.get;
      let name := Js.or n1 (VStr (u "Monitor " ++ of_nat (monitorId s))) in
      do* n2 <- Eff.lift (Js.get monitor (u "_name"));
      do* retina <- Eff.lift (Js.call_includes (Js.or n2 (VStr [])) (u "Retina"));
      push (obj [("id", Js.num_of_nat id);
                 ("name", name);
                 ("width", width);
                 ("height", height);
                 ("retina", VBool retina);
                 ("detection_method", VStr (u "system_profiler"))])
  end.

(** The body of the outer [for (const display of displays)]. *)
Definition macos_display (display : value) : Eff.M locals unit :=
  do* ndrvs <- Eff.lift (Js.get display (u "spdisplays_ndrvs"));
  let displayInfo := Js.or ndrvs (VArr []) in
  do* entries <- Eff.lift (Js.iterate displayInfo);
  Eff.for_of macos_monitor entries.

(** The statements of the [try] block of [_getMacOSMonitors]. *)
Definition macos_try (h : Host) : Eff.M locals unit :=
  do* stdout <- Eff.lift
       (execAsync h (u "system_profiler SPDisplaysDataType -json") 15000);
  do* data <- Eff.lift (JSON_parse stdout);
  do* dt <- Eff.lift (Js.get data (u "SPDisplaysDataType"));
  let displays := Js.or dt (VArr []) in
  do* entries <- Eff.lift (Js.iterate displays);
  Eff.for_of macos_display entries.

Definition _getMacOSMonitors (h : Host) : result (list value) :=
  returning_monitors (macos_try h).

(** *** Linux *)

(** The body of [for (const line of lines)]. *)
Definition linux_line (line : jsstring) : Eff.M locals unit :=
  if includes line (u " connected") && negb (includes line (u "disconnected"))
  then
    let parts := split_ws line in
    let name := match parts with
                | p :: _ => VStr p
                | [] => VUndef
                end in
    match match_resolution line with
    | Some (width, height) =>
        do* id <- post_increment;
        push (obj [("id", Js.num_of_nat id);
                   ("name", name);
                   ("width", VStr width);
                   ("height", VStr height);
                   ("is_primary", VBool (includes line (u "primary")));
                   ("detection_method", VStr (u "xrandr"))])
    | None => Eff.ret tt
    end
  else Eff.ret tt.

(** The statements of the [try] block of [_getLinuxMonitors]. *)
Definition linux_try (h : Host) : Eff.M locals unit :=
  do* stdout <- Eff.lift (execAsync h (u "xrandr --query") 10000);
  let lines := split stdout [10%N] in
  Eff.for_of linux_line lines.

Definition _getLinuxMonitors (h : Host) : result (list value) :=
  returning_monitors (linux_try h).

(** *** The chain *)

(** The callback of [displays.displays.map]. *)
Definition systeminformation_monitor (display : Display.t) (index : nat)
  : value :=
  obj [("id", Js.num_of_nat (index + 1));
       ("name", Js.or (Display.model display)
                      (VStr (u "Display " ++ of_nat (index + 1))));
       ("vendor", Js.or (Display.vendor display) unknown);
       ("width", Js.or (Display.resolutionX display) unknown);
       ("height", Js.or (Display.resolutionY display) unknown);
       ("main", Js.or (Display.main display) (VBool false));
       ("builtin", Js.or (Display.builtin display) (VBool false));
       ("detection_method", VStr (u "systeminformation"))].

Definition fallback_monitor : value :=
  obj [("id", Js.num_of_nat 1);
       ("name", VStr (u "Unknown Monitor"));
       ("width", unknown);
       ("height", unknown);
       ("detection_method", VStr (u "fallback"));
       ("note", VStr (u "Unable to detect monitor details"))].

(** The records of the first strategy: [displays && displays.displays &&
    displays.displays.length > 0] guards the [map]. *)
Definition systeminformation_monitors (displays : option Graphics.t)
  : list value :=
  match displays with
  | Some {| Graphics.displays := Some ds |} =>
      if (0 <? List.length ds)%nat
      then Js.mapi systeminformation_monitor ds
      else []
  | _ => []
  end.

(** The records of the strategy of the running platform. *)
Definition platform_monitors (h : Host) : result (list value) :=
  let systemName := os_platform h in
  if JsString.eqb systemName (u "win32") then _getWindowsMonitors h
  else if JsString.eqb systemName (u "darwin") then _getMacOSMonitors h
  else if JsString.eqb systemName (u "linux") then _getLinuxMonitors h
  else Ok [].

Definition getMonitorInfo (h : Host) : result value :=
  let systemName := os_platform h in
  try_catch
    (let* displays := si_graphics h in
     let monitors := systeminformation_monitors displays in
     let* monitors :=
       if (List.length monitors =? 0)%nat then platform_monitors h
       else Ok monitors in
     let monitors :=
       if (List.length monitors =? 0)%nat then [fallback_monitor] else monitors in
     Ok (obj [("total_monitors", Js.num_of_nat (List.length monitors));
              ("monitors", VArr monitors);
              ("system", VStr systemName)]))
    (fun message =>
       Ok (obj [("error", VStr (u "Failed to get monitor info: " ++ message));
                ("system", VStr systemName)])).

(* ================================================================== *)
(** ** Running processes *)
(* ================================================================== *)

(** [v === 'text'] *)
Definition strict_equals (v : value) (text : string) : bool :=
  match v with
  | VStr t => JsString.eqb t (u text)
  | _ => false
  end.

(** The [switch (sortBy)]; [processes.list] is sorted in place, and
    nothing else reads it afterwards. *)
Definition sort_processes (sortBy : value) (l : list Process.t)
  : list Process.t :=
  if strict_equals sortBy "memory" then
    Js.sort (fun a b => (Process.memRss b - Process.memRss a)%Q) l
  else if strict_equals sortBy "name" then
    Js.sort (fun a b =>
               inject_Z (localeCompare (Process.name a) (Process.name b))) l
  else if strict_equals sortBy "cpu" then
    Js.sort (fun a b => (Process.cpu b - Process.cpu a)%Q) l
  else (* default: *)
    Js.sort (fun a b => (Process.cpu b - Process.cpu a)%Q) l.

(** The callback of the final [map]. *)
Definition format_process (h : Host) (proc : Process.t) : value :=
  obj [("pid", Process.pid proc);
       ("name", VStr (Process.name proc));
       ("cpu_percent", VStr (toFixed (Process.cpu proc) 1 ++ u "%"));
       ("memory_mb",
        VStr (toFixed (Process.memRss proc / 1024 / 1024)%Q 1 ++ u " MB"));
       ("memory_percent",
        VStr ((if Js.truthy (VNum (Process.memVss proc))
               then toFixed (Process.memVss proc / os_totalmem h * 100)%Q 1
               else u "0.0") ++ u "%"));
       ("status", Process.state proc);
       ("started", Process.started proc);
       ("user", Js.or (Process.user proc) (VStr (u "N/A")))].

Definition summary (processes : Processes.t) : value :=
  obj [("total_processes", Processes.all processes);
       ("running", Processes.running processes);
       ("sleeping", Processes.sleeping processes);
       ("blocked", Js.or (Processes.blocked processes) (VNum 0))].

(** The processes kept: sorted, then [slice(0, limit)]. *)
Definition selected_processes (limit : Q) (sortBy : value)
  (processes : Processes.t) : list Process.t :=
  Js.slice (sort_processes sortBy (Processes.list processes))
           0 (Js.to_integer limit).

(** [getRunningProcesses(limit = 20, sortBy = 'cpu')]; [None] and
    [VUndef] stand for an argument that is not given. *)
Definition getRunningProcesses (h : Host) (limit : option Q) (sortBy : value)
  : result value :=
  let limit := match limit with
               | Some q => q
               | None => 20%Q
               end in
  let sortBy := match sortBy with
                | VUndef => VStr (u "cpu")
                | v => v
                end in
  let* processes := si_processes h in
  Ok (obj [("summary", summary processes);
           ("processes",
            VArr (map (format_process h)
                      (selected_processes limit sortBy processes)))]).

(* ================================================================== *)
(** ** Tool dispatch *)
(* ================================================================== *)

Definition text_content (text : jsstring) : value :=
  VArr [obj [("type", VStr (u "text")); ("text", VStr text)]].

(** The handler registered for [CallToolRequestSchema]. *)
Definition callTool (h : Host) (params : Params.t) : result value :=
  let name := Params.name params in
  let args := Params.arguments params in
  try_catch
    (let* result :=
       if JsString.eqb name (u "get_cpu_info") then getCpuInfo h
       else if JsString.eqb name (u "get_memory_info") then getMemoryInfo h
       else if JsString.eqb name (u "get_disk_usage") then getDiskUsage h
       else if JsString.eqb name (u "get_running_processes") then
         getRunningProcesses h
           (match args with Some a => Args.limit a | None => None end)
           (match args with Some a => Args.sort_by a | None => VUndef end)
       else if JsString.eqb name (u "get_system_info") then getSystemInfo h
       else if JsString.eqb name (u "get_network_info") then getNetworkInfo h
       else if JsString.eqb name (u "get_quick_stats") then getQuickStats h
       else if JsString.eqb name (u "get_monitor_info") then getMonitorInfo h
       else Throw (u "Unknown tool: " ++ name) in
     Ok (obj [("content",
               text_content (match result with
                             | VStr text => text
                             | _ => JSON_stringify result
                             end))]))
    (fun message =>
       Ok (obj [("content", text_content (u "Error: " ++ message));
                ("isError", VBool true)])).

End Server.

(** The tool names of the [switch] in [callTool]. *)
Definition tool_names : list jsstring :=
  map u ["get_cpu_info"; "get_memory_info"; "get_disk_usage";
         "get_running_processes"; "get_system_info"; "get_network_info";
         "get_quick_stats"; "get_monitor_info"].

(* ================================================================== *)
(** ** Sample runtime and hosts *)
(* ================================================================== *)

(** Comparison of two strings by code units, used where a concrete
    comparator is needed. *)
Fixpoint compare_code_units (a b : jsstring) : Z :=
  match a, b with
  | [], [] => 0
  | [], _ :: _ => -1
  | _ :: _, [] => 1
  | x :: a', y :: b' =>
      if (x <? y)%N then -1
      else if (y <? x)%N then 1
      else compare_code_units a' b'
  end.

(** A runtime whose [JSON.parse] is the given function. *)
Definition runtime_parsing (parse : jsstring -> result value) : Runtime := {|
  JSON_parse := parse;
  JSON_stringify := fun _ => u "{}";
  localeCompare := compare_code_units;
  toFixed := fun _ _ => u "0.0"
|}.

(** A host on the given platform whose graphics query, child processes
    and process query end as given. *)
Definition host_with (platform : string) (graphics : result (option Graphics.t))
  (outcome : exec_outcome) (processes : result Processes.t) : Host := {|
  os_platform := u platform;
  os_totalmem := 8589934592;
  child_process_exec := fun _ _ => outcome;
  si_graphics := graphics;
  si_processes := processes;
  getCpuInfo := Ok (obj []);
  getMemoryInfo := Ok (obj []);
  getDiskUsage := Ok (VArr []);
  getSystemInfo := Ok (obj []);
  getNetworkInfo := Ok (obj []);
  getQuickStats := Ok (obj [])
|}.

Definition no_display : Display.t := {|
  Display.model := VStr [];
  Display.vendor := VStr [];
  Display.resolutionX := VNum 1920;
  Display.resolutionY := VNum 1080;
  Display.main := VBool true;
  Display.builtin := VBool false
|}.

Definition one_display : option Graphics.t :=
  Some {| Graphics.displays := Some [no_display] |}.

Definition no_displays : option Graphics.t :=
  Some {| Graphics.displays := Some [] |}.

Definition process_named (name : string) (cpu memRss : Q) : Process.t := {|
  Process.pid := VNum 1;
  Process.name := u name;
  Process.cpu := cpu;
  Process.memRss := memRss;
  Process.memVss := 0;
  Process.state := VStr (u "sleeping");
  Process.started := VStr [];
  Process.user := VStr (u "root")
|}.

Definition three_processes : Processes.t := {|
  Processes.all := VNum 3;
  Processes.running := VNum 1;
  Processes.sleeping := VNum 2;
  Processes.blocked := VNum 0;
  Processes.list := [process_named "init" 1 300;
                     process_named "node" 7 200;
                     process_named "bash" 3 100]
|}.

(** Output of [xrandr --query] with one connected and one disconnected
    output. *)
Definition xrandr_output : jsstring :=
  u "Screen 0: minimum 8 x 8, current 1920 x 1080" ++ [10%N] ++
  u "HDMI-1 connected primary 1920x1080+0+0 (normal left inverted right x axis y axis) 527mm x 296mm"
  ++ [10%N] ++
  u "   1920x1080     60.00*+" ++ [10%N] ++
  u "HDMI-2 disconnected" ++ [10%N].

(** Parsed output of [system_profiler]: one adapter with one monitor
    that has a resolution and no name. *)
Definition profiler_output : value :=
  VObj [(u "SPDisplaysDataType",
         VArr [VObj [(u "spdisplays_ndrvs",
                      VArr [VObj [(u "_spdisplays_resolution",
                                   VStr (u "1920 x 1080 @ 60Hz"))]])]])].

(** The text of [profiler_output]. *)
Definition quoted (s : string) : jsstring := [34%N] ++ u s ++ [34%N].

Definition profiler_text : jsstring :=
  u "{" ++ quoted "SPDisplaysDataType" ++ u ":[{" ++
  quoted "spdisplays_ndrvs" ++ u ":[{" ++
  quoted "_spdisplays_resolution" ++ u ":" ++ quoted "1920 x 1080 @ 60Hz" ++
  u "}]}]}".

(** A runtime that parses [profiler_text] and rejects any other text. *)
Definition sample_runtime : Runtime :=
  runtime_parsing (fun text =>
    if JsString.eqb text profiler_text then Ok profiler_output
    else Throw (u "Unexpected token")).

(** A Linux host whose graphics query reports one display. *)
Definition display_host : Host :=
  host_with "linux" (Ok one_display) (Exited 0 xrandr_output)
            (Ok three_processes).

(** A Linux host whose graphics query reports nothing. *)
Definition xrandr_host : Host :=
  host_with "linux" (Ok no_displays) (Exited 0 xrandr_output)
            (Ok three_processes).

(** A macOS host whose graphics query reports nothing. *)
Definition profiler_host : Host :=
  host_with "darwin" (Ok no_displays) (Exited 0 profiler_text)
            (Ok three_processes).

(** A Linux host whose graphics query is rejected while [xrandr] lists a
    monitor. *)
Definition rejecting_host : Host :=
  host_with "linux" (Throw (u "lspci: not found")) (Exited 0 xrandr_output)
            (Ok three_processes).




(* ================================================================== *)
(** ** Vocabulary of the statements *)
(* ================================================================== *)

(** The text of a line before its first white-space character. *)
Definition first_field (line : jsstring) : jsstring :=
  fst (span (fun c => negb (is_space c)) line).

(** A non-empty run of decimal digits. *)
Definition digits (w : jsstring) : Prop :=
  w <> [] /\ forallb is_digit w = true.

(** The line has a substring of the shape <digits>x<digits>. *)
Definition has_resolution (line : jsstring) : Prop :=
  exists pre w h post,
    line = pre ++ w ++ [120%N] ++ h ++ post /\ digits w /\ digits h.

(** The records are numbered 1, 2, ... in their order. *)
Definition ids_ok (l : list value) : Prop :=
  map (Js.field "id") l = map Js.num_of_nat (seq 1 (List.length l)).

(** Every record carries the detection method [tag]. *)
Definition tagged (tag : string) (l : list value) : Prop :=
  Forall (fun r => Js.field "detection_method" r = VStr (u tag)) l.

(** The two shapes of what [getMonitorInfo] returns. *)
Definition monitor_info (systemName : jsstring) (monitors : list value)
  : value :=
  obj [("total_monitors", Js.num_of_nat (List.length monitors));
       ("monitors", VArr monitors);
       ("system", VStr systemName)].

Definition monitor_error (systemName message : jsstring) : value :=
  obj [("error", VStr (u "Failed to get monitor info: " ++ message));
       ("system", VStr systemName)].

(** The two shapes of what [callTool] returns. *)
Definition tool_success (text : jsstring) : value :=
  obj [("content", text_content text)].

Definition tool_error (message : jsstring) : value :=
  obj [("content", text_content (u "Error: " ++ message));
       ("isError", VBool true)].

(** The record [_getLinuxMonitors] pushes for a line. *)
Definition xrandr_record (id : nat) (name width height : jsstring)
  (is_primary : bool) : value :=
  obj [("id", Js.num_of_nat id);
       ("name", VStr name);
       ("width", VStr width);
       ("height", VStr height);
       ("is_primary", VBool is_primary);
       ("detection_method", VStr (u "xrandr"))].

(** The locals after the loop body of [_getLinuxMonitors] has handled
    [line]. *)
Definition linux_next (line : jsstring) (s : locals) : locals :=
  if includes line (u " connected") && negb (includes line (u "disconnected"))
  then match match_resolution line with
       | Some (width, height) =>
           {| monitors := monitors s ++
                [xrandr_record (monitorId s) (first_field line) width height
                               (includes line (u "primary"))];
              monitorId := S (monitorId s) |}
       | None => s
       end
  else s.

(** The monitors list [getMonitorInfo] reports, given what the two
    strategies yielded. *)
Definition chosen_monitors (first second : list value) : list value :=
  match first, second with
  | _ :: _, _ => first
  | [], _ :: _ => second
  | [], [] => [fallback_monitor]
  end.

(** The detection methods of the source. *)
Definition detection_methods : list string :=
  ["systeminformation"; "wmi"; "system_profiler"; "xrandr"; "fallback"].

(** The detection methods as the specification lists them. *)
Definition specified_detection_methods : list string :=
  ["systeminfo"; "wmi"; "system_profiler"; "xrandr"; "fallback"].


(** The record [_getMacOSMonitors] pushes for a monitor entry. *)
Definition system_profiler_record (id : nat) (name width height : value)
  (retina : bool) : value :=
  obj [("id", Js.num_of_nat id);
       ("name", name);
       ("width", width);
       ("height", height);
       ("retina", VBool retina);
       ("detection_method", VStr (u "system_profiler"))].

(** The record's name is the placeholder made of [prefix] and the
    record's own id. *)
Definition named_by_id (prefix : string) (r : value) : Prop :=
  exists n : nat,
    Js.field "id" r = Js.num_of_nat n /\
    Js.field "name" r = VStr (u prefix ++ of_nat n).

(** Descending order of CPU load, of resident memory. *)
Definition cpu_descending (a b : Process.t) : Prop :=
  (Process.cpu b <= Process.cpu a)%Q.

Definition memory_descending (a b : Process.t) : Prop :=
  (Process.memRss b <= Process.memRss a)%Q.

(** The result of [getRunningProcesses] that lists the processes [kept]. *)
Definition processes_result {RT : Runtime} (h : Host)
  (processes : Processes.t) (kept : list Process.t) : value :=
  obj [("summary", summary processes);
       ("processes", VArr (map (format_process h) kept))].

(** A host whose process query reports [three_processes]. *)
Definition process_host : Host :=
  host_with "linux" (Ok no_displays) TimedOut (Ok three_processes).

(** The handlers by tool name, with what each one's call ends in. *)
Definition handler_table {RT : Runtime} (h : Host) (args : option Args.t)
  : list (string * result value) :=
  [("get_cpu_info", getCpuInfo h);
   ("get_memory_info", getMemoryInfo h);
   ("get_disk_usage", getDiskUsage h);
   ("get_running_processes",
    getRunningProcesses h
      (match args with Some a => Args.limit a | None => None end)
      (match args with Some a => Args.sort_by a | None => VUndef end));
   ("get_system_info", getSystemInfo h);
   ("get_network_info", getNetworkInfo h);
   ("get_quick_stats", getQuickStats h);
   ("get_monitor_info", getMonitorInfo h)].

(** What the handler of the named tool ends in; an unknown name ends in
    the error thrown for it. *)
Definition handler_outcome {RT : Runtime} (h : Host) (params : Params.t)
  : result value :=
  match find (fun entry => JsString.eqb (Params.name params) (u (fst entry)))
             (handler_table h (Params.arguments params)) with
  | Some (_, outcome) => outcome
  | None => Throw (u "Unknown tool: " ++ Params.name params)
  end.

(** The response that wraps a handler's outcome. *)
Definition response {RT : Runtime} (outcome : result value) : value :=
  match outcome with
  | Ok (VStr text) => tool_success text
  | Ok result => tool_success (JSON_stringify result)
  | Throw message => tool_error message
  end.

(** What a run from a state satisfying [P] guarantees: [Q] of the result
    and the locals on normal completion, [E] of the locals reached when
    an exception leaves the code. *)
Definition hoare {S A : Type} (P : S -> Prop) (m : Eff.M S A)
  (Q : A -> S -> Prop) (E : S -> Prop) : Prop :=
  forall s, P s ->
    match m s with
    | (Ok a, s') => Q a s'
    | (Throw _, s') => E s'
    end.

(** Invariants of the strategies' loops: the records pushed so far are
    numbered and tagged; the counter is one more than their number; the
    index of [forEach] is their number. *)
Definition pushed_ok (tag : string) (s : locals) : Prop :=
  ids_ok (monitors s) /\ tagged tag (monitors s).

Definition counter_ok (tag : string) (s : locals) : Prop :=
  pushed_ok tag s /\ monitorId s = S (List.length (monitors s)).

Definition index_ok (tag : string) (i : nat) (s : locals) : Prop :=
  pushed_ok tag s /\ List.length (monitors s) = i.

(* ================================================================== *)
(** ** The handlers that reformat provider data *)
(* ================================================================== *)

(** [String(x)] of a number, as a template literal prints it. *)
Class NumberText : Type := {
  Number_toString : Q -> jsstring
}.

(** Decimal text of an integer below 10^21, as a template literal
    prints it. *)
Definition of_Z (z : Z) : jsstring :=
  if (z <? 0)%Z then u "-" ++ of_nat (Z.to_nat (- z)) else of_nat (Z.to_nat z).

(** A promise of the provider once it has settled: how it settled, and
    when among the promises of the call. *)
Record promise (A : Type) : Type := {
  settles : result A;
  moment : nat
}.
Arguments settles {A} p.
Arguments moment {A} p.

(** [p.catch(() => fallback)] *)
Definition catch_with {A : Type} (fallback : A) (p : promise A) : promise A :=
  {| settles := match settles p with
                | Ok a => Ok a
                | Throw _ => Ok fallback
                end;
     moment := moment p |}.

(** [Promise.all([a, b])]: fulfilled with both values once both are
    fulfilled, rejected with the reason of the promise that rejected
    first (of the earlier one in the array when the moments are the
    same); [Promise.all] of a longer array nests it to the right. *)
Definition both {A B : Type} (a : promise A) (b : promise B)
  : promise (A * B) :=
  match settles a, settles b with
  | Ok x, Ok y => {| settles := Ok (x, y);
                     moment := Nat.max (moment a) (moment b) |}
  | Throw e, Ok _ => {| settles := Throw e; moment := moment a |}
  | Ok _, Throw e => {| settles := Throw e; moment := moment b |}
  | Throw e1, Throw e2 =>
      if (moment b <? moment a)%nat
      then {| settles := Throw e2; moment := moment b |}
      else {| settles := Throw e1; moment := moment a |}
  end.

(** What [si.cpu()] resolves to. *)
Module Cpu.
Record t : Type := {
  brand : value;
  manufacturer : value;
  family : value;
  model : value;
  speed : Q;
  physicalCores : value;
  cores : value;
  arch : value
}.
End Cpu.

(** What [si.currentLoad()] resolves to. *)
Module Load.
Record t : Type := {
  avgLoad : Q;
  currentLoadUser : Q;
  currentLoadSystem : Q;
  currentLoadIdle : Q
}.
End Load.

(** What [si.cpuTemperature()] resolves to; [None] is [null]. *)
Module Temperature.
Record t : Type := { main : option Q }.
End Temperature.

(** What [si.mem()] resolves to. *)
Module Mem.
Record t : Type := {
  total : Q;
  used : Q;
  free : Q;
  available : Q;
  swaptotal : Q;
  swapused : Q;
  swapfree : Q
}.
End Mem.

(** One entry of what [si.fsSize()] resolves to. *)
Module Disk.
Record t : Type := {
  fs : value;
  mount : value;
  size : Q;
  used : Q;
  available : Q;
  use : Q;
  type : value
}.
End Disk.

(** What [si.osInfo()], [si.system()], [si.uuid()] and [si.versions()]
    resolve to. *)
Module OsInfo.
Record t : Type := {
  platform : value;
  distro : value;
  release : value;
  codename : value;
  kernel : value;
  arch : value
}.
End OsInfo.

Module System.
Record t : Type := {
  manufacturer : value;
  model : value;
  version : value;
  serial : value
}.
End System.

Module Uuid.
Record t : Type := { hardware : value }.
End Uuid.

Module Versions.
Record t : Type := {
  node : value;
  npm : value
}.
End Versions.

(** One entry of what [si.networkInterfaces()] resolves to; a speed of
    [None] is [null]. *)
Module Iface.
Record t : Type := {
  iface : value;
  type : value;
  ip4 : value;
  ip6 : value;
  mac : value;
  internal : value;
  virtual : value;
  speed : option Q
}.
End Iface.

(** One entry of what [si.networkConnections()] resolves to. *)
Module Connection.
Record t : Type := {
  protocol : value;
  state : value
}.
End Connection.

(** What one call of a handler observes of the provider, of [os] and of
    [process]. *)
Record Metrics : Type := {
  si_cpu : promise Cpu.t;
  si_currentLoad : promise Load.t;
  si_cpuTemperature : promise Temperature.t;
  si_mem : promise Mem.t;
  si_fsSize : promise (list Disk.t);
  si_osInfo : promise OsInfo.t;
  si_system : promise System.t;
  si_uuid : promise Uuid.t;
  si_versions : promise Versions.t;
  si_networkInterfaces : promise (list Iface.t);
  si_networkConnections : promise (list Connection.t);
  os_loadavg : list Q;
  (** [os.uptime()], by the number of the call within the handler *)
  os_uptime : nat -> Q;
  os_hostname : value;
  (** [os.userInfo().username]: the user name, or the [SystemError] that
      [os.userInfo()] throws for a user without name or home directory *)
  os_userInfo : result value;
  process_arch : value;
  process_version : value;
  process_versions_v8 : value
}.

(** [Math.floor(x)] *)
Definition Math_floor (x : Q) : Z := Qfloor x.

(** [x % y] of two numbers: the remainder has the sign of [x]. *)
Definition remainder (x y : Q) : Q :=
  (x - y * inject_Z (Js.to_integer (x / y)))%Q.

(** [x / 1024 / 1024 / 1024] *)
Definition gigabytes (x : Q) : Q := (x / 1024 / 1024 / 1024)%Q.

Definition na : value := VStr (u "N/A").

Module Handlers.
Section Handlers.
Context {RT : Runtime} {NT : NumberText}.

Definition getCpuInfo (m : Metrics) : result value :=
  match settles (both (si_cpu m)
                   (both (si_currentLoad m)
                      (catch_with {| Temperature.main := None |}
                                  (si_cpuTemperature m)))) with
  | Throw e => Throw e
  | Ok (cpu, (currentLoad, temp)) =>
      Ok (obj [("brand", Cpu.brand cpu);
               ("manufacturer", Cpu.manufacturer cpu);
               ("family", Cpu.family cpu);
               ("model", Cpu.model cpu);
               ("speed", VStr (Number_toString (Cpu.speed cpu) ++ u " GHz"));
               ("cores", obj [("physical", Cpu.physicalCores cpu);
                              ("logical", Cpu.cores cpu)]);
               ("architecture", Js.or (Cpu.arch cpu) (process_arch m));
               ("usage",
                obj [("overall",
                      VStr (toFixed (Load.avgLoad currentLoad) 1 ++ u "%"));
                     ("user",
                      VStr (toFixed (Load.currentLoadUser currentLoad) 1
                            ++ u "%"));
                     ("system",
                      VStr (toFixed (Load.currentLoadSystem currentLoad) 1
                            ++ u "%"));
                     ("idle",
                      VStr (toFixed (Load.currentLoadIdle currentLoad) 1
                            ++ u "%"))]);
               ("temperature",
                match Temperature.main temp with
                | Some t =>
                    if Js.truthy (VNum t)
                    then VStr (Number_toString t ++ [176%N] ++ u "C")
                    else VStr (u "Not available")
                | None => VStr (u "Not available")
                end);
               ("load_average",
                VArr (map (fun load => VStr (toFixed load 2))
                          (os_loadavg m)))])
  end.

Definition getMemoryInfo (m : Metrics) : result value :=
  match settles (si_mem m) with
  | Throw e => Throw e
  | Ok mem =>
      let totalGB := toFixed (gigabytes (Mem.total mem)) 2 in
      let usedGB := toFixed (gigabytes (Mem.used mem)) 2 in
      let freeGB := toFixed (gigabytes (Mem.free mem)) 2 in
      let availableGB := toFixed (gigabytes (Mem.available mem)) 2 in
      Ok (obj [("total", VStr (totalGB ++ u " GB"));
               ("used", VStr (usedGB ++ u " GB"));
               ("free", VStr (freeGB ++ u " GB"));
               ("available", VStr (availableGB ++ u " GB"));
               ("usage_percent",
                VStr (toFixed (Mem.used mem / Mem.total mem * 100)%Q 1
                      ++ u "%"));
               ("swap",
                obj [("total",
                      VStr (toFixed (gigabytes (Mem.swaptotal mem)) 2
                            ++ u " GB"));
                     ("used",
                      VStr (toFixed (gigabytes (Mem.swapused mem)) 2
                            ++ u " GB"));
                     ("free",
                      VStr (toFixed (gigabytes (Mem.swapfree mem)) 2
                            ++ u " GB"))])])
  end.

(** The callback of [disks.map]. *)
Definition disk_usage (disk : Disk.t) : value :=
  obj [("filesystem", Disk.fs disk);
       ("mount_point", Disk.mount disk);
       ("total", VStr (toFixed (gigabytes (Disk.size disk)) 2 ++ u " GB"));
       ("used", VStr (toFixed (gigabytes (Disk.used disk)) 2 ++ u " GB"));
       ("available",
        VStr (toFixed (gigabytes (Disk.available disk)) 2 ++ u " GB"));
       ("usage_percent", VStr (toFixed (Disk.use disk) 1 ++ u "%"));
       ("type", Disk.type disk)].

Definition getDiskUsage (m : Metrics) : result value :=
  match settles (si_fsSize m) with
  | Throw e => Throw e
  | Ok disks => Ok (VArr (map disk_usage disks))
  end.

(** The three parts of the uptime that [getSystemInfo] prints. *)
Definition uptimeDays (uptimeSeconds : Q) : Z :=
  Math_floor (uptimeSeconds / 86400)%Q.

Definition uptimeHours (uptimeSeconds : Q) : Z :=
  Math_floor (remainder uptimeSeconds 86400 / 3600)%Q.

Definition uptimeMinutes (uptimeSeconds : Q) : Z :=
  Math_floor (remainder uptimeSeconds 3600 / 60)%Q.

Definition getSystemInfo (m : Metrics) : result value :=
  match settles (both (si_osInfo m)
                   (both (si_system m)
                      (both (catch_with {| Uuid.hardware := na |} (si_uuid m))
                            (si_versions m)))) with
  | Throw e => Throw e
  | Ok (osInfo, (system, (uuid, versions))) =>
      let uptimeSeconds := os_uptime m 0 in
      (** the object literal is built up to [user], where
          [os.userInfo()] may throw *)
      match os_userInfo m with
      | Throw e => Throw e
      | Ok username =>
      Ok (obj [("operating_system",
                obj [("platform", OsInfo.platform osInfo);
                     ("distro", OsInfo.distro osInfo);
                     ("release", OsInfo.release osInfo);
                     ("codename", Js.or (OsInfo.codename osInfo) na);
                     ("kernel", OsInfo.kernel osInfo);
                     ("arch", OsInfo.arch osInfo)]);
               ("hardware",
                obj [("manufacturer", Js.or (System.manufacturer system) na);
                     ("model", Js.or (System.model system) na);
                     ("version", Js.or (System.version system) na);
                     ("serial", Js.or (System.serial system) na);
                     ("uuid", Js.or (Uuid.hardware uuid) na)]);
               ("uptime",
                VStr (of_Z (uptimeDays uptimeSeconds) ++ u "d " ++
                      of_Z (uptimeHours uptimeSeconds) ++ u "h " ++
                      of_Z (uptimeMinutes uptimeSeconds) ++ u "m"));
               ("hostname", os_hostname m);
               ("user", username);
               ("node_version", process_version m);
               ("versions",
                obj [("node", Js.or (Versions.node versions)
                                    (process_version m));
                     ("npm", Js.or (Versions.npm versions) na);
                     ("v8", Js.or (process_versions_v8 m) na)])])
      end
  end.

(** The callback of [interfaces.map]. *)
Definition interface_info (iface : Iface.t) : value :=
  obj [("name", Iface.iface iface);
       ("type", Iface.type iface);
       ("ip4", Js.or (Iface.ip4 iface) na);
       ("ip6", Js.or (Iface.ip6 iface) na);
       ("mac", Iface.mac iface);
       ("internal", Iface.internal iface);
       ("virtual", Iface.virtual iface);
       ("speed",
        match Iface.speed iface with
        | Some speed =>
            if Js.truthy (VNum speed)
            then VStr (Number_toString speed ++ u " Mbps")
            else VStr (u "Unknown")
        | None => VStr (u "Unknown")
        end)].

(** [connections.filter(c => p c).length] *)
Definition count (p : Connection.t -> bool) (connections : list Connection.t)
  : value :=
  Js.num_of_nat (List.length (filter p connections)).

Definition getNetworkInfo (m : Metrics) : result value :=
  match settles (both (si_networkInterfaces m)
                      (catch_with [] (si_networkConnections m))) with
  | Throw e => Throw e
  | Ok (interfaces, connections) =>
      Ok (obj [("interfaces", VArr (map interface_info interfaces));
               ("connections",
                obj [("total", Js.num_of_nat (List.length connections));
                     ("tcp",
                      count (fun c => strict_equals (Connection.protocol c)
                                                    "tcp") connections);
                     ("udp",
                      count (fun c => strict_equals (Connection.protocol c)
                                                    "udp") connections);
                     ("listening",
                      count (fun c => strict_equals (Connection.state c)
                                                    "listen") connections);
                     ("established",
                      count (fun c => strict_equals (Connection.state c)
                                                    "established")
                            connections)])])
  end.

(** [disks.find(d => d.mount === '/') || disks[0]]; [None] is
    [undefined]. *)
Definition mainDisk (disks : list Disk.t) : option Disk.t :=
  match find (fun d => strict_equals (Disk.mount d) "/") disks with
  | Some d => Some d
  | None => nth_error disks 0
  end.

Definition getQuickStats (m : Metrics) : result value :=
  match settles (both (si_currentLoad m)
                   (both (si_mem m) (si_fsSize m))) with
  | Throw e => Throw e
  | Ok (cpu, (mem, disks)) =>
      Ok (obj [("cpu_usage", VStr (toFixed (Load.avgLoad cpu) 1 ++ u "%"));
               ("memory",
                obj [("usage",
                      VStr (toFixed (Mem.used mem / Mem.total mem * 100)%Q 1
                            ++ u "%"));
                     ("used",
                      VStr (toFixed (gigabytes (Mem.used mem)) 1 ++ u " GB"));
                     ("total",
                      VStr (toFixed (gigabytes (Mem.total mem)) 1
                            ++ u " GB"))]);
               ("disk",
                match mainDisk disks with
                | Some disk =>
                    obj [("usage", VStr (toFixed (Disk.use disk) 1 ++ u "%"));
                         ("used",
                          VStr (toFixed (gigabytes (Disk.used disk)) 1
                                ++ u " GB"));
                         ("total",
                          VStr (toFixed (gigabytes (Disk.size disk)) 1
                                ++ u " GB"));
                         ("mount", Disk.mount disk)]
                | None => na
                end);
               ("uptime",
                VStr (of_Z (Math_floor (os_uptime m 0 / 86400)%Q) ++ u "d " ++
                      of_Z (Math_floor
                              (remainder (os_uptime m 1) 86400 / 3600)%Q)
                      ++ u "h"))])
  end.

End Handlers.
End Handlers.

(** The host of the server: the handlers of the dispatch are the ones
    above, run on what the call observes. *)
Definition server_host {RT : Runtime} {NT : NumberText} (m : Metrics)
  (platform : jsstring) (totalmem : Q)
  (exec : jsstring -> Z -> exec_outcome)
  (graphics : result (option Graphics.t))
  (processes : result Processes.t) : Host := {|
  os_platform := platform;
  os_totalmem := totalmem;
  child_process_exec := exec;
  si_graphics := graphics;
  si_processes := processes;
  getCpuInfo := Handlers.getCpuInfo m;
  getMemoryInfo := Handlers.getMemoryInfo m;
  getDiskUsage := Handlers.getDiskUsage m;
  getSystemInfo := Handlers.getSystemInfo m;
  getNetworkInfo := Handlers.getNetworkInfo m;
  getQuickStats := Handlers.getQuickStats m
|}.

(** A printer of numbers for the sample runs: the integer part. *)
Definition sample_numbers : NumberText :=
  {| Number_toString := fun q => of_Z (Qfloor q) |}.

Definition settled {A : Type} (a : A) (t : nat) : promise A :=
  {| settles := Ok a; moment := t |}.

Definition rejected {A : Type} (e : string) (t : nat) : promise A :=
  {| settles := Throw (u e); moment := t |}.

Definition disk_at (mount : string) (size used : Q) : Disk.t := {|
  Disk.fs := VStr (u "/dev/sda1");
  Disk.mount := VStr (u mount);
  Disk.size := size;
  Disk.used := used;
  Disk.available := (size - used)%Q;
  Disk.use := (used / size * 100)%Q;
  Disk.type := VStr (u "ext4")
|}.

Definition connection (protocol state : string) : Connection.t := {|
  Connection.protocol := VStr (u protocol);
  Connection.state := VStr (u state)
|}.

Definition sample_load : Load.t := {|
  Load.avgLoad := 12;
  Load.currentLoadUser := 7;
  Load.currentLoadSystem := 5;
  Load.currentLoadIdle := 88
|}.

Definition sample_mem : Mem.t := {|
  Mem.total := 17179869184;
  Mem.used := 8589934592;
  Mem.free := 4294967296;
  Mem.available := 8589934592;
  Mem.swaptotal := 0;
  Mem.swapused := 0;
  Mem.swapfree := 0
|}.

Definition sample_disks : list Disk.t :=
  [disk_at "/boot" 1000 200; disk_at "/" 50000 20000;
   disk_at "/home" 90000 100].

Definition sample_interfaces : list Iface.t :=
  [{| Iface.iface := VStr (u "lo");
      Iface.type := VStr (u "virtual");
      Iface.ip4 := VStr (u "127.0.0.1");
      Iface.ip6 := VStr [];
      Iface.mac := VStr (u "00:00:00:00:00:00");
      Iface.internal := VBool true;
      Iface.virtual := VBool false;
      Iface.speed := None |}].

Definition sample_connections : list Connection.t :=
  [connection "tcp" "listen"; connection "tcp" "established";
   connection "udp" ""; connection "tcp6" "listen"].

(** What a call observes on a host without temperature sensor and
    hardware UUID, with the given outcome of the connection listing. *)
Definition metrics_with (connections : promise (list Connection.t))
  : Metrics := {|
  si_cpu := settled {| Cpu.brand := VStr (u "Ryzen 7");
                       Cpu.manufacturer := VStr (u "AMD");
                       Cpu.family := VStr (u "23");
                       Cpu.model := VStr (u "113");
                       Cpu.speed := 3;
                       Cpu.physicalCores := VNum 8;
                       Cpu.cores := VNum 16;
                       Cpu.arch := VUndef |} 2;
  si_currentLoad := settled sample_load 5;
  si_cpuTemperature := rejected "sensors: not found" 1;
  si_mem := settled sample_mem 3;
  si_fsSize := settled sample_disks 4;
  si_osInfo := settled {| OsInfo.platform := VStr (u "linux");
                          OsInfo.distro := VStr (u "Debian GNU/Linux");
                          OsInfo.release := VStr (u "12");
                          OsInfo.codename := VStr [];
                          OsInfo.kernel := VStr (u "6.1.0");
                          OsInfo.arch := VStr (u "x64") |} 1;
  si_system := settled {| System.manufacturer := VStr [];
                          System.model := VStr (u "Docker Container");
                          System.version := VStr [];
                          System.serial := VStr [] |} 2;
  si_uuid := rejected "dmidecode: not found" 1;
  si_versions := settled {| Versions.node := VStr (u "20.11.0");
                            Versions.npm := VStr [] |} 6;
  si_networkInterfaces := settled sample_interfaces 2;
  si_networkConnections := connections;
  os_loadavg := [1; 2; 3]%Q;
  os_uptime := fun _ => 93784%Q;
  os_hostname := VStr (u "box");
  os_userInfo := Ok (VStr (u "root"));
  process_arch := VStr (u "x64");
  process_version := VStr (u "v20.11.0");
  process_versions_v8 := VStr (u "11.3.244.8")
|}.

Definition sample_metrics : Metrics :=
  metrics_with (rejected "ss: not found" 1).

Definition connected_metrics : Metrics :=
  metrics_with (settled sample_connections 3).

(** The same call when every query of the provider is rejected. *)
Definition failing_metrics : Metrics := {|
  si_cpu := rejected "cpu" 4;
  si_currentLoad := rejected "currentLoad" 3;
  si_cpuTemperature := rejected "cpuTemperature" 1;
  si_mem := rejected "mem" 2;
  si_fsSize := rejected "fsSize" 5;
  si_osInfo := rejected "osInfo" 9;
  si_system := rejected "system" 8;
  si_uuid := rejected "uuid" 1;
  si_versions := rejected "versions" 7;
  si_networkInterfaces := rejected "networkInterfaces" 6;
  si_networkConnections := rejected "networkConnections" 1;
  os_loadavg := [];
  os_uptime := fun _ => 0%Q;
  os_hostname := VStr [];
  os_userInfo := Throw (u "A system error occurred: uv_os_get_passwd returned ENOENT");
  process_arch := VStr [];
  process_version := VStr [];
  process_versions_v8 := VStr []
|}.

(** The moment and the reason of a promise's rejection, if it was
    rejected. *)
Definition rejection {A : Type} (p : promise A) : nat * option jsstring :=
  (moment p, match settles p with
             | Ok _ => None
             | Throw e => Some e
             end).

(** The reason [e] is that of a rejection of the list that none of the
    others came before. *)
Definition earliest_rejection (e : jsstring)
  (l : list (nat * option jsstring)) : Prop :=
  exists t, In (t, Some e) l /\
            forall t' e', In (t', Some e') l -> t <= t'.

(** A promise made of the promises whose rejections are [l]: fulfilled
    when [l] holds no rejection, and else rejected with a reason of [l]
    that none of the others came before. *)
Definition reports_earliest {A : Type} (p : promise A)
  (l : list (nat * option jsstring)) : Prop :=
  match settles p with
  | Ok _ => forall t e, ~ In (t, Some e) l
  | Throw e =>
      In (moment p, Some e) l /\
      forall t' e', In (t', Some e') l -> moment p <= t'
  end.

(* ================================================================== *)
(** ** The list of tools *)
(* ================================================================== *)

(** One entry of the [tools] array. *)
Definition tool (name description : string) (properties : list (string * value))
  : value :=
  obj [("name", VStr (u name));
       ("description", VStr (u description));
       ("inputSchema",
        obj [("type", VStr (u "object"));
             ("properties", obj properties);
             ("required", VArr [])])].

(** The handler registered for [ListToolsRequestSchema]. *)
Definition listTools : value :=
  obj [("tools",
        VArr [tool "get_cpu_info"
                "Get detailed CPU information including usage, cores, frequency, and temperature"
                [];
              tool "get_memory_info"
                "Get memory usage information including RAM and swap details"
                [];
              tool "get_disk_usage"
                "Get disk usage information for all mounted drives and filesystems"
                [];
              tool "get_running_processes"
                "Get list of currently running processes with CPU and memory usage"
                [("limit",
                  obj [("type", VStr (u "number"));
                       ("description",
                        VStr (u "Maximum number of processes to return (default: 20)"));
                       ("default", VNum 20)]);
                 ("sort_by",
                  obj [("type", VStr (u "string"));
                       ("description",
                        VStr (u "Sort processes by: cpu, memory, name (default: cpu)"));
                       ("enum", VArr [VStr (u "cpu"); VStr (u "memory");
                                      VStr (u "name")]);
                       ("default", VStr (u "cpu"))])];
              tool "get_system_info"
                "Get general system information including OS, uptime, hardware details"
                [];
              tool "get_network_info"
                "Get network interface information, connections, and statistics"
                [];
              tool "get_quick_stats"
                "Get a quick overview of CPU, memory, and disk usage"
                [];
              tool "get_monitor_info"
                "Get information about connected monitors/displays across Windows, macOS, and Linux"
                []])].

(* ================================================================== *)
(** ** Vocabulary of the further properties *)
(* ================================================================== *)

(** The tools of [listTools], and the names they are listed under. *)
Definition listed_tools : list value :=
  match Js.field "tools" listTools with
  | VArr tools => tools
  | _ => []
  end.

Definition listed_names : list value := map (Js.field "name") listed_tools.

(** The default the input schema of a listed tool declares for a
    property. *)
Definition declared_default (tool_name property : string) : value :=
  match find (fun t => strict_equals (Js.field "name" t) tool_name)
             listed_tools with
  | Some t =>
      Js.field "default"
        (Js.field property (Js.field "properties" (Js.field "inputSchema" t)))
  | None => VUndef
  end.

(** Every handler of the dispatch returns on this host. *)
Definition handlers_return (h : Host) : Prop :=
  (exists v, getCpuInfo h = Ok v) /\
  (exists v, getMemoryInfo h = Ok v) /\
  (exists v, getDiskUsage h = Ok v) /\
  (exists v, si_processes h = Ok v) /\
  (exists v, getSystemInfo h = Ok v) /\
  (exists v, getNetworkInfo h = Ok v) /\
  (exists v, getQuickStats h = Ok v).

(** Ascending order of the names under the runtime's [localeCompare]. *)
Definition name_ascending {RT : Runtime} (a b : Process.t) : Prop :=
  (localeCompare (Process.name a) (Process.name b) <= 0)%Z.

(** A value whose properties can be read: anything but [null] and
    [undefined]. *)
Definition readable (v : value) : bool :=
  match v with
  | VUndef | VNull => false
  | _ => true
  end.

Fixpoint take_while {A : Type} (p : A -> bool) (l : list A) : list A :=
  match l with
  | [] => []
  | x :: l' => if p x then x :: take_while p l' else []
  end.

Fixpoint filter_map {A B : Type} (f : A -> option B) (l : list A) : list B :=
  match l with
  | [] => []
  | x :: l' =>
      match f x with
      | Some y => y :: filter_map f l'
      | None => filter_map f l'
      end
  end.

(** Records that still await their id, numbered from [i] on. *)
Fixpoint numbered_from (i : nat) (l : list (nat -> value)) : list value :=
  match l with
  | [] => []
  | r :: l' => r i :: numbered_from (S i) l'
  end.

(** The record of the Windows strategy for the entry at [index]. *)
Definition wmi_record (monitor : value) (index : nat) : value :=
  obj [("id", Js.num_of_nat (index + 1));
       ("name", VStr (u "Monitor " ++ of_nat (index + 1)));
       ("width", unknown);
       ("height", unknown);
       ("instance", Js.or (Js.field "InstanceName" monitor) unknown);
       ("physical_width_cm", Js.field "MaxHorizontalImageSize" monitor);
       ("physical_height_cm", Js.field "MaxVerticalImageSize" monitor);
       ("detection_method", VStr (u "wmi"))].

(** The records of the Windows strategy for parsed output: one for each
    entry before the first that cannot be read. *)
Definition wmi_records (parsed : value) : list value :=
  Js.mapi wmi_record
    (take_while readable (match parsed with
                          | VArr l => l
                          | _ => [parsed]
                          end)).

(** What a line of [xrandr] output is listed as, if it is. *)
Definition xrandr_listing (line : jsstring) : option (nat -> value) :=
  if includes line (u " connected") && negb (includes line (u "disconnected"))
  then match match_resolution line with
       | Some (width, height) =>
           Some (fun id => xrandr_record id (first_field line) width height
                                         (includes line (u "primary")))
       | None => None
       end
  else None.

Definition xrandr_records (stdout : jsstring) : list value :=
  numbered_from 1 (filter_map xrandr_listing (split stdout [10%N])).

(** The text of a property that is a string, the empty text of one that
    is absent or falsy, nothing for any other value. *)
Definition text_of (v : value) : option jsstring :=
  match Js.or v (VStr []) with
  | VStr t => Some t
  | _ => None
  end.

Definition resolution_width (resolution : jsstring) : value :=
  if includes resolution (u " x ")
  then VStr (trim (nth 0 (split resolution (u " x ")) []))
  else unknown.

Definition resolution_height (resolution : jsstring) : value :=
  if includes resolution (u " x ")
  then VStr (hd [] (split (nth 1 (split resolution (u " x ")) []) (u " ")))
  else unknown.

(** The record of the macOS strategy for a monitor entry whose name and
    resolution are texts or absent. *)
Definition profiler_record (monitor : value) (id : nat) : value :=
  let resolution := match text_of (Js.field "_spdisplays_resolution" monitor) with
                    | Some t => t
                    | None => []
                    end in
  let name := match text_of (Js.field "_name" monitor) with
              | Some t => t
              | None => []
              end in
  system_profiler_record id
    (Js.or (Js.field "_name" monitor)
           (VStr (u "Monitor " ++ of_nat (S id))))
    (resolution_width resolution) (resolution_height resolution)
    (includes name (u "Retina")).

Definition plain_monitor (monitor : value) : bool :=
  readable monitor &&
  match text_of (Js.field "_spdisplays_resolution" monitor),
        text_of (Js.field "_name" monitor) with
  | Some _, Some _ => true
  | _, _ => false
  end.

(** The monitor entries of an adapter: its [spdisplays_ndrvs] array, or
    none when the property is absent. *)
Definition adapter_monitors (display : value) : list value :=
  match Js.or (Js.field "spdisplays_ndrvs" display) (VArr []) with
  | VArr l => l
  | _ => []
  end.

Definition plain_adapter (display : value) : bool :=
  readable display &&
  match Js.or (Js.field "spdisplays_ndrvs" display) (VArr []) with
  | VArr l => forallb plain_monitor l
  | _ => false
  end.

Definition output_adapters (data : value) : list value :=
  match Js.or (Js.field "SPDisplaysDataType" data) (VArr []) with
  | VArr l => l
  | _ => []
  end.

(** Parsed [system_profiler] output of the expected shape: an object
    whose adapters and monitors are arrays of entries with textual or
    absent names and resolutions. *)
Definition plain_output (data : value) : bool :=
  readable data &&
  match Js.or (Js.field "SPDisplaysDataType" data) (VArr []) with
  | VArr l => forallb plain_adapter l
  | _ => false
  end.

Definition profiler_records (data : value) : list value :=
  numbered_from 1
    (map profiler_record (concat (map adapter_monitors (output_adapters data)))).

(* ================================================================== *)
(** ** Sample runs *)
(* ================================================================== *)

Example split_on_x :
  split (u "1920 x 1080 @ 60Hz") (u " x ") = [u "1920"; u "1080 @ 60Hz"].
Proof. reflexivity. Qed.

Example split_on_repeated_separator :
  split (u "a x  x b") (u " x ") = [u "a"; u ""; u "b"].
Proof. reflexivity. Qed.

Example split_ws_runs :
  split_ws (u "HDMI-1 connected   primary") =
  [u "HDMI-1"; u "connected"; u "primary"].
Proof. reflexivity. Qed.

Example split_ws_leading_space :
  split_ws (u "  1920x1080  60.00") = [u ""; u "1920x1080"; u "60.00"].
Proof. reflexivity. Qed.

Example match_resolution_leftmost :
  match_resolution (u "DP-1 connected 2560x1440+1920+0 600mm x 340mm") =
  Some (u "2560", u "1440").
Proof. reflexivity. Qed.

Example match_resolution_none :
  match_resolution (u "DP-2 connected (normal left inverted right)") = None.
Proof. reflexivity. Qed.

Example trim_both_ends : trim (u "  1920 ") = u "1920".
Proof. reflexivity. Qed.

Example code_points_pair :
  code_points [55357; 56832; 65]%N = [[55357; 56832]; [65]]%N.
Proof. reflexivity. Qed.

Example slice_negative_stop : Js.slice [1; 2; 3; 4] 0 (-1) = [1; 2; 3].
Proof. reflexivity. Qed.

Example slice_beyond_length : Js.slice [1; 2; 3; 4] 0 20 = [1; 2; 3; 4].
Proof. reflexivity. Qed.

Example sort_is_stable :
  Js.sort (fun a b => inject_Z (Z.of_nat (fst b)) - inject_Z (Z.of_nat (fst a)))%Q
          [(1, "a"); (3, "b"); (1, "c"); (3, "d")] =
  [(3, "b"); (3, "d"); (1, "a"); (1, "c")].
Proof. reflexivity. Qed.

(** A Windows host: one monitor object, not wrapped in an array. *)
Example windows_single_object :
  _getWindowsMonitors
    (RT := runtime_parsing (fun _ =>
             Ok (VObj [(u "InstanceName", VStr (u "DISPLAY-DEL40F1"));
                       (u "MaxHorizontalImageSize", VNum 60);
                       (u "MaxVerticalImageSize", VNum 34)])))
    (host_with "win32" (Ok no_displays) (Exited 0 (u "{ }")) (Ok three_processes))
  = Ok [obj [("id", Js.num_of_nat 1);
             ("name", VStr (u "Monitor 1"));
             ("width", unknown);
             ("height", unknown);
             ("instance", VStr (u "DISPLAY-DEL40F1"));
             ("physical_width_cm", VNum 60);
             ("physical_height_cm", VNum 34);
             ("detection_method", VStr (u "wmi"))]].
Proof. reflexivity. Qed.

(** A [null] in the middle of the array stops the Windows loop; the
    record pushed before it is returned. *)
Example windows_null_entry :
  _getWindowsMonitors
    (RT := runtime_parsing (fun _ => Ok (VArr [VObj []; VNull; VObj []])))
    (host_with "win32" (Ok no_displays) (Exited 0 (u "[{},null,{}]"))
               (Ok three_processes))
  = Ok [obj [("id", Js.num_of_nat 1);
             ("name", VStr (u "Monitor 1"));
             ("width", unknown);
             ("height", unknown);
             ("instance", unknown);
             ("physical_width_cm", VUndef);
             ("physical_height_cm", VUndef);
             ("detection_method", VStr (u "wmi"))]].
Proof. reflexivity. Qed.

(** A [null] among the monitors of an adapter stops the macOS loops; the
    record pushed before it is returned. *)
Example macos_null_entry :
  _getMacOSMonitors
    (RT := runtime_parsing (fun _ =>
             Ok (VObj [(u "SPDisplaysDataType",
                        VArr [VObj [(u "spdisplays_ndrvs",
                                     VArr [VObj [(u "_name",
                                                  VStr (u "Color LCD"))];
                                           VNull;
                                           VObj []])]])])))
    (host_with "darwin" (Ok no_displays) (Exited 0 (u "{ }"))
               (Ok three_processes))
  = Ok [system_profiler_record 1 (VStr (u "Color LCD")) unknown unknown
          false].
Proof. reflexivity. Qed.

(** No strategy for the platform: the fallback record. *)
Example other_platform_falls_back :
  getMonitorInfo (RT := sample_runtime)
    (host_with "freebsd" (Ok no_displays) SpawnFailed (Ok three_processes))
  = Ok (monitor_info (u "freebsd") [fallback_monitor]).
Proof. reflexivity. Qed.

(** A timeout of [xrandr]: the fallback record. *)
Example xrandr_timeout_falls_back :
  getMonitorInfo (RT := sample_runtime)
    (host_with "linux" (Ok None) TimedOut (Ok three_processes))
  = Ok (monitor_info (u "linux") [fallback_monitor]).
Proof. reflexivity. Qed.

Example graphics_query_throws :
  getMonitorInfo (RT := sample_runtime)
    (host_with "linux" (Throw (u "lspci: not found")) TimedOut
               (Ok three_processes))
  = Ok (obj [("error",
              VStr (u "Failed to get monitor info: lspci: not found"));
             ("system", VStr (u "linux"))]).
Proof. reflexivity. Qed.

(** The graphics query is rejected on a host whose [xrandr] lists a
    monitor: the strategy of the platform would return its record, the
    result holds the error. *)
Example rejected_query_hides_xrandr :
  platform_monitors (RT := sample_runtime) rejecting_host
    = Ok [xrandr_record 1 (u "HDMI-1") (u "1920") (u "1080") true] /\
  getMonitorInfo (RT := sample_runtime) rejecting_host
    = Ok (obj [("error",
                VStr (u "Failed to get monitor info: lspci: not found"));
               ("system", VStr (u "linux"))]).
Proof. split; reflexivity. Qed.

Example unknown_tool :
  callTool (RT := sample_runtime) process_host
    {| Params.name := u "get_gpu_info"; Params.arguments := None |}
  = Ok (obj [("content",
              VArr [obj [("type", VStr (u "text"));
                         ("text", VStr (u "Error: Unknown tool: get_gpu_info"))]]);
             ("isError", VBool true)]).
Proof. reflexivity. Qed.

Example processes_by_name_limit_2 :
  getRunningProcesses (RT := sample_runtime) process_host (Some 2%Q)
                      (VStr (u "name"))
  = Ok (processes_result (RT := sample_runtime) process_host three_processes
          [process_named "bash" 3 100; process_named "init" 1 300]).
Proof. reflexivity. Qed.

Example processes_limit_0 :
  getRunningProcesses (RT := sample_runtime) process_host (Some 0%Q) VUndef
  = Ok (processes_result (RT := sample_runtime) process_host three_processes []).
Proof. reflexivity. Qed.

(* ================================================================== *)
(** ** Properties of the string functions *)
(* ================================================================== *)

Lemma eqb_eq (a b : jsstring) : JsString.eqb a b = true <-> a = b.
Proof.
  revert b; induction a as [|x a IH]; intros [|y b]; simpl;
    try (split; (discriminate || reflexivity)).
  rewrite andb_true_iff, N.eqb_eq, IH.
  split; [intros [-> ->]; reflexivity | intros E; inversion E; auto].
Qed.

Lemma eqb_refl (a : jsstring) : JsString.eqb a a = true.
Proof. apply eqb_eq; reflexivity. Qed.

Lemma eqb_neq (a b : jsstring) : JsString.eqb a b = false <-> a <> b.
Proof.
  rewrite <- eqb_eq. destruct (JsString.eqb a b); split; congruence.
Qed.

Lemma split_ws_scan_head (s cur : jsstring) :
  exists rest, split_ws_scan s false cur = (rev cur ++ first_field s) :: rest.
Proof.
  revert cur; induction s as [|c s IH]; intros cur; unfold first_field; simpl.
  - exists []. now rewrite app_nil_r.
  - destruct (is_space c); simpl.
    + eexists. now rewrite app_nil_r.
    + destruct (IH (c :: cur)) as [rest E]. exists rest. rewrite E.
      unfold first_field. simpl. destruct (span _ s). simpl.
      now rewrite <- app_assoc.
Qed.

(** [line.split(/\s+/)[0]] is the text before the first white space. *)
Lemma split_ws_head (line : jsstring) :
  exists rest, split_ws line = first_field line :: rest.
Proof. apply (split_ws_scan_head line []). Qed.

Lemma split_scan_not_nil (sep s : jsstring) (skip : nat) (cur : jsstring) :
  split_scan sep s skip cur <> [].
Proof.
  revert skip cur; induction s as [|c s IH]; intros skip cur; simpl.
  - discriminate.
  - destruct skip; [|apply IH].
    destruct (starts_with sep (c :: s)); [discriminate | apply IH].
Qed.

(** A string that contains the separator splits into two pieces at
    least. *)
Lemma split_scan_two (sep s cur : jsstring) :
  sep <> [] -> includes s sep = true ->
  exists a b rest, split_scan sep s 0 cur = a :: b :: rest.
Proof.
  intros Hsep. revert cur; induction s as [|c s IH]; intros cur H.
  - destruct sep; [congruence | discriminate].
  - simpl. cbn [includes] in H.
    destruct (starts_with sep (c :: s)) eqn:E.
    + destruct (split_scan sep s (List.length sep - 1) []) as [|b rest] eqn:F.
      * now apply split_scan_not_nil in F.
      * now exists (rev cur), b, rest.
    + simpl in H. apply (IH (c :: cur) H).
Qed.

Lemma split_two (s sep : jsstring) :
  sep <> [] -> includes s sep = true ->
  exists a b rest, split s sep = a :: b :: rest.
Proof.
  intros Hsep H. destruct sep as [|x sep]; [congruence|].
  now apply split_scan_two.
Qed.

Lemma split_not_nil_sep (s sep : jsstring) :
  sep <> [] -> split s sep <> [].
Proof.
  intros Hsep. destruct sep as [|x sep]; [congruence|].
  apply split_scan_not_nil.
Qed.

Lemma span_app (p : N -> bool) (a b : jsstring) :
  forallb p a = true ->
  span p (a ++ b) = (a ++ fst (span p b), snd (span p b)).
Proof.
  induction a as [|c a IH]; simpl; intros H.
  - now destruct (span p b).
  - apply andb_true_iff in H as [Hc Ha]. rewrite Hc, (IH Ha). reflexivity.
Qed.

Lemma span_split (p : N -> bool) (s a b : jsstring) :
  span p s = (a, b) -> s = a ++ b /\ forallb p a = true.
Proof.
  revert a b; induction s as [|c s IH]; simpl; intros a b E.
  - inversion E; auto.
  - destruct (p c) eqn:Hc.
    + destruct (span p s) as [a' b'] eqn:F. inversion E; subst.
      destruct (IH _ _ eq_refl) as [-> Ha]. simpl. now rewrite Hc, Ha.
    + inversion E; auto.
Qed.

Lemma match_resolution_here_sound (s w h : jsstring) :
  match_resolution_here s = Some (w, h) ->
  exists post, s = w ++ [120%N] ++ h ++ post /\ digits w /\ digits h.
Proof.
  unfold match_resolution_here.
  destruct (span is_digit s) as [w' r] eqn:E.
  apply span_split in E as [-> Hw].
  destruct w' as [|d w']; [discriminate|].
  destruct r as [|c r]; [discriminate|].
  destruct (N.eqb_spec c 120); [subst c | discriminate].
  destruct (span is_digit r) as [h' post] eqn:F.
  apply span_split in F as [-> Hh].
  destruct h' as [|e h']; [discriminate|].
  intros G; inversion G; subst. exists post.
  repeat split; try discriminate; auto.
Qed.

Lemma match_resolution_sound (s w h : jsstring) :
  match_resolution s = Some (w, h) ->
  exists pre post, s = pre ++ w ++ [120%N] ++ h ++ post /\ digits w /\ digits h.
Proof.
  induction s as [|c s IH]; simpl.
  - discriminate.
  - destruct (match_resolution_here (c :: s)) as [[w' h']|] eqn:E.
    + intros G; inversion G; subst.
      apply match_resolution_here_sound in E as [post H].
      now exists [], post.
    + intros G. destruct (IH G) as (pre & post & -> & H).
      now exists (c :: pre), post.
Qed.

Lemma match_resolution_unfold (s : jsstring) :
  match_resolution s =
  match match_resolution_here s with
  | Some g => Some g
  | None => match s with
            | [] => None
            | _ :: s' => match_resolution s'
            end
  end.
Proof. destruct s; reflexivity. Qed.

Lemma match_resolution_here_complete (w h post : jsstring) :
  digits w -> digits h ->
  exists g, match_resolution_here (w ++ [120%N] ++ h ++ post) = Some g.
Proof.
  intros [Hw1 Hw2] [Hh1 Hh2]. unfold match_resolution_here.
  rewrite (span_app _ _ _ Hw2). simpl.
  rewrite app_nil_r.
  destruct w as [|d w]; [congruence|].
  rewrite (span_app _ _ _ Hh2).
  destruct h as [|e h]; [congruence|]. simpl. eauto.
Qed.

Lemma match_resolution_complete (line : jsstring) :
  has_resolution line -> exists g, match_resolution line = Some g.
Proof.
  intros (pre & w & h & post & -> & Hw & Hh).
  induction pre as [|c pre IH].
  - destruct (match_resolution_here_complete w h post Hw Hh) as [g E].
    exists g. rewrite app_nil_l, match_resolution_unfold. now rewrite E.
  - simpl. destruct (match_resolution_here _); eauto.
Qed.

(** [line.match(/(\d+)x(\d+)/)] succeeds exactly on the lines that hold
    <digits>x<digits>. *)
Lemma match_resolution_iff (line : jsstring) :
  (exists g, match_resolution line = Some g) <-> has_resolution line.
Proof.
  split.
  - intros [[w h] E]. apply match_resolution_sound in E as (pre & post & H).
    now exists pre, w, h, post.
  - apply match_resolution_complete.
Qed.

(* ================================================================== *)
(** ** Rules for code with mutable locals *)
(* ================================================================== *)

Lemma returning_monitors_eq (body : Eff.M locals unit) :
  returning_monitors body = Ok (monitors (snd (body locals0))).
Proof.
  unfold returning_monitors, Eff.eval, Eff.bind, Eff.try_ignore, Eff.get, Eff.ret.
  destruct (body locals0) as [[[]|e] s]; reflexivity.
Qed.

Lemma returning_monitors_ok (tag : string) (body : Eff.M locals unit) :
  pushed_ok tag (snd (body locals0)) ->
  exists l, returning_monitors body = Ok l /\ ids_ok l /\ tagged tag l.
Proof.
  intros H. rewrite returning_monitors_eq. eexists; split; [reflexivity|].
  exact H.
Qed.

Lemma hoare_for_of {S A : Type} (I E : S -> Prop) (f : A -> Eff.M S unit) :
  (forall x, hoare I (f x) (fun _ => I) E) ->
  forall l, hoare I (Eff.for_of f l) (fun _ => I) E.
Proof.
  intros Hf l; induction l as [|x l IH]; intros s Hs; simpl.
  - exact Hs.
  - unfold Eff.bind. specialize (Hf x s Hs).
    destruct (f x s) as [[[]|e] s']; [apply IH|]; exact Hf.
Qed.

Lemma hoare_for_each_from {S A : Type} (I : nat -> S -> Prop) (E : S -> Prop)
  (f : A -> nat -> Eff.M S unit) :
  (forall x i, hoare (I i) (f x i) (fun _ => I (Datatypes.S i)) E) ->
  forall l i,
    hoare (I i) (Eff.for_each_from f i l) (fun _ => I (i + List.length l)) E.
Proof.
  intros Hf l; induction l as [|x l IH]; intros i s Hs; simpl.
  - now rewrite Nat.add_0_r.
  - unfold Eff.bind. specialize (Hf x i s Hs).
    destruct (f x i s) as [[[]|e] s']; [|exact Hf].
    rewrite <- Nat.add_succ_comm. now apply IH.
Qed.

(** Whatever way a loop ends, what holds on both exits holds after it. *)
Lemma hoare_final {S A : Type} (P : S -> Prop) (m : Eff.M S A)
  (Q : A -> S -> Prop) (E : S -> Prop) (s : S) :
  hoare P m Q E -> P s -> (forall a s', Q a s' -> E s') -> E (snd (m s)).
Proof.
  intros H Hs HQ. specialize (H s Hs).
  destruct (m s) as [[a|e] s']; simpl; eauto.
Qed.

(* ================================================================== *)
(** ** Numbering and tags of the records *)
(* ================================================================== *)

Lemma ids_ok_nil : ids_ok [].
Proof. reflexivity. Qed.

Lemma ids_ok_snoc (l : list value) (r : value) :
  ids_ok l -> Js.field "id" r = Js.num_of_nat (S (List.length l)) ->
  ids_ok (l ++ [r]).
Proof.
  unfold ids_ok. intros Hl Hr.
  rewrite map_app, length_app, Nat.add_1_r, seq_S, map_app, Hl. simpl.
  now rewrite Hr.
Qed.

Lemma tagged_snoc (tag : string) (l : list value) (r : value) :
  tagged tag l -> Js.field "detection_method" r = VStr (u tag) ->
  tagged tag (l ++ [r]).
Proof.
  unfold tagged. intros Hl Hr. apply Forall_app. split; auto.
Qed.

Lemma pushed_ok_initial (tag : string) : counter_ok tag locals0.
Proof. repeat split. constructor. Qed.

Lemma counter_ok_pushed (tag : string) (s : locals) :
  counter_ok tag s -> pushed_ok tag s.
Proof. now intros []. Qed.

(** Pushing the record numbered by the counter, and counting it. *)
Lemma counter_ok_push (tag : string) (s : locals) (r : value) :
  counter_ok tag s ->
  Js.field "id" r = Js.num_of_nat (monitorId s) ->
  Js.field "detection_method" r = VStr (u tag) ->
  counter_ok tag {| monitors := monitors s ++ [r];
                    monitorId := S (monitorId s) |}.
Proof.
  intros [[Hi Ht] Hc] Hid Htag. rewrite Hc in Hid.
  repeat split; simpl.
  - now apply ids_ok_snoc.
  - now apply tagged_snoc.
  - rewrite Hc, length_app. simpl. lia.
Qed.

(* ================================================================== *)
(** ** The platform strategies *)
(* ================================================================== *)

Section Strategies.
Context {RT : Runtime}.

(** *** Linux *)

Lemma linux_line_eq (line : jsstring) (s : locals) :
  linux_line line s = (Ok tt, linux_next line s).
Proof.
  unfold linux_line, linux_next.
  destruct (includes line (u " connected") &&
            negb (includes line (u "disconnected"))); [|reflexivity].
  destruct (split_ws_head line) as [rest ->].
  destruct (match_resolution line) as [[w h]|]; reflexivity.
Qed.

Lemma linux_next_counter_ok (line : jsstring) (s : locals) :
  counter_ok "xrandr" s -> counter_ok "xrandr" (linux_next line s).
Proof.
  intros H. unfold linux_next.
  destruct (_ && _); [|exact H].
  destruct (match_resolution line) as [[w h]|]; [|exact H].
  apply counter_ok_push; auto.
Qed.

Lemma linux_line_hoare (line : jsstring) :
  hoare (counter_ok "xrandr") (linux_line line)
        (fun _ => counter_ok "xrandr") (pushed_ok "xrandr").
Proof.
  intros s Hs. rewrite linux_line_eq. now apply linux_next_counter_ok.
Qed.

Lemma linux_lines_eq (lines : list jsstring) (s : locals) :
  Eff.for_of linux_line lines s = (Ok tt, fold_left (fun s l => linux_next l s) lines s).
Proof.
  revert s; induction lines as [|l lines IH]; intros s; simpl.
  - reflexivity.
  - unfold Eff.bind. rewrite linux_line_eq. apply IH.
Qed.

(** What [_getLinuxMonitors] returns, line by line. *)
Lemma getLinuxMonitors_eq (h : Host) :
  _getLinuxMonitors h =
  Ok (match execAsync h (u "xrandr --query") 10000 with
      | Ok stdout =>
          monitors (fold_left (fun s l => linux_next l s)
                              (split stdout [10%N]) locals0)
      | Throw _ => []
      end).
Proof.
  unfold _getLinuxMonitors, linux_try. rewrite returning_monitors_eq.
  unfold Eff.bind, Eff.lift.
  destruct (execAsync h _ _) as [stdout|e]; [|reflexivity].
  now rewrite linux_lines_eq.
Qed.

Lemma linux_fold_counter_ok (lines : list jsstring) (s : locals) :
  counter_ok "xrandr" s ->
  counter_ok "xrandr" (fold_left (fun s l => linux_next l s) lines s).
Proof.
  revert s; induction lines as [|l lines IH]; intros s H; simpl; auto.
  apply IH. now apply linux_next_counter_ok.
Qed.

Lemma getLinuxMonitors_ok (h : Host) :
  exists l, _getLinuxMonitors h = Ok l /\ ids_ok l /\ tagged "xrandr" l.
Proof.
  rewrite getLinuxMonitors_eq. eexists; split; [reflexivity|].
  destruct (execAsync h _ _) as [stdout|e].
  - apply (linux_fold_counter_ok _ locals0), pushed_ok_initial.
  - split; [apply ids_ok_nil | constructor].
Qed.

(** *** Windows *)

Lemma index_ok_push (tag : string) (i : nat) (s : locals) (r : value) :
  index_ok tag i s ->
  Js.field "id" r = Js.num_of_nat (i + 1) ->
  Js.field "detection_method" r = VStr (u tag) ->
  index_ok tag (S i) {| monitors := monitors s ++ [r];
                        monitorId := monitorId s |}.
Proof.
  intros [[Hi Ht] Hc] Hid Htag. rewrite Nat.add_1_r, <- Hc in Hid.
  repeat split; simpl.
  - now apply ids_ok_snoc.
  - now apply tagged_snoc.
  - rewrite length_app. simpl. lia.
Qed.

Lemma windows_monitor_hoare (monitor : value) (index : nat) :
  hoare (index_ok "wmi" index) (windows_monitor monitor index)
        (fun _ => index_ok "wmi" (S index)) (pushed_ok "wmi").
Proof.
  intros s Hs.
  destruct monitor; cbn; try (now destruct Hs);
    apply index_ok_push; auto.
Qed.

Lemma getWindowsMonitors_ok (h : Host) :
  exists l, _getWindowsMonitors h = Ok l /\ ids_ok l /\ tagged "wmi" l.
Proof.
  apply returning_monitors_ok.
  assert (H0 : index_ok "wmi" 0 locals0) by (repeat split; constructor).
  assert (Hp : pushed_ok "wmi" locals0) by apply H0.
  unfold windows_try. unfold Eff.bind at 1. unfold Eff.lift at 1.
  destruct (execAsync h _ _) as [stdout|e]; [|exact Hp].
  destruct (Js.truthy _); [|exact Hp].
  unfold Eff.bind at 1. unfold Eff.lift at 1.
  destruct (JSON_parse stdout) as [parsed|e]; [|exact Hp].
  eapply hoare_final.
  - apply hoare_for_each_from. apply windows_monitor_hoare.
  - exact H0.
  - now intros _ s' [].
Qed.

(** *** macOS *)

Lemma macos_monitor_hoare (monitor : value) :
  hoare (counter_ok "system_profiler") (macos_monitor monitor)
        (fun _ => counter_ok "system_profiler") (pushed_ok "system_profiler").
Proof.
  intros s Hs. pose proof (counter_ok_pushed _ _ Hs) as Hp.
  unfold macos_monitor. unfold Eff.bind at 1. unfold Eff.lift at 1.
  destruct (Js.get monitor (u "_spdisplays_resolution")) as [res|e] eqn:G1;
    [|exact Hp].
  destruct (macos_resolution _ _) as [[[]|e] [width height]]; [|exact Hp].
  cbn [Eff.bind post_increment Eff.get Eff.put Eff.ret Eff.lift].
  destruct (Js.get monitor (u "_name")) as [n1|e]; [|exact Hp].
  destruct (Js.call_includes _ _) as [retina|e]; [|exact Hp].
  cbn. apply counter_ok_push; auto.
Qed.

Lemma macos_display_hoare (display : value) :
  hoare (counter_ok "system_profiler") (macos_display display)
        (fun _ => counter_ok "system_profiler") (pushed_ok "system_profiler").
Proof.
  intros s Hs. pose proof (counter_ok_pushed _ _ Hs) as Hp.
  unfold macos_display. unfold Eff.bind at 1. unfold Eff.lift at 1.
  destruct (Js.get display _) as [ndrvs|e]; [|exact Hp].
  unfold Eff.bind at 1. unfold Eff.lift at 1.
  destruct (Js.iterate _) as [entries|e]; [|exact Hp].
  apply (hoare_for_of _ _ _ macos_monitor_hoare entries s Hs).
Qed.

Lemma getMacOSMonitors_ok (h : Host) :
  exists l, _getMacOSMonitors h = Ok l /\ ids_ok l /\
            tagged "system_profiler" l.
Proof.
  apply returning_monitors_ok.
  pose proof (pushed_ok_initial "system_profiler") as H0.
  pose proof (counter_ok_pushed _ _ H0) as Hp.
  unfold macos_try. unfold Eff.bind at 1. unfold Eff.lift at 1.
  destruct (execAsync h _ _) as [stdout|e]; [|exact Hp].
  unfold Eff.bind at 1. unfold Eff.lift at 1.
  destruct (JSON_parse stdout) as [data|e]; [|exact Hp].
  unfold Eff.bind at 1. unfold Eff.lift at 1.
  destruct (Js.get data _) as [dt|e]; [|exact Hp].
  unfold Eff.bind at 1. unfold Eff.lift at 1.
  destruct (Js.iterate _) as [entries|e]; [|exact Hp].
  eapply hoare_final.
  - apply (hoare_for_of _ _ _ macos_display_hoare entries).
  - exact H0.
  - intros a s'. apply counter_ok_pushed.
Qed.

End Strategies.

(* ================================================================== *)
(** ** The detection chain *)
(* ================================================================== *)

Section Chain.
Context {RT : Runtime}.

Lemma mapi_from_length {A B : Type} (f : A -> nat -> B) (i : nat) (l : list A) :
  List.length (Js.mapi_from f i l) = List.length l.
Proof. revert i; induction l; intros i; simpl; auto. Qed.

Lemma systeminformation_ids (i : nat) (ds : list Display.t) :
  map (Js.field "id") (Js.mapi_from systeminformation_monitor i ds) =
  map Js.num_of_nat (seq (S i) (List.length ds)).
Proof.
  revert i; induction ds as [|d ds IH]; intros i; simpl; [reflexivity|].
  rewrite IH. f_equal. cbn. now rewrite Nat.add_1_r.
Qed.

Lemma systeminformation_tagged (i : nat) (ds : list Display.t) :
  tagged "systeminformation" (Js.mapi_from systeminformation_monitor i ds).
Proof.
  revert i; induction ds as [|d ds IH]; intros i; simpl; constructor;
    [reflexivity | apply IH].
Qed.

Lemma systeminformation_monitors_ok (g : option Graphics.t) :
  ids_ok (systeminformation_monitors g) /\
  tagged "systeminformation" (systeminformation_monitors g).
Proof.
  unfold systeminformation_monitors.
  destruct g as [[[ds|]]|]; try (split; [apply ids_ok_nil | constructor]).
  destruct (0 <? List.length ds)%nat; [|split; [apply ids_ok_nil | constructor]].
  split; [|apply systeminformation_tagged].
  unfold ids_ok, Js.mapi. now rewrite systeminformation_ids, mapi_from_length.
Qed.

(** With at least one display reported, the first strategy yields one
    record per display. *)
Lemma systeminformation_monitors_displays (ds : list Display.t) :
  ds <> [] ->
  systeminformation_monitors (Some {| Graphics.displays := Some ds |}) =
    Js.mapi systeminformation_monitor ds /\
  List.length (Js.mapi systeminformation_monitor ds) = List.length ds.
Proof.
  intros H. split; [|apply mapi_from_length].
  destruct ds; [congruence | reflexivity].
Qed.

(** The strategy of the platform never throws; its records are numbered
    and carry one tag. *)
Lemma platform_monitors_ok (h : Host) :
  exists l tag,
    platform_monitors h = Ok l /\ ids_ok l /\ tagged tag l /\
    In tag ["wmi"; "system_profiler"; "xrandr"].
Proof.
  unfold platform_monitors.
  destruct (JsString.eqb (os_platform h) (u "win32")).
  { destruct (getWindowsMonitors_ok h) as (l & E & Hi & Ht).
    exists l, "wmi". repeat split; auto; simpl; auto. }
  destruct (JsString.eqb (os_platform h) (u "darwin")).
  { destruct (getMacOSMonitors_ok h) as (l & E & Hi & Ht).
    exists l, "system_profiler". repeat split; auto; simpl; auto. }
  destruct (JsString.eqb (os_platform h) (u "linux")).
  { destruct (getLinuxMonitors_ok h) as (l & E & Hi & Ht).
    exists l, "xrandr". repeat split; auto; simpl; auto. }
  exists [], "wmi". repeat split; simpl; auto. constructor.
Qed.

Lemma length_eqb_0 {A : Type} (l : list A) :
  (List.length l =? 0)%nat = match l with [] => true | _ :: _ => false end.
Proof. destruct l; reflexivity. Qed.

(** [getMonitorInfo] when the graphics query returns. *)
Lemma getMonitorInfo_returns (h : Host) (g : option Graphics.t)
  (second : list value) :
  si_graphics h = Ok g -> platform_monitors h = Ok second ->
  getMonitorInfo h =
  Ok (monitor_info (os_platform h)
        (match systeminformation_monitors g with
         | _ :: _ => systeminformation_monitors g
         | [] => chosen_monitors [] second
         end)).
Proof.
  intros Hg Hp. unfold getMonitorInfo. rewrite Hg. cbn [bind try_catch].
  rewrite length_eqb_0.
  destruct (systeminformation_monitors g) as [|r first] eqn:E.
  - rewrite Hp. cbn [bind]. rewrite length_eqb_0.
    destruct second; reflexivity.
  - reflexivity.
Qed.

(** [getMonitorInfo] when the graphics query throws. *)
Lemma getMonitorInfo_throws (h : Host) (message : jsstring) :
  si_graphics h = Throw message ->
  getMonitorInfo h = Ok (monitor_error (os_platform h) message).
Proof. intros Hg. unfold getMonitorInfo. now rewrite Hg. Qed.

Lemma getMonitorInfo_chosen (h : Host) (g : option Graphics.t) :
  si_graphics h = Ok g ->
  exists second,
    platform_monitors h = Ok second /\
    getMonitorInfo h =
    Ok (monitor_info (os_platform h)
          (match systeminformation_monitors g with
           | _ :: _ => systeminformation_monitors g
           | [] => chosen_monitors [] second
           end)).
Proof.
  intros Hg. destruct (platform_monitors_ok h) as (second & tag & Hp & _).
  exists second. split; [exact Hp|]. now apply getMonitorInfo_returns.
Qed.

(** [getMonitorInfo] never throws. *)
Lemma getMonitorInfo_total (h : Host) : exists v, getMonitorInfo h = Ok v.
Proof.
  destruct (si_graphics h) as [g|message] eqn:Hg.
  - destruct (getMonitorInfo_chosen h g Hg) as (second & _ & E). eauto.
  - rewrite (getMonitorInfo_throws h message Hg). eauto.
Qed.

Lemma fallback_ok :
  ids_ok [fallback_monitor] /\ tagged "fallback" [fallback_monitor].
Proof. split; [reflexivity | repeat constructor]. Qed.

End Chain.

Section Failures.
Context {RT : Runtime}.







End Failures.

(* ================================================================== *)
(** ** Monitor discovery: the claims *)
(* ================================================================== *)

(** C1.  When the graphics query returns, the monitors list of
    [getMonitorInfo] is the output of one strategy: the records of the
    cross-platform query when there is at least one (one per reported
    display), else the records of the platform strategy when there is at
    least one; all the records of the list carry one detection method,
    so records of two strategies are never mixed. *)
Theorem C1_one_strategy_fills_the_list (RT : Runtime) (h : Host)
  (g : option Graphics.t) :
  si_graphics h = Ok g ->
  exists (second monitors : list value) (tag : string),
    platform_monitors h = Ok second /\
    getMonitorInfo h = Ok (monitor_info (os_platform h) monitors) /\
    (systeminformation_monitors g <> [] ->
     monitors = systeminformation_monitors g) /\
    (forall ds, g = Some {| Graphics.displays := Some ds |} -> ds <> [] ->
     monitors = Js.mapi systeminformation_monitor ds /\
     List.length monitors = List.length ds) /\
    (systeminformation_monitors g = [] -> second <> [] ->
     monitors = second) /\
    tagged tag monitors.
Proof.
  intros Hg.
  destruct (platform_monitors_ok h) as (second & tag2 & Hp & _ & Ht2 & _).
  rewrite (getMonitorInfo_returns h g second Hg Hp).
  destruct (systeminformation_monitors_ok g) as [_ Ht1].
  assert (Hds : forall ds, g = Some {| Graphics.displays := Some ds |} ->
                  ds <> [] ->
                  systeminformation_monitors g
                    = Js.mapi systeminformation_monitor ds /\
                  List.length (systeminformation_monitors g) = List.length ds).
  { intros ds -> Hd.
    destruct (systeminformation_monitors_displays ds Hd) as [F L].
    rewrite F. auto. }
  destruct (systeminformation_monitors g) as [|r first].
  - assert (Hno : forall ds, g = Some {| Graphics.displays := Some ds |} ->
                    ds <> [] -> False).
    { intros ds Hgd Hd. destruct (Hds ds Hgd Hd) as [_ L].
      destruct ds; [congruence | discriminate L]. }
    destruct second as [|r second].
    + exists [], [fallback_monitor], "fallback".
      split; [exact Hp|]. split; [reflexivity|]. split; [congruence|].
      split; [intros ds Hgd Hd; destruct (Hno ds Hgd Hd)|].
      split; [congruence | apply fallback_ok].
    + exists (r :: second), (r :: second), tag2.
      split; [exact Hp|]. split; [reflexivity|]. split; [congruence|].
      split; [intros ds Hgd Hd; destruct (Hno ds Hgd Hd)|].
      split; [reflexivity | exact Ht2].
  - exists second, (r :: first), "systeminformation".
    split; [exact Hp|]. split; [reflexivity|]. split; [reflexivity|].
    split; [exact Hds|].
    split; [discriminate | exact Ht1].
Qed.

Lemma C1_witness :
  si_graphics display_host = Ok one_display /\
  exists (second monitors : list value) (tag : string),
    platform_monitors (RT := sample_runtime) display_host = Ok second /\
    getMonitorInfo (RT := sample_runtime) display_host =
      Ok (monitor_info (os_platform display_host) monitors) /\
    (systeminformation_monitors one_display <> [] ->
     monitors = systeminformation_monitors one_display) /\
    (forall ds, one_display = Some {| Graphics.displays := Some ds |} ->
     ds <> [] ->
     monitors = Js.mapi systeminformation_monitor ds /\
     List.length monitors = List.length ds) /\
    (systeminformation_monitors one_display = [] -> second <> [] ->
     monitors = second) /\
    tagged tag monitors.
Proof.
  split; [reflexivity|].
  apply (C1_one_strategy_fills_the_list sample_runtime display_host one_display).
  reflexivity.
Defined.

(** C5, as the code has it.  When the graphics query returns, every
    record of the monitors list carries a detection method out of
    systeminformation, wmi, system_profiler, xrandr and fallback; the
    records built from the cross-platform graphics query are all tagged
    systeminformation, and they are the list whenever there is one. *)
Theorem C5_detection_method_of_the_source (RT : Runtime) (h : Host)
  (g : option Graphics.t) :
  si_graphics h = Ok g ->
  exists monitors : list value,
    getMonitorInfo h = Ok (monitor_info (os_platform h) monitors) /\
    Forall (fun r => exists tag, In tag detection_methods /\
                     Js.field "detection_method" r = VStr (u tag)) monitors /\
    tagged "systeminformation" (systeminformation_monitors g) /\
    (systeminformation_monitors g <> [] ->
     monitors = systeminformation_monitors g).
Proof.
  intros Hg.
  destruct (platform_monitors_ok h) as (second & tag2 & Hp & _ & Ht2 & Hin).
  rewrite (getMonitorInfo_returns h g second Hg Hp).
  destruct (systeminformation_monitors_ok g) as [_ Ht1].
  assert (Hall : forall tag l, In tag detection_methods -> tagged tag l ->
            Forall (fun r => exists tag, In tag detection_methods /\
                      Js.field "detection_method" r = VStr (u tag)) l).
  { intros tag l Htag Hl. eapply Forall_impl; [|exact Hl].
    intros r Hr. now exists tag. }
  destruct (systeminformation_monitors g) as [|r first].
  - destruct second as [|r second]; eexists; split; try reflexivity.
    + split; [|split; [constructor | congruence]].
      apply (Hall "fallback"); [simpl; auto 6 | apply fallback_ok].
    + split; [|split; [constructor | congruence]].
      apply (Hall tag2); [|exact Ht2].
      simpl in Hin. simpl. intuition.
  - eexists; split; [reflexivity|].
    split; [|split; [exact Ht1 | reflexivity]].
    apply (Hall "systeminformation"); [simpl; auto | exact Ht1].
Qed.

Lemma C5_witness :
  si_graphics display_host = Ok one_display /\
  exists monitors : list value,
    getMonitorInfo (RT := sample_runtime) display_host =
      Ok (monitor_info (os_platform display_host) monitors) /\
    Forall (fun r => exists tag, In tag detection_methods /\
                     Js.field "detection_method" r = VStr (u tag)) monitors /\
    tagged "systeminformation" (systeminformation_monitors one_display) /\
    (systeminformation_monitors one_display <> [] ->
     monitors = systeminformation_monitors one_display).
Proof.
  split; [reflexivity|].
  apply (C5_detection_method_of_the_source sample_runtime display_host
           one_display).
  reflexivity.
Defined.

(** C5 as stated fails: on a host whose graphics query reports one
    display, the record of the result is tagged systeminformation, which
    is none of systeminfo, wmi, system_profiler, xrandr, fallback. *)
Lemma C5_counterexample :
  exists r : value,
    getMonitorInfo (RT := sample_runtime) display_host =
      Ok (monitor_info (u "linux") [r]) /\
    Js.field "detection_method" r = VStr (u "systeminformation") /\
    existsb (strict_equals (Js.field "detection_method" r))
            specified_detection_methods = false.
Proof.
  eexists. split; [reflexivity|]. split; reflexivity.
Qed.

(** C6.  When the graphics query returns, the result of
    [getMonitorInfo] has a non-empty monitors list, [total_monitors] is
    its length, and the ids of its records are 1, 2, ..., N in the order
    of the list; when both strategies yield no record the list is the one
    synthetic record, tagged fallback, with name Unknown Monitor and
    width and height Unknown. *)
Theorem C6_monitors_nonempty_and_numbered (RT : Runtime) (h : Host)
  (g : option Graphics.t) :
  si_graphics h = Ok g ->
  exists (monitors second : list value) (info : value),
    getMonitorInfo h = Ok info /\
    info = monitor_info (os_platform h) monitors /\
    monitors <> [] /\
    Js.field "monitors" info = VArr monitors /\
    Js.field "total_monitors" info = Js.num_of_nat (List.length monitors) /\
    map (Js.field "id") monitors
      = map Js.num_of_nat (seq 1 (List.length monitors)) /\
    platform_monitors h = Ok second /\
    (systeminformation_monitors g = [] -> second = [] ->
     monitors = [fallback_monitor]) /\
    Js.field "id" fallback_monitor = Js.num_of_nat 1 /\
    Js.field "detection_method" fallback_monitor = VStr (u "fallback") /\
    Js.field "name" fallback_monitor = VStr (u "Unknown Monitor") /\
    Js.field "width" fallback_monitor = VStr (u "Unknown") /\
    Js.field "height" fallback_monitor = VStr (u "Unknown").
Proof.
  intros Hg.
  destruct (platform_monitors_ok h) as (second & tag2 & Hp & Hi2 & _ & _).
  rewrite (getMonitorInfo_returns h g second Hg Hp).
  destruct (systeminformation_monitors_ok g) as [Hi1 _].
  destruct (systeminformation_monitors g) as [|r first].
  - destruct second as [|r second].
    + exists [fallback_monitor], [],
             (monitor_info (os_platform h) [fallback_monitor]).
      repeat split; try reflexivity; try discriminate; auto.
    + exists (r :: second), (r :: second),
             (monitor_info (os_platform h) (r :: second)).
      repeat split; try reflexivity; try discriminate; try congruence; auto.
  - exists (r :: first), second, (monitor_info (os_platform h) (r :: first)).
    repeat split; try reflexivity; try discriminate; try congruence; auto.
Qed.

Lemma C6_witness :
  si_graphics xrandr_host = Ok no_displays /\
  exists (monitors second : list value) (info : value),
    getMonitorInfo (RT := sample_runtime) xrandr_host = Ok info /\
    info = monitor_info (os_platform xrandr_host) monitors /\
    monitors <> [] /\
    Js.field "monitors" info = VArr monitors /\
    Js.field "total_monitors" info = Js.num_of_nat (List.length monitors) /\
    map (Js.field "id") monitors
      = map Js.num_of_nat (seq 1 (List.length monitors)) /\
    platform_monitors (RT := sample_runtime) xrandr_host = Ok second /\
    (systeminformation_monitors no_displays = [] -> second = [] ->
     monitors = [fallback_monitor]) /\
    Js.field "id" fallback_monitor = Js.num_of_nat 1 /\
    Js.field "detection_method" fallback_monitor = VStr (u "fallback") /\
    Js.field "name" fallback_monitor = VStr (u "Unknown Monitor") /\
    Js.field "width" fallback_monitor = VStr (u "Unknown") /\
    Js.field "height" fallback_monitor = VStr (u "Unknown").
Proof.
  split; [reflexivity|].
  apply (C6_monitors_nonempty_and_numbered sample_runtime xrandr_host
           no_displays).
  reflexivity.
Defined.

(* ================================================================== *)
(** ** Parsing of the platform utilities' output *)
(* ================================================================== *)

Lemma linux_next_pushes (line : jsstring) (s : locals) (r : value) :
  linux_next line s = {| monitors := monitors s ++ [r];
                         monitorId := S (monitorId s) |} ->
  includes line (u " connected") = true /\
  includes line (u "disconnected") = false /\
  exists width height,
    match_resolution line = Some (width, height) /\
    r = xrandr_record (monitorId s) (first_field line) width height
                      (includes line (u "primary")).
Proof.
  unfold linux_next.
  assert (Hs : s <> {| monitors := monitors s ++ [r];
                       monitorId := S (monitorId s) |}).
  { intros E. apply (f_equal monitorId) in E. simpl in E. lia. }
  destruct (includes line (u " connected")); simpl; [|congruence].
  destruct (includes line (u "disconnected")); simpl; [congruence|].
  destruct (match_resolution line) as [[w h]|]; [|congruence].
  intros E. apply (f_equal monitors) in E. simpl in E.
  apply app_inv_head in E. inversion E; subst.
  split; [reflexivity|]. split; [reflexivity|].
  exists w, h. split; reflexivity.
Qed.

(** C2.  The loop body of [_getLinuxMonitors] never throws and leaves the
    locals as [linux_next] says.  It pushes a record exactly for the
    lines that contain " connected", do not contain "disconnected" and
    hold <digits>x<digits>; the record's name is the line up to its first
    white space, which is the first piece of the line split on white
    space, its width and height are the two digit groups matched, and
    [is_primary] tells whether the line contains "primary".  Any other
    line leaves the locals as they were.  The two lines of the
    specification and a whole output behave as stated. *)
Theorem C2_linux_line_record (s : locals) :
  (forall line, linux_line line s = (Ok tt, linux_next line s)) /\
  (forall line,
     (includes line (u " connected") = true /\
      includes line (u "disconnected") = false /\
      has_resolution line)
     <->
     (exists width height pre post,
        line = pre ++ width ++ [120%N] ++ height ++ post /\
        digits width /\ digits height /\
        match_resolution line = Some (width, height) /\
        snd (linux_line line s) =
          {| monitors := monitors s ++
               [xrandr_record (monitorId s) (first_field line) width height
                              (includes line (u "primary"))];
             monitorId := S (monitorId s) |})) /\
  (forall line,
     ~ (includes line (u " connected") = true /\
        includes line (u "disconnected") = false /\
        has_resolution line) ->
     linux_line line s = (Ok tt, s)) /\
  (forall line, exists rest, split_ws line = first_field line :: rest) /\
  linux_line (u "HDMI-1 connected primary 1920x1080+0+0 ...") s =
    (Ok tt, {| monitors := monitors s ++
                 [xrandr_record (monitorId s) (u "HDMI-1") (u "1920")
                                (u "1080") true];
               monitorId := S (monitorId s) |}) /\
  linux_line (u "HDMI-2 disconnected") s = (Ok tt, s) /\
  _getLinuxMonitors xrandr_host =
    Ok [xrandr_record 1 (u "HDMI-1") (u "1920") (u "1080") true].
Proof.
  split; [intros line; apply linux_line_eq|].
  split.
  { intros line. rewrite linux_line_eq. simpl snd. split.
    - intros (Hc & Hd & Hr).
      apply match_resolution_iff in Hr as [[w h] E].
      destruct (match_resolution_sound _ _ _ E) as (pre & post & L & Hw & Hh).
      exists w, h, pre, post. repeat split; try apply Hw; try apply Hh; auto.
      unfold linux_next. now rewrite Hc, Hd, E.
    - intros (w & h & pre & post & L & Hw & Hh & E & N).
      apply linux_next_pushes in N as (Hc & Hd & _).
      repeat split; auto. apply match_resolution_iff. eauto. }
  split.
  { intros line Hn. rewrite linux_line_eq. f_equal. unfold linux_next.
    destruct (includes line (u " connected")) eqn:Hc; [|reflexivity].
    destruct (includes line (u "disconnected")) eqn:Hd; [reflexivity|].
    simpl. destruct (match_resolution line) as [[w h]|] eqn:E; [|reflexivity].
    exfalso. apply Hn. repeat split. apply match_resolution_iff. eauto. }
  split; [apply split_ws_head|].
  split; [now rewrite linux_line_eq|].
  split; [now rewrite linux_line_eq | reflexivity].
Qed.

(** The resolution block on a string: no exception leaves it, and the
    two pieces it reads exist whenever the string contains " x ". *)
Lemma macos_resolution_text (resolution : jsstring) :
  macos_resolution (VStr resolution) (unknown, unknown) =
  (Ok tt,
   if includes resolution (u " x ")
   then (VStr (trim (nth 0 (split resolution (u " x ")) [])),
         VStr (hd [] (split (nth 1 (split resolution (u " x ")) []) (u " "))))
   else (unknown, unknown)).
Proof.
  unfold macos_resolution. cbn [Js.call_includes Eff.bind Eff.lift].
  destruct (includes resolution (u " x ")) eqn:E; [|reflexivity].
  destruct (split_two resolution (u " x ")) as (a & b & rest & S);
    [discriminate | exact E |].
  cbn [Eff.try_ignore Eff.bind Eff.lift Js.call_split Eff.get Eff.put].
  rewrite S.
  destruct (split b (u " ")) as [|t ts] eqn:F;
    [now apply split_not_nil_sep in F|].
  cbn -[split trim]. change [32%N] with (u " "). now rewrite F.
Qed.

(** A monitor entry whose resolution and name are strings or absent
    gives one record. *)
Lemma macos_monitor_entry (o : list (jsstring * value)) (s : locals)
  (resolution name : jsstring) :
  Js.or (Js.lookup (u "_spdisplays_resolution") o) (VStr []) = VStr resolution ->
  Js.or (Js.lookup (u "_name") o) (VStr []) = VStr name ->
  exists width height,
    macos_resolution (VStr resolution) (unknown, unknown)
      = (Ok tt, (width, height)) /\
    macos_monitor (VObj o) s =
    (Ok tt,
     {| monitors := monitors s ++
          [system_profiler_record (monitorId s)
             (Js.or (Js.lookup (u "_name") o)
                    (VStr (u "Monitor " ++ of_nat (S (monitorId s)))))
             width height (includes name (u "Retina"))];
        monitorId := S (monitorId s) |}).
Proof.
  intros Hr Hn.
  destruct (macos_resolution (VStr resolution) (unknown, unknown))
    as [r [width height]] eqn:E.
  assert (r = Ok tt) as ->.
  { rewrite macos_resolution_text in E. now inversion E. }
  exists width, height. split; [reflexivity|].
  unfold macos_monitor. cbn [Js.get Eff.bind Eff.lift].
  rewrite Hr, E.
  cbn [Eff.bind post_increment Eff.get Eff.put Eff.ret Eff.lift Js.get].
  rewrite Hn. reflexivity.
Qed.

(** C4.  The resolution block of [_getMacOSMonitors] turns
    "1920 x 1080 @ 60Hz" into width "1920" and height "1080"; on every
    string without " x " it leaves both at "Unknown"; on every string it
    completes without an exception, the width being the trimmed text
    before the first " x " and the height the text after it up to the
    next space.  A monitor entry with such a resolution and a textual or
    absent name gives a record with that width and height. *)
Theorem C4_macos_resolution_parsing :
  macos_resolution (VStr (u "1920 x 1080 @ 60Hz")) (unknown, unknown)
    = (Ok tt, (VStr (u "1920"), VStr (u "1080"))) /\
  (forall resolution,
     includes resolution (u " x ") = false ->
     macos_resolution (VStr resolution) (unknown, unknown)
       = (Ok tt, (VStr (u "Unknown"), VStr (u "Unknown")))) /\
  (forall resolution,
     includes resolution (u " x ") = true ->
     macos_resolution (VStr resolution) (unknown, unknown)
       = (Ok tt,
          (VStr (trim (nth 0 (split resolution (u " x ")) [])),
           VStr (hd [] (split (nth 1 (split resolution (u " x ")) [])
                              (u " ")))))) /\
  (forall o s name,
     Js.lookup (u "_spdisplays_resolution") o
       = VStr (u "1920 x 1080 @ 60Hz") ->
     Js.or (Js.lookup (u "_name") o) (VStr []) = VStr name ->
     exists r,
       macos_monitor (VObj o) s =
         (Ok tt, {| monitors := monitors s ++ [r];
                    monitorId := S (monitorId s) |}) /\
       Js.field "width" r = VStr (u "1920") /\
       Js.field "height" r = VStr (u "1080")) /\
  (forall o s resolution name,
     Js.or (Js.lookup (u "_spdisplays_resolution") o) (VStr [])
       = VStr resolution ->
     includes resolution (u " x ") = false ->
     Js.or (Js.lookup (u "_name") o) (VStr []) = VStr name ->
     exists r,
       macos_monitor (VObj o) s =
         (Ok tt, {| monitors := monitors s ++ [r];
                    monitorId := S (monitorId s) |}) /\
       Js.field "width" r = VStr (u "Unknown") /\
       Js.field "height" r = VStr (u "Unknown")).
Proof.
  split; [reflexivity|].
  split. { intros resolution E. rewrite macos_resolution_text. now rewrite E. }
  split. { intros resolution E. rewrite macos_resolution_text. now rewrite E. }
  split.
  - intros o s name Hr Hn.
    destruct (macos_monitor_entry o s (u "1920 x 1080 @ 60Hz") name)
      as (w & h & E & M); [now rewrite Hr | exact Hn |].
    eexists. split; [exact M|]. inversion E. split; reflexivity.
  - intros o s resolution name Hr Hx Hn.
    destruct (macos_monitor_entry o s resolution name Hr Hn)
      as (w & h & E & M).
    eexists. split; [exact M|].
    rewrite macos_resolution_text, Hx in E. inversion E. split; reflexivity.
Qed.

(* ================================================================== *)
(** ** Sorting and slicing *)
(* ================================================================== *)

Section Sorting.
Context {A : Type} (cmp : A -> A -> Q) (R : A -> A -> Prop).

(** The comparator puts [a] before [b] only when [R a b], and leaves
    [b] before [a] only when [R b a]. *)
Hypothesis cmp_before : forall a b, Qle_bool (cmp a b) 0 = true -> R a b.
Hypothesis cmp_after : forall a b, Qle_bool (cmp a b) 0 = false -> R b a.

Lemma sort_insert_perm (x : A) (l : list A) :
  Permutation (Js.sort_insert cmp x l) (x :: l).
Proof.
  induction l as [|y l IH]; simpl; [reflexivity|].
  destruct (Qle_bool (cmp x y) 0); [reflexivity|].
  rewrite IH. apply perm_swap.
Qed.

Lemma sort_perm (l : list A) : Permutation (Js.sort cmp l) l.
Proof.
  induction l as [|x l IH]; simpl; [reflexivity|].
  rewrite sort_insert_perm. now constructor.
Qed.

Lemma sort_insert_sorted (x : A) (l : list A) :
  Sorted R l -> Sorted R (Js.sort_insert cmp x l).
Proof.
  induction l as [|y l IH]; simpl; intros Hl.
  - repeat constructor.
  - destruct (Qle_bool (cmp x y) 0) eqn:E.
    + constructor; [exact Hl|]. constructor. now apply cmp_before.
    + inversion Hl as [|? ? Hs Hh]; subst.
      constructor; [now apply IH|].
      destruct l as [|z l]; simpl.
      * constructor. now apply cmp_after.
      * destruct (Qle_bool (cmp x z) 0).
        -- constructor. now apply cmp_after.
        -- constructor. now inversion Hh.
Qed.

Lemma sort_sorted (l : list A) : Sorted R (Js.sort cmp l).
Proof.
  induction l as [|x l IH]; simpl; [constructor|].
  now apply sort_insert_sorted.
Qed.

End Sorting.

Lemma StronglySorted_firstn {A : Type} (R : A -> A -> Prop) (n : nat)
  (l : list A) :
  StronglySorted R l -> StronglySorted R (firstn n l).
Proof.
  revert n; induction l as [|x l IH]; intros [|n] H; simpl;
    try constructor.
  - apply IH. now inversion H.
  - inversion H as [|? ? _ Hall]; subst.
    rewrite Forall_forall in *. intros y Hy. apply Hall.
    rewrite <- (firstn_skipn n l). apply in_or_app. now left.
Qed.

Lemma to_integer_inject_Z (z : Z) : Js.to_integer (inject_Z z) = z.
Proof.
  unfold Js.to_integer.
  destruct (Qle_bool 0 (inject_Z z)); [apply Qfloor_Z | apply Qceiling_Z].
Qed.

(** [l.slice(0, stop)]: the first [stop] elements, or all but the last
    [-stop] when [stop] is negative. *)
Lemma slice_from_0 {A : Type} (l : list A) (stop : Z) :
  Js.slice l 0 stop =
  firstn (if (stop <? 0)%Z
          then List.length l - Z.to_nat (- stop)
          else Z.to_nat stop) l.
Proof.
  unfold Js.slice. cbn [Z.ltb Z.compare].
  rewrite (Z.min_l 0 (Z.of_nat (List.length l))) by lia. cbn [Z.to_nat skipn].
  destruct (Z.ltb_spec stop 0).
  - f_equal. lia.
  - destruct (Z.le_gt_cases stop (Z.of_nat (List.length l))).
    + f_equal. lia.
    + replace (Z.to_nat _) with (List.length l) by lia.
      rewrite firstn_all, firstn_all2; [reflexivity | lia].
Qed.

Lemma slice_from_0_length {A : Type} (l : list A) (stop : Z) :
  (0 <= stop)%Z ->
  List.length (Js.slice l 0 stop) = Nat.min (Z.to_nat stop) (List.length l).
Proof.
  intros H. rewrite slice_from_0.
  destruct (Z.ltb_spec stop 0); [lia|]. apply length_firstn.
Qed.

(* ================================================================== *)
(** ** Properties of the process listing *)
(* ================================================================== *)

Section RunningProcesses.
Context {RT : Runtime}.

Lemma strict_equals_false (v : value) (text : string) :
  v <> VStr (u text) -> strict_equals v text = false.
Proof.
  intros H. destruct v; try reflexivity. simpl.
  apply eqb_neq. congruence.
Qed.

(** With a key that is neither 'memory' nor 'name' the [switch] sorts by
    CPU load, on the [case 'cpu'] and on the [default] alike. *)
Lemma sort_processes_by_cpu (sortBy : value) (l : list Process.t) :
  strict_equals sortBy "memory" = false ->
  strict_equals sortBy "name" = false ->
  sort_processes sortBy l =
  Js.sort (fun a b => (Process.cpu b - Process.cpu a)%Q) l.
Proof.
  intros Hm Hn. unfold sort_processes. rewrite Hm, Hn.
  now destruct (strict_equals sortBy "cpu").
Qed.

Lemma sort_by_cpu_sorted (l : list Process.t) :
  StronglySorted cpu_descending
    (Js.sort (fun a b => (Process.cpu b - Process.cpu a)%Q) l).
Proof.
  apply Sorted_StronglySorted.
  - intros a b c. unfold cpu_descending. intros; lra.
  - apply sort_sorted; intros a b E; unfold cpu_descending.
    + apply Qle_bool_iff in E. lra.
    + assert (~ (Process.cpu b - Process.cpu a <= 0)%Q) as N.
      { intros L. apply Qle_bool_iff in L. congruence. }
      lra.
Qed.

Lemma sort_by_memory_sorted (l : list Process.t) :
  StronglySorted memory_descending
    (Js.sort (fun a b => (Process.memRss b - Process.memRss a)%Q) l).
Proof.
  apply Sorted_StronglySorted.
  - intros a b c. unfold memory_descending. intros; lra.
  - apply sort_sorted; intros a b E; unfold memory_descending.
    + apply Qle_bool_iff in E. lra.
    + assert (~ (Process.memRss b - Process.memRss a <= 0)%Q) as N.
      { intros L. apply Qle_bool_iff in L. congruence. }
      lra.
Qed.

Lemma getRunningProcesses_returns (h : Host) (processes : Processes.t)
  (limit : option Q) (sortBy : value) :
  si_processes h = Ok processes ->
  getRunningProcesses h limit sortBy =
  Ok (processes_result h processes
        (selected_processes
           (match limit with Some q => q | None => 20%Q end)
           (match sortBy with VUndef => VStr (u "cpu") | v => v end)
           processes)).
Proof. intros E. unfold getRunningProcesses. now rewrite E. Qed.

End RunningProcesses.

Section Limits.
Context {RT : Runtime}.

Lemma sort_processes_perm (sortBy : value) (l : list Process.t) :
  Permutation (sort_processes sortBy l) l.
Proof.
  unfold sort_processes.
  repeat (destruct (strict_equals sortBy _)); apply sort_perm.
Qed.

(** Sorting by name, when [localeCompare] never puts each of two names
    after the other. *)
Lemma sort_by_name_sorted (l : list Process.t) :
  (forall a b, (0 < localeCompare a b)%Z -> (localeCompare b a <= 0)%Z) ->
  Sorted (fun a b => (localeCompare (Process.name a) (Process.name b) <= 0)%Z)
         (sort_processes (VStr (u "name")) l).
Proof.
  intros Hc. unfold sort_processes. cbn [strict_equals].
  replace (JsString.eqb (u "name") (u "memory")) with false by reflexivity.
  rewrite eqb_refl.
  apply sort_sorted; intros a b E.
  - apply Qle_bool_iff in E. unfold Qle in E. simpl in E. lia.
  - apply Hc.
    assert (~ (inject_Z (localeCompare (Process.name a) (Process.name b)) <= 0)%Q)
      as N by (intros L; apply Qle_bool_iff in L; congruence).
    unfold Qle in N. simpl in N. lia.
Qed.

(** A limit that is a non-negative integer keeps the first
    min(limit, total) processes of the sorted list. *)
Lemma getRunningProcesses_limit (h : Host) (processes : Processes.t)
  (limit : Z) (sortBy : value) :
  (0 <= limit)%Z -> si_processes h = Ok processes ->
  exists sorted kept,
    getRunningProcesses h (Some (inject_Z limit)) sortBy =
      Ok (processes_result h processes kept) /\
    sorted = sort_processes (match sortBy with
                             | VUndef => VStr (u "cpu")
                             | v => v
                             end) (Processes.list processes) /\
    Permutation sorted (Processes.list processes) /\
    kept = firstn (Z.to_nat limit) sorted /\
    List.length kept =
      Nat.min (Z.to_nat limit) (List.length (Processes.list processes)) /\
    (sortBy = VStr (u "cpu") \/ sortBy = VUndef ->
     StronglySorted cpu_descending kept) /\
    (sortBy = VStr (u "memory") -> StronglySorted memory_descending kept).
Proof.
  intros Hl Hp. rewrite (getRunningProcesses_returns h processes _ _ Hp).
  unfold selected_processes. rewrite to_integer_inject_Z, slice_from_0.
  destruct (Z.ltb_spec limit 0); [lia|].
  eexists; eexists. split; [reflexivity|]. split; [reflexivity|].
  split; [apply sort_processes_perm|]. split; [reflexivity|].
  split.
  { rewrite length_firstn.
    now rewrite (Permutation_length (sort_processes_perm _ _)). }
  split.
  - intros [-> | ->]; apply StronglySorted_firstn;
      rewrite sort_processes_by_cpu by reflexivity; apply sort_by_cpu_sorted.
  - intros ->. apply StronglySorted_firstn. apply sort_by_memory_sorted.
Qed.

End Limits.

(* ================================================================== *)
(** ** Running processes: the claims *)
(* ================================================================== *)

(** C3, where the code departs from it.  With three processes and
    limit -1, [getRunningProcesses] lists two processes, the sorted list
    without its last element, where the claim has an empty list; for
    every negative integer limit the processes listed are the sorted
    ones without the last -limit. *)
Theorem C3_negative_limit_lists_processes (RT : Runtime) :
  getRunningProcesses process_host (Some (-1)%Q) (VStr (u "cpu")) =
    Ok (processes_result process_host three_processes
          [process_named "node" 7 200; process_named "bash" 3 100]) /\
  (forall (h : Host) (processes : Processes.t) (limit : Z) (sortBy : value),
     (limit < 0)%Z -> si_processes h = Ok processes ->
     getRunningProcesses h (Some (inject_Z limit)) sortBy =
       Ok (processes_result h processes
             (firstn (List.length (Processes.list processes)
                      - Z.to_nat (- limit))
                (sort_processes (match sortBy with
                                 | VUndef => VStr (u "cpu")
                                 | v => v
                                 end) (Processes.list processes))))).
Proof.
  split; [reflexivity|].
  intros h processes limit sortBy Hl Hp.
  rewrite (getRunningProcesses_returns h processes _ _ Hp).
  unfold selected_processes. rewrite to_integer_inject_Z, slice_from_0.
  destruct (Z.ltb_spec limit 0); [|lia].
  now rewrite (Permutation_length (sort_processes_perm _ _)).
Qed.

(** C10.  With a sort key that is neither 'memory' nor 'name' (a key
    outside the enumeration, or none), [getRunningProcesses] does what it
    does with 'cpu': when the process query returns, it returns the
    processes kept from the list sorted by CPU load, descending. *)
Theorem C10_unrecognised_sort_key_is_cpu (RT : Runtime) (h : Host)
  (limit : option Q) (sortBy : value) :
  sortBy <> VStr (u "memory") -> sortBy <> VStr (u "name") ->
  getRunningProcesses h limit sortBy
    = getRunningProcesses h limit (VStr (u "cpu")) /\
  (forall processes,
     si_processes h = Ok processes ->
     exists (sorted kept : list Process.t) (n : nat),
       getRunningProcesses h limit sortBy =
         Ok (processes_result h processes kept) /\
       sorted = Js.sort (fun a b => (Process.cpu b - Process.cpu a)%Q)
                        (Processes.list processes) /\
       Permutation sorted (Processes.list processes) /\
       StronglySorted cpu_descending sorted /\
       kept = firstn n sorted /\
       StronglySorted cpu_descending kept).
Proof.
  intros Hm Hn.
  assert (Hs : forall l,
            sort_processes (match sortBy with
                            | VUndef => VStr (u "cpu")
                            | v => v
                            end) l
            = Js.sort (fun a b => (Process.cpu b - Process.cpu a)%Q) l).
  { intros l. apply sort_processes_by_cpu.
    - destruct sortBy; try reflexivity. now apply strict_equals_false.
    - destruct sortBy; try reflexivity. now apply strict_equals_false. }
  split.
  - unfold getRunningProcesses, selected_processes.
    destruct (si_processes h) as [processes|e]; [|reflexivity].
    cbn [bind]. rewrite Hs.
    now rewrite (sort_processes_by_cpu (VStr (u "cpu"))) by reflexivity.
  - intros processes Hp.
    rewrite (getRunningProcesses_returns h processes _ _ Hp).
    unfold selected_processes. rewrite Hs, slice_from_0.
    eexists; eexists; eexists. split; [reflexivity|].
    split; [reflexivity|]. split; [apply sort_perm|].
    split; [apply sort_by_cpu_sorted|]. split; [reflexivity|].
    apply StronglySorted_firstn, sort_by_cpu_sorted.
Qed.

Lemma C10_witness :
  VStr (u "pid") <> VStr (u "memory") /\
  VStr (u "pid") <> VStr (u "name") /\
  getRunningProcesses (RT := sample_runtime) process_host None (VStr (u "pid"))
    = getRunningProcesses (RT := sample_runtime) process_host None
        (VStr (u "cpu")) /\
  (forall processes,
     si_processes process_host = Ok processes ->
     exists (sorted kept : list Process.t) (n : nat),
       getRunningProcesses (RT := sample_runtime) process_host None
           (VStr (u "pid")) =
         Ok (processes_result (RT := sample_runtime) process_host processes
               kept) /\
       sorted = Js.sort (fun a b => (Process.cpu b - Process.cpu a)%Q)
                        (Processes.list processes) /\
       Permutation sorted (Processes.list processes) /\
       StronglySorted cpu_descending sorted /\
       kept = firstn n sorted /\
       StronglySorted cpu_descending kept).
Proof.
  split; [discriminate|]. split; [discriminate|].
  apply (C10_unrecognised_sort_key_is_cpu sample_runtime process_host None
           (VStr (u "pid"))); discriminate.
Defined.

(* ================================================================== *)
(** ** Placeholder names *)
(* ================================================================== *)

Lemma num_of_nat_inj (n m : nat) : Js.num_of_nat n = Js.num_of_nat m -> n = m.
Proof. unfold Js.num_of_nat, inject_Z. intros E. inversion E. lia. Qed.

(** A display without a model is named after its own id. *)
Lemma systeminformation_placeholder (display : Display.t) (index : nat) :
  Js.truthy (Display.model display) = false ->
  named_by_id "Display " (systeminformation_monitor display index).
Proof.
  intros H. exists (index + 1). split; [reflexivity|].
  cbn. unfold Js.or. now rewrite H.
Qed.

Section Placeholders.
Context {RT : Runtime}.

(** Every record of the Windows strategy is named after its own id. *)
Lemma getWindowsMonitors_names (h : Host) :
  exists l, _getWindowsMonitors h = Ok l /\ Forall (named_by_id "Monitor ") l.
Proof.
  unfold _getWindowsMonitors, windows_try. rewrite returning_monitors_eq.
  eexists; split; [reflexivity|].
  set (I := fun s : locals => Forall (named_by_id "Monitor ") (monitors s)).
  assert (H0 : I locals0) by constructor.
  change (I (snd ((do* stdout <- Eff.lift (execAsync h windows_cmd 10000);
                   if Js.truthy (VStr (trim stdout))
                   then do* parsed <- Eff.lift (JSON_parse stdout);
                        Eff.for_each_from windows_monitor 0
                          match parsed with
                          | VArr l => l
                          | _ => [parsed]
                          end
                   else Eff.ret tt)%eff locals0))).
  unfold Eff.bind at 1. unfold Eff.lift at 1.
  destruct (execAsync h _ _) as [stdout|e]; [|exact H0].
  destruct (Js.truthy _); [|exact H0].
  unfold Eff.bind at 1. unfold Eff.lift at 1.
  destruct (JSON_parse stdout) as [parsed|e]; [|exact H0].
  eapply (hoare_final (fun s => I s) _ (fun _ s => I s) I).
  - apply (hoare_for_each_from (fun _ s => I s) I).
    intros monitor index s Hs.
    destruct monitor; cbn; try exact Hs;
      (apply Forall_app; split; [exact Hs|]; repeat constructor;
       exists (index + 1); split; reflexivity).
  - exact H0.
  - auto.
Qed.

End Placeholders.

Lemma system_profiler_record_name (id : nat) (name width height : value)
  (retina : bool) :
  Js.field "name" (system_profiler_record id name width height retina) = name.
Proof. reflexivity. Qed.

(** A macOS monitor entry without a name gets the id held by the counter
    and a name made from the counter after its increment. *)
Lemma macos_monitor_nameless (o : list (jsstring * value)) (s : locals)
  (resolution : jsstring) :
  Js.or (Js.lookup (u "_spdisplays_resolution") o) (VStr []) = VStr resolution ->
  Js.truthy (Js.lookup (u "_name") o) = false ->
  exists r,
    macos_monitor (VObj o) s =
      (Ok tt, {| monitors := monitors s ++ [r];
                 monitorId := S (monitorId s) |}) /\
    Js.field "id" r = Js.num_of_nat (monitorId s) /\
    Js.field "name" r = VStr (u "Monitor " ++ of_nat (S (monitorId s))).
Proof.
  intros Hr Hn.
  assert (Hname : Js.or (Js.lookup (u "_name") o) (VStr []) = VStr []).
  { unfold Js.or. now rewrite Hn. }
  destruct (macos_monitor_entry o s resolution [] Hr Hname)
    as (w & h & _ & M).
  eexists. split; [exact M|]. split; [reflexivity|].
  rewrite system_profiler_record_name. unfold Js.or. now rewrite Hn.
Qed.

(** C9, where the code departs from it.  On a macOS host whose
    [system_profiler] output holds one monitor without a name, the record
    has id 1 and the name "Monitor 2": the placeholder does not hold the
    record's own id. *)
Theorem C9_macos_placeholder_holds_next_id :
  _getMacOSMonitors (RT := sample_runtime) profiler_host =
    Ok [system_profiler_record 1 (VStr (u "Monitor 2"))
          (VStr (u "1920")) (VStr (u "1080")) false] /\
  (named_by_id "Monitor "
     (system_profiler_record 1 (VStr (u "Monitor 2"))
        (VStr (u "1920")) (VStr (u "1080")) false) -> False).
Proof.
  split; [reflexivity|].
  intros [n [Hid Hname]].
  apply num_of_nat_inj in Hid. subst n. discriminate Hname.
Qed.

(* ================================================================== *)
(** ** Tool dispatch: the claim *)
(* ================================================================== *)

Section Dispatch.
Context {RT : Runtime}.

(** The [switch] of [callTool] is the look-up of the name in the table
    of handlers, and the [try] wraps what the handler ends in. *)
Lemma callTool_response (h : Host) (params : Params.t) :
  callTool h params = Ok (response (handler_outcome h params)).
Proof.
  unfold callTool, handler_outcome, handler_table.
  cbn [find fst snd].
  repeat match goal with
         | |- context [JsString.eqb (Params.name params) ?t] =>
             destruct (JsString.eqb (Params.name params) t)
         end;
    match goal with
    | |- try_catch (bind ?r _) _ = _ => destruct r as [[]|]; reflexivity
    end.
Qed.

Lemma handler_outcome_unknown (h : Host) (params : Params.t) :
  ~ In (Params.name params) tool_names ->
  handler_outcome h params = Throw (u "Unknown tool: " ++ Params.name params).
Proof.
  intros Hn. unfold handler_outcome, handler_table. cbn [find fst snd].
  repeat match goal with
         | |- context [JsString.eqb (Params.name params) ?t] =>
             destruct (JsString.eqb (Params.name params) t) eqn:?E
         end;
    try reflexivity;
    exfalso; apply Hn;
    match goal with
    | E : JsString.eqb _ _ = true |- _ => apply eqb_eq in E; rewrite E
    end;
    unfold tool_names; simpl; auto 10.
Qed.

End Dispatch.

(** C8.  [callTool] always returns a response, never an exception.  The
    response wraps what the handler of the named tool ends in: a result
    gives one text block, holding the result itself when it is a string
    and its pretty-printed form otherwise, and no error flag; an
    exception gives one text block holding "Error: " and the message,
    with [isError] set.  A name that is no tool's ends in the error of
    the unknown tool; the monitor handler always ends in a result, and
    the process handler ends in an error when the process query throws. *)
Theorem C8_every_outcome_is_a_response (RT : Runtime) (h : Host)
  (params : Params.t) :
  callTool h params = Ok (response (handler_outcome h params)) /\
  (forall result,
     handler_outcome h params = Ok result ->
     callTool h params =
       Ok (tool_success (match result with
                         | VStr text => text
                         | _ => JSON_stringify result
                         end))) /\
  (forall message,
     handler_outcome h params = Throw message ->
     callTool h params = Ok (tool_error message)) /\
  (~ In (Params.name params) tool_names ->
   callTool h params =
     Ok (tool_error (u "Unknown tool: " ++ Params.name params))) /\
  (Params.name params = u "get_monitor_info" ->
   exists info, getMonitorInfo h = Ok info /\
                handler_outcome h params = Ok info) /\
  (Params.name params = u "get_running_processes" ->
   forall message, si_processes h = Throw message ->
   callTool h params = Ok (tool_error message)) /\
  (forall text,
     Js.field "content" (tool_success text)
       = VArr [obj [("type", VStr (u "text")); ("text", VStr text)]] /\
     Js.field "isError" (tool_success text) = VUndef) /\
  (forall message,
     Js.field "content" (tool_error message)
       = VArr [obj [("type", VStr (u "text"));
                    ("text", VStr (u "Error: " ++ message))]] /\
     Js.field "isError" (tool_error message) = VBool true).
Proof.
  split; [apply callTool_response|].
  split.
  { intros result E. rewrite callTool_response, E. now destruct result. }
  split.
  { intros message E. now rewrite callTool_response, E. }
  split.
  { intros Hn. now rewrite callTool_response, handler_outcome_unknown. }
  split.
  { intros E. destruct (getMonitorInfo_total h) as [info Hi].
    exists info. split; [exact Hi|].
    unfold handler_outcome. rewrite E. exact Hi. }
  split.
  { intros E message Hp. rewrite callTool_response.
    unfold handler_outcome. rewrite E. cbn [find handler_table fst snd].
    unfold getRunningProcesses. now rewrite Hp. }
  split; intros; split; reflexivity.
Qed.

(* ================================================================== *)
(** ** Further properties: the platform strategies in closed form *)
(* ================================================================== *)

Lemma numbered_from_app (i : nat) (a b : list (nat -> value)) :
  numbered_from i (a ++ b) =
  numbered_from i a ++ numbered_from (i + List.length a) b.
Proof.
  revert i; induction a as [|r a IH]; intros i; simpl.
  - now rewrite Nat.add_0_r.
  - now rewrite IH, Nat.add_succ_comm.
Qed.

Lemma numbered_from_length (i : nat) (l : list (nat -> value)) :
  List.length (numbered_from i l) = List.length l.
Proof. revert i; induction l; intros i; simpl; auto. Qed.

Lemma filter_map_length {A B : Type} (f : A -> option B) (l : list A) :
  List.length (filter_map f l) <= List.length l.
Proof.
  induction l as [|x l IH]; simpl; [lia|].
  destruct (f x); simpl; lia.
Qed.

Lemma linux_next_listing (line : jsstring) (s : locals) :
  linux_next line s =
  match xrandr_listing line with
  | Some r => {| monitors := monitors s ++ [r (monitorId s)];
                 monitorId := S (monitorId s) |}
  | None => s
  end.
Proof.
  unfold linux_next, xrandr_listing.
  destruct (_ && _); [|reflexivity].
  destruct (match_resolution line) as [[w h]|]; reflexivity.
Qed.

Lemma linux_fold_listing (lines : list jsstring) (s : locals) :
  fold_left (fun s l => linux_next l s) lines s =
  {| monitors := monitors s ++
        numbered_from (monitorId s) (filter_map xrandr_listing lines);
     monitorId := monitorId s
                  + List.length (filter_map xrandr_listing lines) |}.
Proof.
  revert s; induction lines as [|l lines IH]; intros s; simpl.
  - rewrite app_nil_r, Nat.add_0_r. now destruct s.
  - rewrite IH, linux_next_listing.
    destruct (xrandr_listing l) as [r|]; [|reflexivity].
    simpl. rewrite <- app_assoc. simpl. f_equal. lia.
Qed.

(** X1.  [_getLinuxMonitors] returns the listed lines of the output, in
    their order, numbered 1, 2, ...: a line that is not listed (not
    connected, disconnected, or without a resolution) leaves no record
    and uses no id, so there are never more records than lines; a failed
    command gives no record. *)
Theorem linux_records_are_the_listed_lines (h : Host) :
  _getLinuxMonitors h =
    Ok (match execAsync h (u "xrandr --query") 10000 with
        | Ok stdout => xrandr_records stdout
        | Throw _ => []
        end) /\
  (forall stdout,
     List.length (xrandr_records stdout)
       = List.length (filter_map xrandr_listing (split stdout [10%N])) /\
     List.length (xrandr_records stdout)
       <= List.length (split stdout [10%N])) /\
  (forall before line after,
     xrandr_listing line = None ->
     numbered_from 1 (filter_map xrandr_listing (before ++ line :: after))
     = numbered_from 1 (filter_map xrandr_listing (before ++ after))).
Proof.
  split.
  { rewrite getLinuxMonitors_eq.
    destruct (execAsync h _ _) as [stdout|e]; [|reflexivity].
    rewrite linux_fold_listing. reflexivity. }
  split.
  { intros stdout. unfold xrandr_records. rewrite numbered_from_length.
    split; [reflexivity | apply filter_map_length]. }
  intros before line after Hn. f_equal.
  induction before as [|b before IH]; simpl.
  - now rewrite Hn.
  - now rewrite IH.
Qed.

Lemma get_readable (v : value) (k : string) :
  readable v = true -> Js.get v (u k) = Ok (Js.field k v).
Proof. destruct v; simpl; intros H; try discriminate; reflexivity. Qed.

Lemma windows_monitor_readable (monitor : value) (index : nat) (s : locals) :
  readable monitor = true ->
  windows_monitor monitor index s =
  (Ok tt, {| monitors := monitors s ++ [wmi_record monitor index];
             monitorId := monitorId s |}).
Proof. destruct monitor; simpl; intros H; try discriminate; reflexivity. Qed.

Lemma windows_monitor_unreadable (monitor : value) (index : nat) (s : locals) :
  readable monitor = false ->
  exists e, windows_monitor monitor index s = (Throw e, s).
Proof.
  destruct monitor; simpl; intros H; try discriminate; eexists; reflexivity.
Qed.

Lemma windows_loop_monitors (entries : list value) (i : nat) (s : locals) :
  monitors (snd (Eff.for_each_from windows_monitor i entries s)) =
  monitors s ++ Js.mapi_from wmi_record i (take_while readable entries).
Proof.
  revert i s; induction entries as [|m entries IH]; intros i s; simpl.
  - now rewrite app_nil_r.
  - unfold Eff.bind. destruct (readable m) eqn:R.
    + rewrite (windows_monitor_readable m i s R), IH. simpl.
      now rewrite <- app_assoc.
    + destruct (windows_monitor_unreadable m i s R) as [e ->]. simpl.
      now rewrite app_nil_r.
Qed.

(** X2.  [_getWindowsMonitors] returns one record for each entry of the
    parsed array before the first [null], the i-th with id i and the name
    "Monitor i", unknown width and height, and the entry's instance name
    and physical sizes; output that is not an array counts as an array of
    one entry.  Blank output, output that does not parse and a failed
    command give no record. *)
Theorem windows_records_are_the_readable_entries (RT : Runtime) (h : Host) :
  _getWindowsMonitors h =
  Ok (match execAsync h windows_cmd 10000 with
      | Ok stdout =>
          if Js.truthy (VStr (trim stdout))
          then match JSON_parse stdout with
               | Ok parsed => wmi_records parsed
               | Throw _ => []
               end
          else []
      | Throw _ => []
      end).
Proof.
  unfold _getWindowsMonitors, windows_try. rewrite returning_monitors_eq. f_equal.
  unfold Eff.bind at 1. unfold Eff.lift at 1.
  destruct (execAsync h _ _) as [stdout|e]; [|reflexivity].
  destruct (Js.truthy _); [|reflexivity].
  unfold Eff.bind at 1. unfold Eff.lift at 1.
  destruct (JSON_parse stdout) as [parsed|e]; [|reflexivity].
  apply windows_loop_monitors.
Qed.

Lemma text_of_or (v : value) (t : jsstring) :
  text_of v = Some t -> Js.or v (VStr []) = VStr t.
Proof.
  unfold text_of. destruct (Js.or v (VStr [])); intros E; inversion E.
  reflexivity.
Qed.

Lemma macos_monitor_plain (monitor : value) (s : locals) :
  plain_monitor monitor = true ->
  macos_monitor monitor s =
  (Ok tt, {| monitors := monitors s ++ [profiler_record monitor (monitorId s)];
             monitorId := S (monitorId s) |}).
Proof.
  unfold plain_monitor. intros H. apply andb_true_iff in H as [R H].
  destruct (text_of (Js.field "_spdisplays_resolution" monitor))
    as [resolution|] eqn:Hr; [|discriminate].
  destruct (text_of (Js.field "_name" monitor)) as [name|] eqn:Hn;
    [|discriminate].
  unfold macos_monitor. unfold Eff.bind at 1. unfold Eff.lift at 1.
  rewrite (get_readable monitor "_spdisplays_resolution" R).
  rewrite (text_of_or _ _ Hr), macos_resolution_text.
  unfold profiler_record, resolution_width, resolution_height.
  rewrite Hr, Hn.
  destruct (includes resolution (u " x "));
    cbn [Eff.bind post_increment Eff.get Eff.put Eff.ret Eff.lift];
    rewrite (get_readable monitor "_name" R);
    cbn [Eff.bind post_increment Eff.get Eff.put Eff.ret Eff.lift];
    rewrite (text_of_or _ _ Hn); reflexivity.
Qed.

Lemma macos_monitors_plain (entries : list value) (s : locals) :
  forallb plain_monitor entries = true ->
  Eff.for_of macos_monitor entries s =
  (Ok tt, {| monitors := monitors s ++
               numbered_from (monitorId s) (map profiler_record entries);
             monitorId := monitorId s + List.length entries |}).
Proof.
  revert s; induction entries as [|m entries IH]; intros s H; simpl.
  - rewrite app_nil_r, Nat.add_0_r. now destruct s.
  - apply andb_true_iff in H as [Hm H]. unfold Eff.bind.
    rewrite (macos_monitor_plain m s Hm), (IH _ H). simpl.
    rewrite <- app_assoc. simpl. do 2 f_equal. lia.
Qed.

Lemma macos_display_plain (display : value) (s : locals) :
  plain_adapter display = true ->
  macos_display display s =
  (Ok tt, {| monitors := monitors s ++
               numbered_from (monitorId s)
                 (map profiler_record (adapter_monitors display));
             monitorId := monitorId s
                          + List.length (adapter_monitors display) |}).
Proof.
  unfold plain_adapter, adapter_monitors. intros H.
  apply andb_true_iff in H as [R H].
  unfold macos_display. unfold Eff.bind at 1. unfold Eff.lift at 1.
  rewrite (get_readable display "spdisplays_ndrvs" R).
  destruct (Js.or (Js.field "spdisplays_ndrvs" display) (VArr []))
    as [| | | | |entries|]; try discriminate.
  cbn [Js.iterate Eff.bind Eff.lift].
  now apply macos_monitors_plain.
Qed.

Lemma macos_displays_plain (displays : list value) (s : locals) :
  forallb plain_adapter displays = true ->
  Eff.for_of macos_display displays s =
  (Ok tt, {| monitors := monitors s ++
               numbered_from (monitorId s)
                 (map profiler_record (concat (map adapter_monitors displays)));
             monitorId := monitorId s
                          + List.length (concat (map adapter_monitors displays)) |}).
Proof.
  revert s; induction displays as [|d displays IH]; intros s H; simpl.
  - rewrite app_nil_r, Nat.add_0_r. now destruct s.
  - apply andb_true_iff in H as [Hd H]. unfold Eff.bind.
    rewrite (macos_display_plain d s Hd), (IH _ H). simpl.
    rewrite map_app, numbered_from_app, length_map, length_app.
    rewrite <- app_assoc. do 2 f_equal. lia.
Qed.

(** X3.  On [system_profiler] output of the expected shape,
    [_getMacOSMonitors] returns one record for each monitor of each
    adapter, in order, the numbering running on from one adapter to the
    next; a record keeps the monitor's name when it has one, takes width
    and height from its resolution, and its [retina] flag tells whether
    the name contains "Retina". *)
Theorem macos_records_are_all_monitors (RT : Runtime) (h : Host)
  (stdout : jsstring) (data : value) :
  execAsync h (u "system_profiler SPDisplaysDataType -json") 15000
    = Ok stdout ->
  JSON_parse stdout = Ok data ->
  plain_output data = true ->
  _getMacOSMonitors h = Ok (profiler_records data) /\
  List.length (profiler_records data)
    = List.length (concat (map adapter_monitors (output_adapters data))).
Proof.
  intros He Hp Hd. split.
  - unfold _getMacOSMonitors, macos_try. rewrite returning_monitors_eq. f_equal.
    unfold Eff.bind at 1. unfold Eff.lift at 1. rewrite He.
    unfold Eff.bind at 1. unfold Eff.lift at 1. rewrite Hp.
    unfold plain_output in Hd. apply andb_true_iff in Hd as [R Hd].
    unfold Eff.bind at 1. unfold Eff.lift at 1.
    rewrite (get_readable data "SPDisplaysDataType" R).
    unfold profiler_records, output_adapters.
    destruct (Js.or (Js.field "SPDisplaysDataType" data) (VArr []))
      as [| | | | |adapters|]; try discriminate.
    cbn [Js.iterate Eff.bind Eff.lift].
    now rewrite (macos_displays_plain adapters locals0 Hd).
  - unfold profiler_records. now rewrite numbered_from_length, length_map.
Qed.

Lemma macos_records_witness :
  execAsync profiler_host (u "system_profiler SPDisplaysDataType -json") 15000
    = Ok profiler_text /\
  JSON_parse (Runtime := sample_runtime) profiler_text = Ok profiler_output /\
  plain_output profiler_output = true /\
  _getMacOSMonitors (RT := sample_runtime) profiler_host
    = Ok (profiler_records profiler_output) /\
  List.length (profiler_records profiler_output)
    = List.length (concat (map adapter_monitors
                                 (output_adapters profiler_output))).
Proof.
  split; [reflexivity|]. split; [reflexivity|]. split; [reflexivity|].
  apply (macos_records_are_all_monitors sample_runtime profiler_host
           profiler_text profiler_output); reflexivity.
Defined.

(* ================================================================== *)
(** ** Failures inside the strategies *)
(* ================================================================== *)









(** X4.  When the graphics query reports a display, the result of
    [getMonitorInfo] depends on nothing but that report and the platform
    name: neither the child processes nor [JSON.parse] have a part in
    it. *)
Theorem graphics_report_decides_alone (RT1 RT2 : Runtime) (h1 h2 : Host)
  (g : option Graphics.t) :
  os_platform h1 = os_platform h2 ->
  si_graphics h1 = Ok g -> si_graphics h2 = Ok g ->
  systeminformation_monitors g <> [] ->
  getMonitorInfo (RT := RT1) h1 = getMonitorInfo (RT := RT2) h2.
Proof.
  intros Hp H1 H2 Hg.
  destruct (platform_monitors_ok (RT := RT1) h1) as (s1 & t1 & P1 & _).
  destruct (platform_monitors_ok (RT := RT2) h2) as (s2 & t2 & P2 & _).
  rewrite (getMonitorInfo_returns (RT := RT1) h1 g s1 H1 P1).
  rewrite (getMonitorInfo_returns (RT := RT2) h2 g s2 H2 P2).
  rewrite Hp. destruct (systeminformation_monitors g); [congruence|reflexivity].
Qed.

Lemma graphics_report_witness :
  os_platform display_host
    = os_platform (host_with "linux" (Ok one_display) TimedOut
                             (Throw (u "ps failed"))) /\
  si_graphics display_host = Ok one_display /\
  systeminformation_monitors one_display <> [] /\
  getMonitorInfo (RT := sample_runtime) display_host =
  getMonitorInfo (RT := runtime_parsing (fun _ => Throw (u "Unexpected token")))
    (host_with "linux" (Ok one_display) TimedOut (Throw (u "ps failed"))).
Proof.
  split; [reflexivity|]. split; [reflexivity|]. split; [discriminate|].
  apply (graphics_report_decides_alone sample_runtime
           (runtime_parsing (fun _ => Throw (u "Unexpected token")))
           display_host
           (host_with "linux" (Ok one_display) TimedOut (Throw (u "ps failed")))
           one_display);
    try reflexivity; discriminate.
Defined.

(* ================================================================== *)
(** ** Further properties: the process list *)
(* ================================================================== *)

Lemma Sorted_firstn {A : Type} (R : A -> A -> Prop) (n : nat) (l : list A) :
  Sorted R l -> Sorted R (firstn n l).
Proof.
  revert n; induction l as [|x l IH]; intros [|n] H; simpl;
    try constructor.
  - apply IH. now inversion H.
  - inversion H as [|? ? _ Hh]; subst.
    destruct l as [|y l]; destruct n; simpl; constructor.
    now inversion Hh.
Qed.

Lemma to_integer_nonnegative (q : Q) :
  (0 <= q)%Q -> Js.to_integer q = Qfloor q /\ (0 <= Qfloor q)%Z.
Proof.
  intros H. unfold Js.to_integer.
  apply Qle_bool_iff in H as B. rewrite B. split; [reflexivity|].
  change 0%Z with (Qfloor 0). now apply Qfloor_resp_le.
Qed.

Lemma compare_code_units_antisym (a b : jsstring) :
  (0 < compare_code_units a b)%Z -> (compare_code_units b a <= 0)%Z.
Proof.
  revert b; induction a as [|x a IH]; intros [|y b]; simpl; try lia.
  destruct (N.ltb_spec x y); [lia|].
  destruct (N.ltb_spec y x); [lia|]. apply IH.
Qed.

(** X5.  With a limit that is not negative, [getRunningProcesses] lists
    the first floor(limit) processes of the sorted list, all of them when
    there are fewer: min(floor(limit), total) processes.  The sorted list
    is the whole list of the provider, sorted by the key before anything
    is cut: a rearrangement of it by the stable sort, in descending order
    of CPU load for the key 'cpu' or no key, and of resident memory for
    'memory'; the processes listed are its leading ones, in that order. *)
Theorem nonnegative_limit_keeps_the_first (RT : Runtime) (h : Host)
  (processes : Processes.t) (limit : Q) (sortBy : value) :
  (0 <= limit)%Q -> si_processes h = Ok processes ->
  exists sorted kept : list Process.t,
    getRunningProcesses h (Some limit) sortBy =
      Ok (processes_result h processes kept) /\
    sorted = sort_processes (match sortBy with
                             | VUndef => VStr (u "cpu")
                             | v => v
                             end) (Processes.list processes) /\
    Permutation sorted (Processes.list processes) /\
    kept = firstn (Z.to_nat (Qfloor limit)) sorted /\
    List.length kept =
      Nat.min (Z.to_nat (Qfloor limit))
              (List.length (Processes.list processes)) /\
    (sortBy = VStr (u "cpu") \/ sortBy = VUndef ->
     sorted = Js.sort (fun a b => (Process.cpu b - Process.cpu a)%Q)
                      (Processes.list processes) /\
     StronglySorted cpu_descending sorted /\
     StronglySorted cpu_descending kept) /\
    (sortBy = VStr (u "memory") ->
     sorted = Js.sort (fun a b => (Process.memRss b - Process.memRss a)%Q)
                      (Processes.list processes) /\
     StronglySorted memory_descending sorted /\
     StronglySorted memory_descending kept).
Proof.
  intros Hl Hp. rewrite (getRunningProcesses_returns h processes _ _ Hp).
  destruct (to_integer_nonnegative limit Hl) as [Hi Hf].
  unfold selected_processes. rewrite Hi, slice_from_0.
  destruct (Z.ltb_spec (Qfloor limit) 0); [lia|].
  eexists; eexists. split; [reflexivity|]. split; [reflexivity|].
  split; [apply sort_processes_perm|]. split; [reflexivity|].
  split.
  { rewrite length_firstn.
    now rewrite (Permutation_length (sort_processes_perm _ _)). }
  split.
  - intros [-> | ->];
      rewrite sort_processes_by_cpu by reflexivity;
      (split; [reflexivity|]);
      (split; [|apply StronglySorted_firstn]); apply sort_by_cpu_sorted.
  - intros ->.
    change (sort_processes (VStr (u "memory")) (Processes.list processes))
      with (Js.sort (fun a b => (Process.memRss b - Process.memRss a)%Q)
                    (Processes.list processes)).
    split; [reflexivity|].
    split; [|apply StronglySorted_firstn]; apply sort_by_memory_sorted.
Qed.

Lemma nonnegative_limit_witness :
  (0 <= 5 # 2)%Q /\
  si_processes process_host = Ok three_processes /\
  exists sorted kept : list Process.t,
    getRunningProcesses (RT := sample_runtime) process_host (Some (5 # 2)%Q)
        (VStr (u "memory")) =
      Ok (processes_result (RT := sample_runtime) process_host
            three_processes kept) /\
    sorted = sort_processes (RT := sample_runtime) (VStr (u "memory"))
                            (Processes.list three_processes) /\
    Permutation sorted (Processes.list three_processes) /\
    kept = firstn (Z.to_nat (Qfloor (5 # 2)%Q)) sorted /\
    List.length kept =
      Nat.min (Z.to_nat (Qfloor (5 # 2)%Q))
              (List.length (Processes.list three_processes)) /\
    (VStr (u "memory") = VStr (u "cpu") \/ VStr (u "memory") = VUndef ->
     sorted = Js.sort (fun a b => (Process.cpu b - Process.cpu a)%Q)
                      (Processes.list three_processes) /\
     StronglySorted cpu_descending sorted /\
     StronglySorted cpu_descending kept) /\
    (VStr (u "memory") = VStr (u "memory") ->
     sorted = Js.sort (fun a b => (Process.memRss b - Process.memRss a)%Q)
                      (Processes.list three_processes) /\
     StronglySorted memory_descending sorted /\
     StronglySorted memory_descending kept).
Proof.
  split; [discriminate|]. split; [reflexivity|].
  apply (nonnegative_limit_keeps_the_first sample_runtime process_host
           three_processes (5 # 2)%Q (VStr (u "memory")));
    [discriminate | reflexivity].
Defined.

(** X6.  Whatever the limit and the sort key, the processes that
    [getRunningProcesses] lists are provider processes, each listed at
    most as often as the provider reports it: together with the ones left
    out they are a rearrangement of the provider's list.  The summary
    does not depend on the limit or the key. *)
Theorem listed_processes_are_provider_processes (RT : Runtime) (h : Host)
  (processes : Processes.t) (limit : option Q) (sortBy : value) :
  si_processes h = Ok processes ->
  exists kept left_out : list Process.t,
    getRunningProcesses h limit sortBy =
      Ok (obj [("summary", summary processes);
               ("processes", VArr (map (format_process h) kept))]) /\
    Permutation (kept ++ left_out) (Processes.list processes) /\
    List.length (map (format_process h) kept)
      <= List.length (Processes.list processes).
Proof.
  intros Hp. rewrite (getRunningProcesses_returns h processes _ _ Hp).
  unfold selected_processes. rewrite slice_from_0.
  set (sorted := sort_processes _ _).
  set (n := if (_ <? 0)%Z then _ else _).
  exists (firstn n sorted), (skipn n sorted).
  split; [reflexivity|].
  assert (P : Permutation (firstn n sorted ++ skipn n sorted)
                          (Processes.list processes)).
  { rewrite firstn_skipn. apply sort_processes_perm. }
  split; [exact P|].
  rewrite length_map, <- (Permutation_length P), length_app. lia.
Qed.

Lemma listed_processes_witness :
  si_processes process_host = Ok three_processes /\
  exists kept left_out : list Process.t,
    getRunningProcesses (RT := sample_runtime) process_host (Some (-2)%Q)
        (VStr (u "name")) =
      Ok (obj [("summary", summary three_processes);
               ("processes",
                VArr (map (format_process (RT := sample_runtime) process_host)
                          kept))]) /\
    Permutation (kept ++ left_out) (Processes.list three_processes) /\
    List.length (map (format_process (RT := sample_runtime) process_host) kept)
      <= List.length (Processes.list three_processes).
Proof.
  split; [reflexivity|].
  apply (listed_processes_are_provider_processes sample_runtime process_host
           three_processes (Some (-2)%Q) (VStr (u "name"))).
  reflexivity.
Defined.

(** X7.  With the key 'name', and a [localeCompare] that never puts each
    of two names after the other, the processes listed are in ascending
    order of their names: each is followed by one that [localeCompare]
    does not put before it. *)
Theorem name_key_sorts_by_localeCompare (RT : Runtime) (h : Host)
  (processes : Processes.t) (limit : option Q) :
  (forall a b, (0 < localeCompare a b)%Z -> (localeCompare b a <= 0)%Z) ->
  si_processes h = Ok processes ->
  exists (sorted kept : list Process.t) (n : nat),
    getRunningProcesses h limit (VStr (u "name")) =
      Ok (processes_result h processes kept) /\
    Permutation sorted (Processes.list processes) /\
    Sorted name_ascending sorted /\
    kept = firstn n sorted /\
    Sorted name_ascending kept.
Proof.
  intros Hc Hp. rewrite (getRunningProcesses_returns h processes _ _ Hp).
  unfold selected_processes. rewrite slice_from_0.
  eexists; eexists; eexists. split; [reflexivity|].
  split; [apply sort_processes_perm|].
  split; [apply (sort_by_name_sorted _ Hc)|].
  split; [reflexivity|].
  apply Sorted_firstn, (sort_by_name_sorted _ Hc).
Qed.

Lemma name_key_witness :
  (forall a b, (0 < localeCompare (Runtime := sample_runtime) a b)%Z ->
               (localeCompare (Runtime := sample_runtime) b a <= 0)%Z) /\
  si_processes process_host = Ok three_processes /\
  exists (sorted kept : list Process.t) (n : nat),
    getRunningProcesses (RT := sample_runtime) process_host None
        (VStr (u "name")) =
      Ok (processes_result (RT := sample_runtime) process_host
            three_processes kept) /\
    Permutation sorted (Processes.list three_processes) /\
    Sorted (name_ascending (RT := sample_runtime)) sorted /\
    kept = firstn n sorted /\
    Sorted (name_ascending (RT := sample_runtime)) kept.
Proof.
  split; [exact compare_code_units_antisym|]. split; [reflexivity|].
  apply (name_key_sorts_by_localeCompare sample_runtime process_host
           three_processes None);
    [exact compare_code_units_antisym | reflexivity].
Defined.

(* ================================================================== *)
(** ** Further properties: the dispatch and the list of tools *)
(* ================================================================== *)

Section DispatchArguments.
Context {RT : Runtime}.

(** Two calls of the same name whose process handler gets arguments of
    the same effect are answered alike. *)
Lemma callTool_same_handler_arguments (h : Host) (name : jsstring)
  (a1 a2 : option Args.t) :
  getRunningProcesses h
    (match a1 with Some a => Args.limit a | None => None end)
    (match a1 with Some a => Args.sort_by a | None => VUndef end)
  = getRunningProcesses h
      (match a2 with Some a => Args.limit a | None => None end)
      (match a2 with Some a => Args.sort_by a | None => VUndef end) ->
  callTool h {| Params.name := name; Params.arguments := a1 |}
  = callTool h {| Params.name := name; Params.arguments := a2 |}.
Proof.
  intros E. unfold callTool. cbn [Params.name Params.arguments].
  now rewrite E.
Qed.

Lemma callTool_other_tool (h : Host) (name : jsstring) (a1 a2 : option Args.t) :
  name <> u "get_running_processes" ->
  callTool h {| Params.name := name; Params.arguments := a1 |}
  = callTool h {| Params.name := name; Params.arguments := a2 |}.
Proof.
  intros Hn. unfold callTool. cbn [Params.name Params.arguments].
  apply eqb_neq in Hn. now rewrite Hn.
Qed.

End DispatchArguments.

(** X8.  A call of a tool without arguments, or with arguments that
    leave out a property, is answered as the call with the defaults that
    the tool's input schema declares: limit 20 and sort_by 'cpu'. *)
Theorem omitted_arguments_are_the_declared_defaults (RT : Runtime) (h : Host)
  (name : jsstring) :
  declared_default "get_running_processes" "limit" = VNum 20 /\
  declared_default "get_running_processes" "sort_by" = VStr (u "cpu") /\
  callTool h {| Params.name := name; Params.arguments := None |}
  = callTool h {| Params.name := name;
                  Params.arguments :=
                    Some {| Args.limit := Some 20%Q;
                            Args.sort_by := VStr (u "cpu") |} |} /\
  (forall sort_by,
     callTool h {| Params.name := name;
                   Params.arguments :=
                     Some {| Args.limit := None; Args.sort_by := sort_by |} |}
     = callTool h {| Params.name := name;
                     Params.arguments :=
                       Some {| Args.limit := Some 20%Q;
                               Args.sort_by := sort_by |} |}) /\
  (forall limit,
     callTool h {| Params.name := name;
                   Params.arguments :=
                     Some {| Args.limit := limit; Args.sort_by := VUndef |} |}
     = callTool h {| Params.name := name;
                     Params.arguments :=
                       Some {| Args.limit := limit;
                               Args.sort_by := VStr (u "cpu") |} |}).
Proof.
  split; [reflexivity|]. split; [reflexivity|].
  split; [|split; intros]; apply callTool_same_handler_arguments; reflexivity.
Qed.

(** X9.  Every tool but get_running_processes ignores the arguments of
    the call. *)
Theorem other_tools_ignore_arguments (RT : Runtime) (h : Host)
  (name : jsstring) (a1 a2 : option Args.t) :
  name <> u "get_running_processes" ->
  callTool h {| Params.name := name; Params.arguments := a1 |}
  = callTool h {| Params.name := name; Params.arguments := a2 |}.
Proof. apply callTool_other_tool. Qed.

Lemma other_tools_witness :
  u "get_monitor_info" <> u "get_running_processes" /\
  callTool (RT := sample_runtime) xrandr_host
    {| Params.name := u "get_monitor_info"; Params.arguments := None |}
  = callTool (RT := sample_runtime) xrandr_host
      {| Params.name := u "get_monitor_info";
         Params.arguments :=
           Some {| Args.limit := Some 3%Q; Args.sort_by := VNull |} |}.
Proof.
  split; [discriminate|].
  apply (other_tools_ignore_arguments sample_runtime xrandr_host
           (u "get_monitor_info")).
  discriminate.
Defined.

Lemma listed_names_eq : listed_names = map VStr tool_names.
Proof. reflexivity. Qed.

Lemma listed_name_iff (name : jsstring) :
  In (VStr name) listed_names <-> In name tool_names.
Proof.
  rewrite listed_names_eq, in_map_iff. split.
  - intros (n & E & H). inversion E; now subst.
  - intros H. now exists name.
Qed.

Lemma response_of_result (RT : Runtime) (result : value) :
  Js.field "isError" (response (Ok result)) = VUndef.
Proof. destruct result; reflexivity. Qed.

(** X10.  The tools that [listTools] advertises are the tools that
    [callTool] dispatches: on a host where the handlers return, a call is
    answered without the error flag exactly when its name is a listed
    one, and a call of any other name is answered with the error of the
    unknown tool. *)
Theorem listed_tools_are_the_dispatched_ones (RT : Runtime) (h : Host)
  (params : Params.t) :
  handlers_return h ->
  exists answer : value,
    callTool h params = Ok answer /\
    (In (VStr (Params.name params)) listed_names <->
     Js.field "isError" answer = VUndef) /\
    (~ In (VStr (Params.name params)) listed_names ->
     answer = tool_error (u "Unknown tool: " ++ Params.name params)).
Proof.
  intros (Hcpu & Hmem & Hdisk & Hproc & Hsys & Hnet & Hquick).
  rewrite callTool_response. eexists. split; [reflexivity|].
  destruct (in_dec (list_eq_dec N.eq_dec) (Params.name params) tool_names)
    as [Hin|Hout].
  - split; [|intros Hn; apply listed_name_iff in Hin; contradiction].
    split; [intros _|intros _; now apply listed_name_iff].
    unfold handler_outcome, handler_table.
    destruct (getMonitorInfo_total h) as [info Hinfo].
    destruct Hcpu as [? Hcpu], Hmem as [? Hmem], Hdisk as [? Hdisk],
             Hproc as [? Hproc], Hsys as [? Hsys], Hnet as [? Hnet],
             Hquick as [? Hquick].
    unfold tool_names in Hin. simpl in Hin.
    repeat destruct Hin as [Hin|Hin]; try contradiction;
      rewrite <- Hin; cbn [find fst snd];
      repeat match goal with
             | |- context [JsString.eqb ?a ?b] =>
                 let c := eval vm_compute in (JsString.eqb a b) in
                 change (JsString.eqb a b) with c
             end;
      cbv iota;
      try rewrite Hcpu; try rewrite Hmem; try rewrite Hdisk;
      try rewrite (getRunningProcesses_returns h _ _ _ Hproc);
      try rewrite Hsys; try rewrite Hnet; try rewrite Hquick;
      try rewrite Hinfo; apply response_of_result.
  - rewrite (handler_outcome_unknown h params Hout).
    split; [|reflexivity].
    split; [intros Hin; apply listed_name_iff in Hin; contradiction|].
    discriminate.
Qed.

Lemma listed_tools_witness :
  handlers_return process_host /\
  exists answer : value,
    callTool (RT := sample_runtime) process_host
      {| Params.name := u "get_disk_usage"; Params.arguments := None |}
      = Ok answer /\
    (In (VStr (u "get_disk_usage")) listed_names <->
     Js.field "isError" answer = VUndef) /\
    (~ In (VStr (u "get_disk_usage")) listed_names ->
     answer = tool_error (u "Unknown tool: " ++ u "get_disk_usage")).
Proof.
  split.
  - unfold handlers_return. simpl. repeat split; eexists; reflexivity.
  - apply (listed_tools_are_the_dispatched_ones sample_runtime process_host
             {| Params.name := u "get_disk_usage";
                Params.arguments := None |}).
    unfold handlers_return. simpl. repeat split; eexists; reflexivity.
Defined.

(* ================================================================== *)
(** ** Further properties: the handlers that reformat provider data *)
(* ================================================================== *)


Lemma reports_earliest_one {A : Type} (p : promise A) :
  reports_earliest p [rejection p].
Proof.
  unfold reports_earliest, rejection. destruct (settles p) as [x|e].
  - intros t e' [H|[]]. discriminate.
  - split; [now left|]. intros t' e' [H|[]]. inversion H. lia.
Qed.

Lemma reports_earliest_guarded {A : Type} (fallback : A) (p : promise A) :
  reports_earliest (catch_with fallback p) [].
Proof.
  unfold reports_earliest, catch_with. simpl.
  destruct (settles p); intros t e [].
Qed.

Lemma reports_earliest_both {A B : Type} (a : promise A) (b : promise B)
  (la lb : list (nat * option jsstring)) :
  reports_earliest a la -> reports_earliest b lb ->
  reports_earliest (both a b) (la ++ lb).
Proof.
  unfold reports_earliest, both.
  destruct (settles a) as [x|ea], (settles b) as [y|eb]; simpl.
  - intros Ha Hb t e H. apply in_app_or in H as [H|H]; [eapply Ha | eapply Hb];
      eauto.
  - intros Ha [Hin Hmin]. split; [apply in_or_app; now right|].
    intros t' e' H. apply in_app_or in H as [H|H]; [|eauto].
    now apply Ha in H.
  - intros [Hin Hmin] Hb. split; [apply in_or_app; now left|].
    intros t' e' H. apply in_app_or in H as [H|H]; [eauto|].
    now apply Hb in H.
  - intros [Hina Hmina] [Hinb Hminb].
    destruct (Nat.ltb_spec (moment b) (moment a)); simpl.
    + split; [apply in_or_app; now right|].
      intros t' e' H'. apply in_app_or in H' as [H'|H'].
      * apply Hmina in H'. lia.
      * eauto.
    + split; [apply in_or_app; now left|].
      intros t' e' H'. apply in_app_or in H' as [H'|H'].
      * eauto.
      * apply Hminb in H'. lia.
Qed.

Lemma both_ok {A B : Type} (a : promise A) (b : promise B) (x : A) (y : B) :
  settles (both a b) = Ok (x, y) <-> settles a = Ok x /\ settles b = Ok y.
Proof.
  unfold both.
  destruct (settles a) as [x'|ea], (settles b) as [y'|eb]; simpl;
    try (destruct (_ <? _)%nat; simpl);
    split; try (intros E; inversion E; auto; fail);
    intros [E1 E2]; congruence.
Qed.

Lemma reports_earliest_throw {A : Type} (p : promise A)
  (l : list (nat * option jsstring)) (e : jsstring) :
  reports_earliest p l -> settles p = Throw e -> earliest_rejection e l.
Proof.
  unfold reports_earliest. intros H E. rewrite E in H.
  destruct H as [Hin Hmin]. now exists (moment p).
Qed.

(** X11.  [getQuickStats] returns exactly when the load, memory and
    file-system queries are all fulfilled; otherwise it throws the reason
    of a rejected one of them that no other rejected one came before. *)
Theorem quick_stats_waits_for_all_three (RT : Runtime) (m : Metrics) :
  ((exists v, Handlers.getQuickStats m = Ok v) <->
   (exists cpu mem disks,
      settles (si_currentLoad m) = Ok cpu /\
      settles (si_mem m) = Ok mem /\
      settles (si_fsSize m) = Ok disks)) /\
  (forall e,
     Handlers.getQuickStats m = Throw e ->
     earliest_rejection e [rejection (si_currentLoad m);
                           rejection (si_mem m);
                           rejection (si_fsSize m)]).
Proof.
  assert (Hr : reports_earliest
                 (both (si_currentLoad m) (both (si_mem m) (si_fsSize m)))
                 [rejection (si_currentLoad m); rejection (si_mem m);
                  rejection (si_fsSize m)]).
  { apply (reports_earliest_both _ _ [_] [_; _]);
      [apply reports_earliest_one|].
    apply (reports_earliest_both _ _ [_] [_]); apply reports_earliest_one. }
  unfold Handlers.getQuickStats.
  destruct (settles (both (si_currentLoad m) (both (si_mem m) (si_fsSize m))))
    as [[cpu [mem disks]]|e] eqn:E.
  - apply both_ok in E as [E1 E]. apply both_ok in E as [E2 E3].
    split; [|discriminate].
    split; [intros _; now exists cpu, mem, disks | intros _; eauto].
  - split.
    + split; [intros [v H]; discriminate|].
      intros (cpu & mem & disks & E1 & E2 & E3).
      assert (F : settles (both (si_currentLoad m)
                             (both (si_mem m) (si_fsSize m)))
                  = Ok (cpu, (mem, disks))).
      { apply both_ok. split; [exact E1|]. now apply both_ok. }
      congruence.
    + intros e' H. inversion H; subst.
      now apply (reports_earliest_throw _ _ _ Hr).
Qed.

Lemma strict_equals_true (v : value) (text : string) :
  strict_equals v text = true <-> v = VStr (u text).
Proof.
  destruct v; simpl; try (split; [discriminate | congruence]).
  rewrite eqb_eq. split; [congruence | intros E; now inversion E].
Qed.

Lemma find_first_root (before after : list Disk.t) (disk : Disk.t) :
  Disk.mount disk = VStr (u "/") ->
  Forall (fun d => Disk.mount d <> VStr (u "/")) before ->
  find (fun d => strict_equals (Disk.mount d) "/") (before ++ disk :: after)
    = Some disk.
Proof.
  intros Hd Hb. induction Hb as [|b before Hn _ IH]; simpl.
  - now rewrite (proj2 (strict_equals_true _ _) Hd).
  - rewrite (strict_equals_false _ _ Hn). exact IH.
Qed.

Lemma find_no_root (disks : list Disk.t) :
  Forall (fun d => Disk.mount d <> VStr (u "/")) disks ->
  find (fun d => strict_equals (Disk.mount d) "/") disks = None.
Proof.
  intros H. induction H as [|d disks Hn _ IH]; simpl; [reflexivity|].
  now rewrite (strict_equals_false _ _ Hn).
Qed.

(** X12.  When its three queries are fulfilled, [getQuickStats] reports
    the first file system mounted at "/"; when none is mounted there, the
    first file system of the list; and "N/A" when the list is empty. *)
Theorem quick_stats_reports_the_root_disk (RT : Runtime) (m : Metrics)
  (cpu : Load.t) (mem : Mem.t) (disks : list Disk.t) :
  settles (si_currentLoad m) = Ok cpu ->
  settles (si_mem m) = Ok mem ->
  settles (si_fsSize m) = Ok disks ->
  exists result : value,
    Handlers.getQuickStats m = Ok result /\
    (disks = [] -> Js.field "disk" result = VStr (u "N/A")) /\
    (forall before disk after,
       disks = before ++ disk :: after ->
       Disk.mount disk = VStr (u "/") ->
       Forall (fun d => Disk.mount d <> VStr (u "/")) before ->
       Js.field "mount" (Js.field "disk" result) = VStr (u "/") /\
       Js.field "usage" (Js.field "disk" result)
         = VStr (toFixed (Disk.use disk) 1 ++ u "%")) /\
    (forall disk rest,
       disks = disk :: rest ->
       Forall (fun d => Disk.mount d <> VStr (u "/")) disks ->
       Js.field "mount" (Js.field "disk" result) = Disk.mount disk /\
       Js.field "usage" (Js.field "disk" result)
         = VStr (toFixed (Disk.use disk) 1 ++ u "%")).
Proof.
  intros E1 E2 E3.
  assert (E : settles (both (si_currentLoad m) (both (si_mem m) (si_fsSize m)))
              = Ok (cpu, (mem, disks))).
  { apply both_ok. split; [exact E1|]. now apply both_ok. }
  unfold Handlers.getQuickStats. rewrite E.
  eexists. split; [reflexivity|].
  split; [intros ->; reflexivity|].
  split.
  - intros before disk after -> Hd Hb.
    cbn [Js.field obj map fst snd Js.lookup JsString.eqb u].
    change (Js.field "mount" ?x) with (Js.field "mount" x).
    unfold Handlers.mainDisk. rewrite (find_first_root _ _ _ Hd Hb).
    split; [exact Hd | reflexivity].
  - intros disk rest -> Hn.
    unfold Js.field at 2 4. cbn [obj map fst snd Js.lookup].
    unfold Handlers.mainDisk. rewrite (find_no_root _ Hn).
    split; reflexivity.
Qed.

Lemma quick_stats_witness :
  settles (si_currentLoad sample_metrics) = Ok sample_load /\
  settles (si_mem sample_metrics) = Ok sample_mem /\
  settles (si_fsSize sample_metrics) = Ok sample_disks /\
  exists result : value,
    Handlers.getQuickStats (RT := sample_runtime) sample_metrics
      = Ok result /\
    (sample_disks = [] -> Js.field "disk" result = VStr (u "N/A")) /\
    (forall before disk after,
       sample_disks = before ++ disk :: after ->
       Disk.mount disk = VStr (u "/") ->
       Forall (fun d => Disk.mount d <> VStr (u "/")) before ->
       Js.field "mount" (Js.field "disk" result) = VStr (u "/") /\
       Js.field "usage" (Js.field "disk" result)
         = VStr (toFixed (Runtime := sample_runtime) (Disk.use disk) 1
                 ++ u "%")) /\
    (forall disk rest,
       sample_disks = disk :: rest ->
       Forall (fun d => Disk.mount d <> VStr (u "/")) sample_disks ->
       Js.field "mount" (Js.field "disk" result) = Disk.mount disk /\
       Js.field "usage" (Js.field "disk" result)
         = VStr (toFixed (Runtime := sample_runtime) (Disk.use disk) 1
                 ++ u "%")).
Proof.
  split; [reflexivity|]. split; [reflexivity|]. split; [reflexivity|].
  apply (quick_stats_reports_the_root_disk sample_runtime sample_metrics
           sample_load sample_mem sample_disks); reflexivity.
Defined.

Lemma both_guarded_throw {A B : Type} (a : promise A) (b : promise B)
  (fallback : B) (e : jsstring) :
  settles a = Throw e -> settles (both a (catch_with fallback b)) = Throw e.
Proof.
  intros E. unfold both, catch_with. simpl. rewrite E.
  now destruct (settles b).
Qed.

(** X13.  [getNetworkInfo] throws exactly when the interface query is
    rejected, with its reason; a rejected connection query is no error:
    the interfaces are listed all the same, one entry each, and all the
    connection counts are 0. *)
Theorem network_info_survives_the_connection_query (NT : NumberText)
  (m : Metrics) :
  (forall e,
     settles (si_networkInterfaces m) = Throw e ->
     Handlers.getNetworkInfo m = Throw e) /\
  (forall interfaces,
     settles (si_networkInterfaces m) = Ok interfaces ->
     exists result : value,
       Handlers.getNetworkInfo m = Ok result /\
       Js.field "interfaces" result
         = VArr (map Handlers.interface_info interfaces) /\
       List.length (map Handlers.interface_info interfaces)
         = List.length interfaces /\
       (forall e,
          settles (si_networkConnections m) = Throw e ->
          Js.field "connections" result
            = obj [("total", Js.num_of_nat 0);
                   ("tcp", Js.num_of_nat 0);
                   ("udp", Js.num_of_nat 0);
                   ("listening", Js.num_of_nat 0);
                   ("established", Js.num_of_nat 0)])).
Proof.
  split.
  - intros e E. unfold Handlers.getNetworkInfo.
    now rewrite (both_guarded_throw _ _ _ _ E).
  - intros interfaces E.
    destruct (settles (si_networkConnections m)) as [connections|e] eqn:Ec.
    + assert (F : settles (both (si_networkInterfaces m)
                             (catch_with [] (si_networkConnections m)))
                  = Ok (interfaces, connections)).
      { apply both_ok. split; [exact E|]. unfold catch_with. simpl.
        now rewrite Ec. }
      unfold Handlers.getNetworkInfo. rewrite F.
      eexists. split; [reflexivity|]. split; [reflexivity|].
      split; [apply length_map | discriminate].
    + assert (F : settles (both (si_networkInterfaces m)
                             (catch_with [] (si_networkConnections m)))
                  = Ok (interfaces, [])).
      { apply both_ok. split; [exact E|]. unfold catch_with. simpl.
        now rewrite Ec. }
      unfold Handlers.getNetworkInfo. rewrite F.
      eexists. split; [reflexivity|]. split; [reflexivity|].
      split; [apply length_map | reflexivity].
Qed.

Lemma filter_disjoint_length {A : Type} (p q : A -> bool) (l : list A) :
  (forall x, p x = true -> q x = false) ->
  List.length (filter p l) + List.length (filter q l) <= List.length l.
Proof.
  intros H. induction l as [|x l IH]; simpl; [lia|].
  destruct (p x) eqn:P.
  - rewrite (H x P). simpl. lia.
  - destruct (q x); simpl; lia.
Qed.

Lemma strict_equals_disjoint (v : value) (a b : string) :
  u a <> u b -> strict_equals v a = true -> strict_equals v b = false.
Proof.
  intros Hab Ha. apply strict_equals_true in Ha. subst v.
  apply strict_equals_false. congruence.
Qed.

(** X14.  The connection counts of [getNetworkInfo] are numbers of
    connections of the list: the TCP and the UDP connections together,
    and the listening and the established ones together, are never more
    than the total. *)
Theorem network_counts_stay_within_the_total (NT : NumberText)
  (m : Metrics) (interfaces : list Iface.t)
  (connections : list Connection.t) :
  settles (si_networkInterfaces m) = Ok interfaces ->
  settles (si_networkConnections m) = Ok connections ->
  exists (result : value) (tcp udp listening established : nat),
    Handlers.getNetworkInfo m = Ok result /\
    Js.field "connections" result
      = obj [("total", Js.num_of_nat (List.length connections));
             ("tcp", Js.num_of_nat tcp);
             ("udp", Js.num_of_nat udp);
             ("listening", Js.num_of_nat listening);
             ("established", Js.num_of_nat established)] /\
    tcp + udp <= List.length connections /\
    listening + established <= List.length connections.
Proof.
  intros Ei Ec.
  assert (F : settles (both (si_networkInterfaces m)
                         (catch_with [] (si_networkConnections m)))
              = Ok (interfaces, connections)).
  { apply both_ok. split; [exact Ei|]. unfold catch_with. simpl.
    now rewrite Ec. }
  unfold Handlers.getNetworkInfo. rewrite F.
  eexists; eexists; eexists; eexists; eexists.
  split; [reflexivity|]. split; [reflexivity|].
  split; apply filter_disjoint_length; intros c;
    apply strict_equals_disjoint; discriminate.
Qed.

Lemma network_counts_witness :
  settles (si_networkInterfaces connected_metrics) = Ok sample_interfaces /\
  settles (si_networkConnections connected_metrics) = Ok sample_connections /\
  exists (result : value) (tcp udp listening established : nat),
    Handlers.getNetworkInfo (NT := sample_numbers) connected_metrics
      = Ok result /\
    Js.field "connections" result
      = obj [("total", Js.num_of_nat (List.length sample_connections));
             ("tcp", Js.num_of_nat tcp);
             ("udp", Js.num_of_nat udp);
             ("listening", Js.num_of_nat listening);
             ("established", Js.num_of_nat established)] /\
    tcp + udp <= List.length sample_connections /\
    listening + established <= List.length sample_connections.
Proof.
  split; [reflexivity|]. split; [reflexivity|].
  apply (network_counts_stay_within_the_total sample_numbers
           connected_metrics sample_interfaces sample_connections);
    reflexivity.
Defined.

Lemma catch_with_ok {A : Type} (fallback : A) (p : promise A) (a : A) :
  settles (catch_with fallback p) = Ok a ->
  a = match settles p with
      | Ok x => x
      | Throw _ => fallback
      end.
Proof.
  unfold catch_with. simpl. destruct (settles p); intros E; now inversion E.
Qed.

Lemma catch_with_settles {A : Type} (fallback : A) (p : promise A) :
  settles (catch_with fallback p)
  = Ok match settles p with
       | Ok x => x
       | Throw _ => fallback
       end.
Proof. unfold catch_with. simpl. now destruct (settles p). Qed.

(** X15.  [getCpuInfo] returns exactly when the CPU and the load queries
    are fulfilled, and throws the reason of the earlier rejected of the
    two otherwise: the temperature query cannot make it fail.  The
    temperature is "Not available" when that query is rejected or
    reports [null] or 0, and the reported number followed by the degree
    sign and C otherwise. *)
Theorem cpu_info_does_not_need_the_temperature (RT : Runtime)
  (NT : NumberText) (m : Metrics) :
  ((exists v, Handlers.getCpuInfo m = Ok v) <->
   (exists cpu load,
      settles (si_cpu m) = Ok cpu /\ settles (si_currentLoad m) = Ok load)) /\
  (forall result,
     Handlers.getCpuInfo m = Ok result ->
     Js.field "temperature" result =
     match settles (si_cpuTemperature m) with
     | Ok {| Temperature.main := Some t |} =>
         if Qeq_bool t 0 then VStr (u "Not available")
         else VStr (Number_toString t ++ [176%N] ++ u "C")
     | Ok {| Temperature.main := None |} => VStr (u "Not available")
     | Throw _ => VStr (u "Not available")
     end) /\
  (forall e,
     Handlers.getCpuInfo m = Throw e ->
     earliest_rejection e [rejection (si_cpu m);
                           rejection (si_currentLoad m)]).
Proof.
  set (temp := catch_with {| Temperature.main := None |} (si_cpuTemperature m)).
  assert (Hr : reports_earliest (both (si_cpu m) (both (si_currentLoad m) temp))
                 [rejection (si_cpu m); rejection (si_currentLoad m)]).
  { apply (reports_earliest_both _ _ [_] [_]); [apply reports_earliest_one|].
    apply (reports_earliest_both _ _ [_] []);
      [apply reports_earliest_one | apply reports_earliest_guarded]. }
  unfold Handlers.getCpuInfo. fold temp.
  destruct (settles (both (si_cpu m) (both (si_currentLoad m) temp)))
    as [[cpu [load t]]|e] eqn:E.
  - apply both_ok in E as [E1 E]. apply both_ok in E as [E2 E3].
    split; [split; intros _; eauto|].
    split; [|discriminate].
    intros result H. inversion H; subst result. clear H.
    apply catch_with_ok in E3. subst t.
    cbn [Js.field obj map fst snd Js.lookup].
    destruct (settles (si_cpuTemperature m)) as [[[q|]]|e]; try reflexivity.
    cbn. now destruct (Qeq_bool q 0).
  - split; [split; [intros [v H]; discriminate|]|].
    + intros (cpu & load & E1 & E2).
      assert (F : settles (both (si_cpu m) (both (si_currentLoad m) temp))
                  = Ok (cpu, (load, match settles (si_cpuTemperature m) with
                                    | Ok x => x
                                    | Throw _ => {| Temperature.main := None |}
                                    end))).
      { apply both_ok. split; [exact E1|]. apply both_ok.
        split; [exact E2 | apply catch_with_settles]. }
      congruence.
    + split; [discriminate|].
      intros e' H. inversion H; subst.
      now apply (reports_earliest_throw _ _ _ Hr).
Qed.

(** X16.  [getSystemInfo] returns exactly when the operating-system,
    system and versions queries are fulfilled and [os.userInfo()] does
    not throw: the UUID query cannot make it fail.  When one of the three
    queries is rejected it throws the reason of the earliest rejected of
    them; when all three are fulfilled and [os.userInfo()] throws, it
    throws that error.  The hardware UUID is "N/A" when the UUID query is
    rejected or reports none. *)
Theorem system_info_does_not_need_the_uuid (m : Metrics) :
  ((exists v, Handlers.getSystemInfo m = Ok v) <->
   (exists osInfo system versions username,
      settles (si_osInfo m) = Ok osInfo /\
      settles (si_system m) = Ok system /\
      settles (si_versions m) = Ok versions /\
      os_userInfo m = Ok username)) /\
  (forall result,
     Handlers.getSystemInfo m = Ok result ->
     Js.field "uuid" (Js.field "hardware" result) =
     match settles (si_uuid m) with
     | Ok uuid => Js.or (Uuid.hardware uuid) (VStr (u "N/A"))
     | Throw _ => VStr (u "N/A")
     end /\
     os_userInfo m = Ok (Js.field "user" result)) /\
  (forall e,
     Handlers.getSystemInfo m = Throw e ->
     earliest_rejection e [rejection (si_osInfo m);
                           rejection (si_system m);
                           rejection (si_versions m)] \/
     ((exists osInfo system versions,
         settles (si_osInfo m) = Ok osInfo /\
         settles (si_system m) = Ok system /\
         settles (si_versions m) = Ok versions) /\
      os_userInfo m = Throw e)) /\
  (forall e,
     settles (si_osInfo m) = Throw e \/ settles (si_system m) = Throw e \/
     settles (si_versions m) = Throw e ->
     exists e',
       Handlers.getSystemInfo m = Throw e' /\
       earliest_rejection e' [rejection (si_osInfo m);
                              rejection (si_system m);
                              rejection (si_versions m)]).
Proof.
  set (uuid := catch_with {| Uuid.hardware := na |} (si_uuid m)).
  assert (Hr : reports_earliest
                 (both (si_osInfo m)
                    (both (si_system m) (both uuid (si_versions m))))
                 [rejection (si_osInfo m); rejection (si_system m);
                  rejection (si_versions m)]).
  { apply (reports_earliest_both _ _ [_] [_; _]); [apply reports_earliest_one|].
    apply (reports_earliest_both _ _ [_] [_]); [apply reports_earliest_one|].
    apply (reports_earliest_both _ _ [] [_]);
      [apply reports_earliest_guarded | apply reports_earliest_one]. }
  unfold Handlers.getSystemInfo. fold uuid.
  destruct (settles (both (si_osInfo m)
                       (both (si_system m) (both uuid (si_versions m)))))
    as [[osInfo [system [id versions]]]|e] eqn:E.
  - apply both_ok in E as [E1 E]. apply both_ok in E as [E2 E].
    apply both_ok in E as [E3 E4].
    apply catch_with_ok in E3. subst id.
    destruct (os_userInfo m) as [username|eu] eqn:Eu.
    + split; [split; intros _; eauto 8|].
      split; [|split; [discriminate|]].
      * intros result H. inversion H; subst result. clear H.
        split; [|reflexivity].
        cbn [Js.field obj map fst snd Js.lookup].
        destruct (settles (si_uuid m)) as [x|e]; reflexivity.
      * intros e [H|[H|H]]; congruence.
    + split.
      { split; [intros [v H]; discriminate|].
        intros (o & sy & ve & us & _ & _ & _ & H). discriminate. }
      split; [discriminate|]. split.
      * intros e H. inversion H; subst. right.
        split; [now exists osInfo, system, versions | reflexivity].
      * intros e [H|[H|H]]; congruence.
  - split.
    { split; [intros [v H]; discriminate|].
      intros (osInfo & system & versions & username & E1 & E2 & E3 & _).
      assert (F : settles (both (si_osInfo m)
                             (both (si_system m) (both uuid (si_versions m))))
                  = Ok (osInfo, (system,
                         (match settles (si_uuid m) with
                          | Ok x => x
                          | Throw _ => {| Uuid.hardware := na |}
                          end, versions)))).
      { apply both_ok. split; [exact E1|]. apply both_ok.
        split; [exact E2|]. apply both_ok.
        split; [apply catch_with_settles | exact E3]. }
      congruence. }
    split; [discriminate|].
    pose proof (reports_earliest_throw _ _ _ Hr E) as He.
    split.
    + intros e' H. inversion H; subst. now left.
    + intros e' _. exists e. split; [reflexivity | exact He].
Qed.

Section Uptime.
Local Open Scope Q_scope.

Lemma Qfloor_unique (q : Q) (n : Z) :
  inject_Z n <= q -> q < inject_Z n + 1 -> Qfloor q = n.
Proof.
  intros H1 H2.
  pose proof (Qfloor_le q) as F1. pose proof (Qlt_floor q) as F2.
  rewrite inject_Z_plus in F2. change (inject_Z 1) with 1 in F2.
  assert (A : inject_Z (Qfloor q) < inject_Z (n + 1)).
  { rewrite inject_Z_plus. change (inject_Z 1) with 1. lra. }
  assert (B : inject_Z n < inject_Z (Qfloor q + 1)).
  { rewrite inject_Z_plus. change (inject_Z 1) with 1. lra. }
  rewrite <- Zlt_Qlt in A, B. lia.
Qed.

Lemma Qfloor_bounds (q : Q) :
  inject_Z (Qfloor q) <= q /\ q < inject_Z (Qfloor q) + 1.
Proof.
  split; [apply Qfloor_le|].
  pose proof (Qlt_floor q) as F. rewrite inject_Z_plus in F. exact F.
Qed.

Lemma remainder_nonneg (x y : Q) :
  0 <= x -> 0 < y ->
  remainder x y == x - y * inject_Z (Qfloor (x / y)).
Proof.
  intros Hx Hy. unfold remainder.
  assert (0 <= x / y).
  { apply Qle_shift_div_l; lra. }
  destruct (to_integer_nonnegative _ H) as [-> _]. reflexivity.
Qed.

(** The parts of the uptime recompose it to within a minute. *)
Lemma uptime_parts (x : Q) :
  0 <= x ->
  let d := Handlers.uptimeDays x in
  let h := Handlers.uptimeHours x in
  let mi := Handlers.uptimeMinutes x in
  (0 <= d)%Z /\ (0 <= h < 24)%Z /\ (0 <= mi < 60)%Z /\
  inject_Z (86400 * d + 3600 * h + 60 * mi) <= x /\
  x < inject_Z (86400 * d + 3600 * h + 60 * mi + 60).
Proof.
  intros Hx. cbv zeta.
  unfold Handlers.uptimeDays, Handlers.uptimeHours, Handlers.uptimeMinutes, Math_floor.
  set (d := Qfloor (x / 86400)).
  set (H := Qfloor (x / 3600)).
  pose proof (Qfloor_bounds (x / 86400)) as [D1 D2]. fold d in D1, D2.
  pose proof (Qfloor_bounds (x / 3600)) as [H1 H2]. fold H in H1, H2.
  assert (X1 : x == 86400 * (x / 86400)) by (field).
  assert (X2 : x == 3600 * (x / 3600)) by (field).
  set (a := x / 86400) in *. set (b := x / 3600) in *.
  assert (R1 : remainder x 86400 == x - 86400 * inject_Z d).
  { apply remainder_nonneg; lra. }
  assert (R2 : remainder x 3600 == x - 3600 * inject_Z H).
  { apply remainder_nonneg; lra. }
  assert (Hh : Qfloor (remainder x 86400 / 3600) = (H - 24 * d)%Z).
  { apply Qfloor_unique.
    - rewrite R1. unfold Zminus. rewrite inject_Z_plus, inject_Z_opp, inject_Z_mult.
      change (inject_Z 24) with 24. apply Qle_shift_div_l; lra.
    - rewrite R1. unfold Zminus. rewrite inject_Z_plus, inject_Z_opp, inject_Z_mult.
      change (inject_Z 24) with 24. apply Qlt_shift_div_r; lra. }
  rewrite Hh.
  pose proof (Qfloor_bounds (remainder x 3600 / 60)) as [M1 M2].
  set (mi := Qfloor (remainder x 3600 / 60)) in *.
  assert (Y : remainder x 3600 == 60 * (remainder x 3600 / 60)) by field.
  set (c := remainder x 3600 / 60) in *.
  assert (Dz : (0 <= d)%Z).
  { apply Z.lt_succ_r. rewrite Zlt_Qlt. unfold Z.succ. rewrite inject_Z_plus.
    change (inject_Z 1) with 1. change (inject_Z 0) with 0. lra. }
  assert (Hd : (24 * d <= H < 24 * d + 24)%Z).
  { split.
    - apply Z.lt_succ_r. rewrite Zlt_Qlt. unfold Z.succ.
      rewrite inject_Z_plus, inject_Z_mult.
      change (inject_Z 1) with 1. change (inject_Z 24) with 24. lra.
    - rewrite Zlt_Qlt. rewrite inject_Z_plus, inject_Z_mult.
      change (inject_Z 24) with 24. lra. }
  assert (Mz : (0 <= mi < 60)%Z).
  { split.
    - apply Z.lt_succ_r. rewrite Zlt_Qlt. unfold Z.succ. rewrite inject_Z_plus.
      change (inject_Z 1) with 1. change (inject_Z 0) with 0. lra.
    - rewrite Zlt_Qlt. change (inject_Z 60) with 60. lra. }
  split; [exact Dz|]. split; [lia|]. split; [exact Mz|].
  replace (86400 * d + 3600 * (H - 24 * d) + 60 * mi)%Z with (3600 * H + 60 * mi)%Z by lia.
  rewrite !inject_Z_plus, !inject_Z_mult.
  change (inject_Z 3600) with 3600. change (inject_Z 60) with 60.
  split; lra.
Qed.

End Uptime.

(** X17.  For an uptime that is not negative, the text that
    [getSystemInfo] reports holds whole days, hours below 24 and minutes
    below 60, and these recompose the uptime to within a minute:
    86400 d + 3600 h + 60 m <= uptime < 86400 d + 3600 h + 60 m + 60. *)
Theorem uptime_text_recomposes_the_uptime (m : Metrics) (result : value) :
  (0 <= os_uptime m 0)%Q ->
  Handlers.getSystemInfo m = Ok result ->
  exists d h mi : Z,
    Js.field "uptime" result
      = VStr (of_Z d ++ u "d " ++ of_Z h ++ u "h " ++ of_Z mi ++ u "m") /\
    (0 <= d)%Z /\ (0 <= h < 24)%Z /\ (0 <= mi < 60)%Z /\
    (inject_Z (86400 * d + 3600 * h + 60 * mi) <= os_uptime m 0)%Q /\
    (os_uptime m 0 < inject_Z (86400 * d + 3600 * h + 60 * mi + 60))%Q.
Proof.
  intros Hu H.
  exists (Handlers.uptimeDays (os_uptime m 0)),
         (Handlers.uptimeHours (os_uptime m 0)),
         (Handlers.uptimeMinutes (os_uptime m 0)).
  split; [|apply (uptime_parts _ Hu)].
  unfold Handlers.getSystemInfo in H.
  destruct (settles _) as [[osInfo [system [uuid versions]]]|e];
    [|discriminate].
  destruct (os_userInfo m) as [username|e]; [|discriminate].
  inversion H. reflexivity.
Qed.

Lemma uptime_text_witness :
  exists result : value,
    (0 <= os_uptime sample_metrics 0)%Q /\
    Handlers.getSystemInfo sample_metrics = Ok result /\
    exists d h mi : Z,
      Js.field "uptime" result
        = VStr (of_Z d ++ u "d " ++ of_Z h ++ u "h " ++ of_Z mi ++ u "m") /\
      (0 <= d)%Z /\ (0 <= h < 24)%Z /\ (0 <= mi < 60)%Z /\
      (inject_Z (86400 * d + 3600 * h + 60 * mi)
         <= os_uptime sample_metrics 0)%Q /\
      (os_uptime sample_metrics 0
         < inject_Z (86400 * d + 3600 * h + 60 * mi + 60))%Q.
Proof.
  eexists. split; [discriminate|]. split; [reflexivity|].
  apply (uptime_text_recomposes_the_uptime sample_metrics);
    [discriminate | reflexivity].
Defined.

Example uptime_of_sample :
  Js.field "uptime"
    (match Handlers.getSystemInfo sample_metrics with
     | Ok result => result
     | Throw _ => VUndef
     end) = VStr (u "1d 2h 3m").
Proof. reflexivity. Qed.

Example quick_stats_of_sample :
  Handlers.getQuickStats (RT := sample_runtime) sample_metrics =
  Ok (obj [("cpu_usage", VStr (u "0.0%"));
           ("memory", obj [("usage", VStr (u "0.0%"));
                           ("used", VStr (u "0.0 GB"));
                           ("total", VStr (u "0.0 GB"))]);
           ("disk", obj [("usage", VStr (u "0.0%"));
                         ("used", VStr (u "0.0 GB"));
                         ("total", VStr (u "0.0 GB"));
                         ("mount", VStr (u "/"))]);
           ("uptime", VStr (u "1d 2h"))]).
Proof. reflexivity. Qed.

Example every_query_rejected :
  Handlers.getCpuInfo (RT := sample_runtime) (NT := sample_numbers)
    failing_metrics = Throw (u "currentLoad") /\
  Handlers.getQuickStats (RT := sample_runtime) failing_metrics
    = Throw (u "mem") /\
  Handlers.getSystemInfo failing_metrics = Throw (u "versions") /\
  Handlers.getNetworkInfo (NT := sample_numbers) failing_metrics
    = Throw (u "networkInterfaces").
Proof. repeat split. Qed.

(* ================================================================== *)
(** ** Further properties: the dispatch on the server's host *)
(* ================================================================== *)

Section ServerHost.
Context {RT : Runtime} {NT : NumberText}.

Lemma response_of_structure (result : value) :
  (forall text, result <> VStr text) ->
  response (Ok result) = tool_success (JSON_stringify result).
Proof. intros H. destruct result; try reflexivity. now destruct (H s). Qed.

Lemma getMonitorInfo_structure (h : Host) (result : value) :
  getMonitorInfo h = Ok result -> forall text, result <> VStr text.
Proof.
  intros H text. destruct (si_graphics h) as [g|e] eqn:Hg.
  - destruct (getMonitorInfo_chosen h g Hg) as (second & _ & E).
    rewrite E in H. inversion H. discriminate.
  - rewrite (getMonitorInfo_throws h e Hg) in H. inversion H. discriminate.
Qed.

Lemma getRunningProcesses_structure (h : Host) (limit : option Q)
  (sortBy result : value) :
  getRunningProcesses h limit sortBy = Ok result ->
  forall text, result <> VStr text.
Proof.
  unfold getRunningProcesses. destruct (si_processes h); [|discriminate].
  intros H text. inversion H. discriminate.
Qed.

Lemma handlers_structure (m : Metrics) (result : value) :
  Handlers.getCpuInfo m = Ok result \/ Handlers.getMemoryInfo m = Ok result \/
  Handlers.getDiskUsage m = Ok result \/ Handlers.getSystemInfo m = Ok result \/
  Handlers.getNetworkInfo m = Ok result \/
  Handlers.getQuickStats m = Ok result ->
  forall text, result <> VStr text.
Proof.
  unfold Handlers.getCpuInfo, Handlers.getMemoryInfo, Handlers.getDiskUsage,
    Handlers.getSystemInfo, Handlers.getNetworkInfo, Handlers.getQuickStats.
  intros H text.
  repeat destruct H as [H|H];
    match type of H with
    | match settles ?p with _ => _ end = _ =>
        destruct (settles p) as [x|e]; [|discriminate]
    end;
    repeat match goal with
           | x : (_ * _)%type |- _ => destruct x
           end;
    try match type of H with
        | match os_userInfo ?m with _ => _ end = _ =>
            destruct (os_userInfo m) as [username|e]; [|discriminate]
        end;
    inversion H; discriminate.
Qed.

End ServerHost.

(** X18.  On the server's own host every tool call whose handler returns
    is answered with one text block holding [JSON.stringify] of the
    handler's result: no handler returns a string, so the branch that
    passes a string result through is never taken. *)
Theorem server_answers_are_pretty_printed (RT : Runtime) (NT : NumberText)
  (m : Metrics) (platform : jsstring) (totalmem : Q)
  (exec : jsstring -> Z -> exec_outcome)
  (graphics : result (option Graphics.t)) (processes : result Processes.t)
  (params : Params.t) (result : value) :
  handler_outcome (server_host m platform totalmem exec graphics processes)
                  params = Ok result ->
  (forall text, result <> VStr text) /\
  callTool (server_host m platform totalmem exec graphics processes) params
    = Ok (tool_success (JSON_stringify result)).
Proof.
  intros H.
  assert (S : forall text, result <> VStr text).
  { revert H. unfold handler_outcome, handler_table.
    cbn [find fst snd server_host getCpuInfo getMemoryInfo getDiskUsage
         getSystemInfo getNetworkInfo getQuickStats].
    repeat match goal with
           | |- context [JsString.eqb (Params.name params) ?t] =>
               destruct (JsString.eqb (Params.name params) t)
           end;
      intros H; try discriminate;
      first [ now apply (getMonitorInfo_structure _ _ H)
            | now apply (getRunningProcesses_structure _ _ _ _ H)
            | apply (handlers_structure m); tauto ]. }
  split; [exact S|].
  rewrite callTool_response, H. f_equal. now apply response_of_structure.
Qed.

Lemma server_answers_witness :
  exists result : value,
    handler_outcome (RT := sample_runtime)
      (server_host (RT := sample_runtime) (NT := sample_numbers)
         sample_metrics (u "linux") 1 (fun _ _ => TimedOut)
         (Ok no_displays) (Ok three_processes))
      {| Params.name := u "get_system_info"; Params.arguments := None |}
      = Ok result /\
    (forall text, result <> VStr text) /\
    callTool (RT := sample_runtime)
      (server_host (RT := sample_runtime) (NT := sample_numbers)
         sample_metrics (u "linux") 1 (fun _ _ => TimedOut)
         (Ok no_displays) (Ok three_processes))
      {| Params.name := u "get_system_info"; Params.arguments := None |}
      = Ok (tool_success (JSON_stringify (Runtime := sample_runtime) result)).
Proof.
  eexists. split; [reflexivity|].
  apply (server_answers_are_pretty_printed sample_runtime sample_numbers
           sample_metrics (u "linux") 1 (fun _ _ => TimedOut)
           (Ok no_displays) (Ok three_processes)
           {| Params.name := u "get_system_info";
              Params.arguments := None |}).
  reflexivity.
Defined.
